(** * stromtracker: price cache, cost engine, billing window and budget alert

    A shallow embedding of [core/calculator.py], [core/price_api.py],
    [core/alerts.py] and [database/models.py].

    Conventions of the embedding.
    - Python [float] values (prices, energy, money, durations in hours) are
      embedded twice. In [Models], [Store], [PriceApi], [Calculator] and
      [Alerts] they are exact rationals [Q]: a statement there is about the
      arithmetic the code writes down, free of binary rounding, and the
      decoded payload is a typed list of records. In [PriceApi64],
      [Calculator64] and [Alerts64] they are the doubles the interpreter
      computes with (binary64, Rocq's primitive floats), [round] rounds the
      double, and the functions raise what the code raises on a payload that
      is not well formed: a statement about a value as the code rounds or
      compares it, or about an exception, is made there.
    - Python [int] values are [Z]; [//] is floor division, which is [Z.div]
      for the positive divisors used here.
    - A [datetime] is a count of microseconds of Europe/Oslo wall-clock time.
      Every datetime that reaches the cost engine carries the same [tzinfo]
      (naive values are stamped with [NORWAY_TZ], and [now] is read in it), and
      Python compares and subtracts such values on their wall-clock fields.
    - A SQLite table with a primary key is a [gmap] from the key to the row.
      The tables that are scanned and joined ([apparater], [sessions]) are
      the lists of their rows in rowid order, each with the last
      AUTOINCREMENT id it has given out ([Store.tables]); the period queries
      read them through [Store.database_of].
    - A stored timestamp is read back with its calendar date: it is a date
      and the microsecond of its day ([Store.datetime]).
    - The upstream price source is a function from (date, region) to the
      response it gives; the requests made are logged in the state. *)

From Stdlib Require Import ZArith QArith Qround Qabs Lia Lqa List String Ascii.
From Stdlib Require Import Sorting.Sorted Permutation Floats.
From stdpp Require Import gmap strings fin_maps pretty.

Local Open Scope Z_scope.

(** ** Python built-ins used by the code *)

Module Py.

(** Nearest integer, ties to the even one. *)
Definition round_half_even (x : Q) : Z :=
  let f := Qfloor x in
  match (x - inject_Z f ?= 1 # 2)%Q with
  | Lt => f
  | Gt => f + 1
  | Eq => if Z.even f then f else f + 1
  end.

(** [round(x, ndigits)] on a float, in exact arithmetic; [F64.round] is what
    the interpreter returns for a double. *)
Definition round (x : Q) (ndigits : nat) : Q :=
  let scale := 10 ^ Z.of_nat ndigits in
  (inject_Z (round_half_even (x * inject_Z scale)) / inject_Z scale)%Q.

(** [timedelta.total_seconds()], the timedelta being a count of microseconds. *)
Definition total_seconds (td : Z) : Q := (inject_Z td / 1000000)%Q.

(** Truth value of a dict: empty is false. *)
Definition dict_truthy {A} (d : gmap Z A) : bool := negb (Nat.eqb (size d) 0).

(** Exceptions the modelled code can raise, and the outcome of a call. *)
Inductive exn := ValueError.

Inductive outcome (A : Type) :=
  | Returned (a : A)
  | Raised (e : exn).
Arguments Returned {A} a.
Arguments Raised {A} e.

End Py.

(** ** Exceptions that reach the caller *)

Module Exn.

Inductive exception := KeyError | TypeError | ValueError | OverflowError.

Inductive result (A : Type) :=
  | Return (a : A)
  | Raise (e : exception).
Arguments Return {A} a.
Arguments Raise {A} e.

End Exn.

(** ** Python floats as the interpreter computes them *)

Module F64.

(** The rational a finite double stands for (0 for an infinity or a NaN,
    which no operation below is asked to round). *)
Definition exact (x : float) : Q :=
  match Prim2SF x with
  | S754_finite s m e =>
      let n := if s then Z.neg m else Z.pos m in
      if 0 <=? e then inject_Z (n * 2 ^ e)
      else Qmake n (2 ^ Z.to_pos (- e))
  | _ => 0%Q
  end.

Definition is_finite (x : float) : bool :=
  match Prim2SF x with
  | S754_finite _ _ _ | S754_zero _ => true
  | _ => false
  end.

(** The double nearest to a rational, ties to even: what a decimal literal,
    a JSON number, [float(n)] and the true division [n / d] of two ints
    give. *)
Definition nearest (q : Q) : float :=
  match Qnum q with
  | Z0 => PrimFloat.zero
  | Zpos n =>
      SF2Prim (SFdiv prec emax (S754_finite false n 0)
                 (S754_finite false (Qden q) 0))
  | Zneg n =>
      SF2Prim (SFdiv prec emax (S754_finite true n 0)
                 (S754_finite false (Qden q) 0))
  end.

(** [round(x, ndigits)]: the decimal with [ndigits] places nearest to the
    value of the double, ties to even, then the double nearest to that
    decimal; a zero keeps the sign of [x], infinities and NaN are
    returned as they are. *)
Definition round (x : float) (ndigits : nat) : float :=
  if is_finite x then
    let scale := 10 ^ Z.of_nat ndigits in
    let k := Py.round_half_even (exact x * inject_Z scale) in
    if k =? 0 then PrimFloat.mul x PrimFloat.zero
    else nearest (inject_Z k / inject_Z scale)
  else x.

(** [int(x)]: truncation toward zero. *)
Definition int (x : float) : Z :=
  Z.quot (Qnum (exact x)) (Z.pos (Qden (exact x))).

(** [timedelta.total_seconds()]: the int division
    [microseconds / 10**6]. *)
Definition total_seconds (td : Z) : float := nearest (inject_Z td / 1000000).

End F64.

(** ** datetime values *)

Module DT.

Definition HOUR : Z := 3600000000.
Definition DAY : Z := 24 * HOUR.

(** [dt.replace(minute=0, second=0, microsecond=0)]. *)
Definition replace_to_hour (dt : Z) : Z := dt - dt mod HOUR.

(** [dt.hour]. *)
Definition hour (dt : Z) : Z := (dt / HOUR) mod 24.

(** The calendar day of [dt]. [dt.strftime("%Y-%m-%d")] names that day, one
    string per day, and is used as a key only; the day number stands for it. *)
Definition strftime_date (dt : Z) : Z := dt / DAY.

End DT.

(** ** database/models.py *)

Module Models.

(** *** Price cache: table [price_cache], PRIMARY KEY (date, region, hour),
    value [price_nok] ([cached_at] is never read). *)

(** [cache_prices(date, region, prices)]: one INSERT OR REPLACE per entry,
    committed together. *)
Definition cache_prices (date : Z) (region : string) (prices : list (Z * Q))
    (cache : gmap (Z * string * Z) Q) : gmap (Z * string * Z) Q :=
  fold_left (fun c hp => <[(date, region, fst hp) := snd hp]> c) prices cache.

(** SELECT hour, price_nok FROM price_cache WHERE date = ? AND region = ? *)
Definition select_hour_price (date : Z) (region : string)
    (cache : gmap (Z * string * Z) Q) : list (Z * Q) :=
  omap (fun row : Z * string * Z * Q =>
          let '(d, r, h, p) := row in
          if decide (d = date /\ r = region) then Some (h, p) else None)
       (map_to_list cache).

(** [get_cached_prices(date, region)]. *)
Definition get_cached_prices (date : Z) (region : string)
    (cache : gmap (Z * string * Z) Q) : option (gmap Z Q) :=
  match select_hour_price date region cache with
  | [] => None
  | rows => Some (list_to_map rows)
  end.

(** *** Calendar dates: [datetime.date] and [calendar.monthrange] *)

Record date := mkdate { year : Z; month : Z; day : Z }.

Definition isleap (y : Z) : bool :=
  (y mod 4 =? 0) && (negb (y mod 100 =? 0) || (y mod 400 =? 0)).

(** Second component of [monthrange(year, month)] for a month in 1..12. *)
Definition days_in_month (y m : Z) : Z :=
  if m =? 2 then (if isleap y then 29 else 28)
  else if (m =? 4) || (m =? 6) || (m =? 9) || (m =? 11) then 30
  else 31.

(** [monthrange(year, month)[1]]; a month outside 1..12 raises. *)
Definition monthrange (y m : Z) : Py.outcome Z :=
  if (1 <=? m) && (m <=? 12) then Py.Returned (days_in_month y m)
  else Py.Raised Py.ValueError.

(** [date(year, month, day)]: raises ValueError outside year 1..9999, month
    1..12, day 1..days in that month. *)
Definition new_date (y m d : Z) : Py.outcome date :=
  if (1 <=? y) && (y <=? 9999) && (1 <=? m) && (m <=? 12)
     && (1 <=? d) && (d <=? days_in_month y m)
  then Py.Returned (mkdate y m d)
  else Py.Raised Py.ValueError.

(** Order of dates, which is the order of their ISO strings. *)
Definition date_leb (a b : date) : bool :=
  (year a <? year b)
  || ((year a =? year b)
      && ((month a <? month b)
          || ((month a =? month b) && (day a <=? day b)))).

(** *** Sessions and settings *)

Record session := mksession {
  s_id : Z;
  s_user_id : Z;
  s_end_date : option date;       (* date(end_time); None while running *)
  s_cancelled : bool;
  s_kwh : option Q;
  s_spot_cost_nok : option Q;
  s_fixed_cost_nok : option Q;
  s_total_cost_nok : option Q
}.

Record settings := mksettings {
  fixed_cost_nok : Q;
  budget_nok : option Q;
  period_start_day : Z;
  region : string;
  max_duration_hours : Z
}.

(** Column defaults of [user_settings]. *)
Definition default_settings : settings :=
  mksettings 1.0 None 1 "NO1" 0.

Record database := mkdb {
  sessions : list session;
  user_settings : gmap Z settings
}.

(** [get_user_settings(user_id)]: get or create. *)
Definition get_user_settings (user_id : Z) (db : database)
    : settings * database :=
  match user_settings db !! user_id with
  | Some row => (row, db)
  | None =>
      (default_settings,
       mkdb (sessions db) (<[user_id := default_settings]> (user_settings db)))
  end.

(** The period bounds computed at the head of [get_monthly_sessions]. *)
Definition period_bounds (year month period_start_day : Z)
    : Py.outcome (date * date) :=
  if period_start_day =? 1 then
    match new_date year month 1 with
    | Py.Raised e => Py.Raised e
    | Py.Returned start_date =>
        match monthrange year month with
        | Py.Raised e => Py.Raised e
        | Py.Returned last_day =>
            match new_date year month last_day with
            | Py.Raised e => Py.Raised e
            | Py.Returned end_date => Py.Returned (start_date, end_date)
            end
        end
    end
  else
    let '(prev_month, prev_year) :=
      if month =? 1 then (12, year - 1) else (month - 1, year) in
    match new_date prev_year prev_month period_start_day with
    | Py.Raised e => Py.Raised e
    | Py.Returned start_date =>
        let end_date :=
          if 1 <? period_start_day
          then new_date year month (period_start_day - 1)
          else match monthrange year month with
               | Py.Raised e => Py.Raised e
               | Py.Returned last_day => new_date year month last_day
               end in
        match end_date with
        | Py.Raised e => Py.Raised e
        | Py.Returned end_date => Py.Returned (start_date, end_date)
        end
    end.

(** [get_monthly_sessions(user_id, year, month, period_start_day)]: the
    completed, non-cancelled sessions of the user whose end date lies in the
    period, both bounds included. The rows come back in table order here;
    the callers modelled below only sum over them. *)
Definition get_monthly_sessions (user_id year month period_start_day : Z)
    (db : database) : Py.outcome (list session) :=
  match period_bounds year month period_start_day with
  | Py.Raised e => Py.Raised e
  | Py.Returned (start_date, end_date) =>
      Py.Returned
        (List.filter (fun s =>
                   (s_user_id s =? user_id)
                   && negb (s_cancelled s)
                   && match s_end_date s with
                      | Some d => date_leb start_date d && date_leb d end_date
                      | None => false
                      end)
                (sessions db))
  end.

End Models.

(** ** database/models.py: appliances, sessions, settings updates *)

Module Store.

Import Models.

(** A naive datetime as the TIMESTAMP columns hold it (ISO text): its date
    and the microsecond of its day. *)
Record datetime := mkdatetime { dt_date : date; dt_micro : Z }.

(** [date.toordinal()]: days before the year, days before the month, day. *)
Definition days_before_year (year : Z) : Z :=
  let y := year - 1 in
  y * 365 + y / 4 - y / 100 + y / 400.

Definition days_before_month (year month : Z) : Z :=
  nth (Z.to_nat month) [-1; 0; 31; 59; 90; 120; 151; 181; 212; 243; 273; 304; 334] 0
  + (if (2 <? month) && isleap year then 1 else 0).

Definition toordinal (d : date) : Z :=
  days_before_year (year d) + days_before_month (year d) (month d) + day d.

(** [a - b] for two datetimes of one zone, as a count of microseconds. *)
Definition micros_between (a b : datetime) : Z :=
  (toordinal (dt_date a) - toordinal (dt_date b)) * DT.DAY
  + (dt_micro a - dt_micro b).

(** Order of the ISO texts of two datetimes. *)
Definition datetime_leb (a b : datetime) : bool :=
  if date_leb (dt_date a) (dt_date b) && date_leb (dt_date b) (dt_date a)
  then dt_micro a <=? dt_micro b
  else date_leb (dt_date a) (dt_date b).

(** ORDER BY: the rows sorted by insertion, [le a b] telling that [a] may
    come before [b]. *)
Fixpoint insert_by {A} (le : A -> A -> bool) (a : A) (l : list A) : list A :=
  match l with
  | [] => [a]
  | b :: l' => if le a b then a :: l else b :: insert_by le a l'
  end.

Definition order_by {A} (le : A -> A -> bool) (l : list A) : list A :=
  fold_right (insert_by le) [] l.

(** COLLATE NOCASE: the 26 upper-case ASCII letters fold to lower case. *)
Definition fold_ascii (c : ascii) : ascii :=
  let n := nat_of_ascii c in
  if (65 <=? n)%nat && (n <=? 90)%nat then ascii_of_nat (n + 32) else c.

Fixpoint nocase (s : string) : string :=
  match s with
  | EmptyString => EmptyString
  | String c s' => String (fold_ascii c) (nocase s')
  end.

(** A row of [apparater] ([created_at] is never read). *)
Record apparat := mkapparat {
  a_id : Z;
  a_user_id : Z;
  a_name : string;
  a_low_watt : Z;
  a_high_watt : Z
}.

(** A row of [sessions]. *)
Record session_row := mkrow {
  r_id : Z;
  r_user_id : Z;
  r_apparat_id : Z;
  r_start_time : datetime;
  r_end_time : option datetime;
  r_watt_mode : string;
  r_actual_watt : Z;
  r_kwh : option Q;
  r_spot_cost_nok : option Q;
  r_fixed_cost_nok : option Q;
  r_total_cost_nok : option Q;
  r_cancelled : bool
}.

(** The two tables, rows in rowid order, each with the last AUTOINCREMENT
    id it has given out: an insert takes the id after it, and no row of a
    state that the operations reach has a higher one. *)
Record tables := mktables {
  apparater : list apparat;
  apparat_seq : Z;
  session_rows : list session_row;
  session_seq : Z
}.

(** *** Appliance operations *)

(** [user_id = ? AND name = ? COLLATE NOCASE]. *)
Definition same_apparat (user_id : Z) (name : string) (a : apparat) : bool :=
  (a_user_id a =? user_id) && String.eqb (nocase (a_name a)) (nocase name).

(** The range of an SQLite INTEGER: a Python int outside it cannot be bound
    to a statement. *)
Definition sqlite_int (n : Z) : bool := (- 2 ^ 63 <=? n) && (n <? 2 ^ 63).

(** [add_apparat(user_id, name, low_watt, high_watt)]: binding a number
    outside the INTEGER range raises OverflowError before the statement
    runs; the insert fails with IntegrityError, which is caught, on
    UNIQUE(user_id, name COLLATE NOCASE). *)
Definition add_apparat (user_id : Z) (name : string) (low_watt high_watt : Z)
    (t : tables) : Exn.result bool * tables :=
  if negb (sqlite_int user_id && sqlite_int low_watt && sqlite_int high_watt)
  then (Exn.Raise Exn.OverflowError, t)
  else if existsb (same_apparat user_id name) (apparater t)
  then (Exn.Return false, t)
  else
    let id := apparat_seq t + 1 in
    (Exn.Return true,
     mktables (apparater t ++ [mkapparat id user_id name low_watt high_watt])
       id (session_rows t) (session_seq t)).

(** [get_apparat(user_id, name)]. *)
Definition get_apparat (user_id : Z) (name : string) (t : tables)
    : option apparat :=
  find (same_apparat user_id name) (apparater t).

(** [get_all_apparater(user_id)]: ORDER BY name, the names compared by
    their bytes. *)
Definition get_all_apparater (user_id : Z) (t : tables) : list apparat :=
  order_by (fun a b => String.leb (a_name a) (a_name b))
    (List.filter (fun a => a_user_id a =? user_id) (apparater t)).

(** [delete_apparat(user_id, name)]. *)
Definition delete_apparat (user_id : Z) (name : string) (t : tables)
    : bool * tables :=
  let deleted := existsb (same_apparat user_id name) (apparater t) in
  (deleted,
   mktables
     (List.filter (fun a => negb (same_apparat user_id name a)) (apparater t))
     (apparat_seq t) (session_rows t) (session_seq t)).

(** *** Session operations *)

(** [start_session(user_id, apparat_id, watt_mode, actual_watt)]; [now] is
    the clock reading it stores. *)
Definition start_session (now : datetime) (user_id apparat_id : Z)
    (watt_mode : string) (actual_watt : Z) (t : tables) : Z * tables :=
  let id := session_seq t + 1 in
  (id,
   mktables (apparater t) (apparat_seq t)
     (session_rows t
      ++ [mkrow id user_id apparat_id now None watt_mode actual_watt
            None None None None false])
     id).

(** [JOIN apparater a ON s.apparat_id = a.id]. *)
Definition joined (t : tables) (s : session_row) : option apparat :=
  find (fun a => a_id a =? r_apparat_id s) (apparater t).

(** [get_active_session(user_id)]: the first row, in table order, of the
    joined rows that are the user's, have no end time and are not
    cancelled. *)
Definition get_active_session (user_id : Z) (t : tables)
    : option (session_row * apparat) :=
  let active s :=
    (r_user_id s =? user_id)
    && match r_end_time s with None => true | Some _ => false end
    && negb (r_cancelled s) in
  match find (fun s => active s
                       && match joined t s with
                          | Some _ => true
                          | None => false
                          end) (session_rows t) with
  | Some s =>
      match joined t s with
      | Some a => Some (s, a)
      | None => None
      end
  | None => None
  end.

(** [end_session(session_id, kwh, spot_cost, fixed_cost, total_cost)]. *)
Definition end_session (now : datetime) (session_id : Z)
    (kwh spot_cost fixed_cost total_cost : Q) (t : tables) : tables :=
  mktables (apparater t) (apparat_seq t)
    (map (fun s =>
            if r_id s =? session_id then
              mkrow (r_id s) (r_user_id s) (r_apparat_id s) (r_start_time s)
                (Some now) (r_watt_mode s) (r_actual_watt s) (Some kwh)
                (Some spot_cost) (Some fixed_cost) (Some total_cost)
                (r_cancelled s)
            else s)
       (session_rows t))
    (session_seq t).

(** [cancel_session(session_id)]. *)
Definition cancel_session (now : datetime) (session_id : Z) (t : tables)
    : tables :=
  mktables (apparater t) (apparat_seq t)
    (map (fun s =>
            if r_id s =? session_id then
              mkrow (r_id s) (r_user_id s) (r_apparat_id s) (r_start_time s)
                (Some now) (r_watt_mode s) (r_actual_watt s) (r_kwh s)
                (r_spot_cost_nok s) (r_fixed_cost_nok s) (r_total_cost_nok s)
                true
            else s)
       (session_rows t))
    (session_seq t).

(** The completed, non-cancelled joined rows of a user. *)
Definition completed (user_id : Z) (t : tables) : list session_row :=
  List.filter
    (fun s =>
       (r_user_id s =? user_id)
       && match r_end_time s with Some _ => true | None => false end
       && negb (r_cancelled s)
       && match joined t s with Some _ => true | None => false end)
    (session_rows t).

(** ORDER BY end_time DESC; a NULL end time sorts last. *)
Definition ends_after (a b : session_row) : bool :=
  match r_end_time a, r_end_time b with
  | Some ea, Some eb => datetime_leb eb ea
  | Some _, None => true
  | None, Some _ => false
  | None, None => true
  end.

(** [get_session_history(user_id, limit)]; a negative LIMIT is no limit. *)
Definition get_session_history (user_id limit : Z) (t : tables)
    : list session_row :=
  let sorted := order_by ends_after (completed user_id t) in
  if limit <? 0 then sorted else firstn (Z.to_nat limit) sorted.

(** [clear_sessions(user_id, month, year)]. *)
Definition clear_sessions (user_id : Z) (month year : option Z) (t : tables)
    : Py.outcome Z * tables :=
  let clear_all :=
    let kept :=
      List.filter (fun s => negb (r_user_id s =? user_id)) (session_rows t) in
    (Py.Returned
       (Z.of_nat (length (session_rows t)) - Z.of_nat (length kept)),
     mktables (apparater t) (apparat_seq t) kept (session_seq t)) in
  match month, year with
  | Some month, Some year =>
      if negb (month =? 0) && negb (year =? 0) then
        match new_date year month 1 with
        | Py.Raised e => (Py.Raised e, t)
        | Py.Returned start_date =>
            match monthrange year month with
            | Py.Raised e => (Py.Raised e, t)
            | Py.Returned last_day =>
                match new_date year month last_day with
                | Py.Raised e => (Py.Raised e, t)
                | Py.Returned end_date =>
                    let hit s :=
                      (r_user_id s =? user_id)
                      && match r_end_time s with
                         | Some e =>
                             date_leb start_date (dt_date e)
                             && date_leb (dt_date e) end_date
                         | None => false
                         end in
                    let kept :=
                      List.filter (fun s => negb (hit s)) (session_rows t) in
                    (Py.Returned
                       (Z.of_nat (length (session_rows t))
                        - Z.of_nat (length kept)),
                     mktables (apparater t) (apparat_seq t) kept
                       (session_seq t))
                end
            end
        end
      else clear_all
  | _, _ => clear_all
  end.

(** *** What the period queries see *)

(** A joined row as [get_monthly_sessions] reads it. *)
Definition to_session (s : session_row) : session :=
  mksession (r_id s) (r_user_id s)
    (match r_end_time s with Some e => Some (dt_date e) | None => None end)
    (r_cancelled s) (r_kwh s) (r_spot_cost_nok s) (r_fixed_cost_nok s)
    (r_total_cost_nok s).

(** The database of the period queries: the rows of [sessions] that join an
    appliance, and the settings. *)
Definition database_of (t : tables) (us : gmap Z settings) : database :=
  mkdb
    (map to_session
       (List.filter
          (fun s => match joined t s with Some _ => true | None => false end)
          (session_rows t)))
    us.

(** *** Settings updates *)

(** One keyword argument of [update_user_setting]. *)
Inductive setting_update :=
  | Set_fixed_cost_nok (v : Q)
  | Set_budget_nok (v : option Q)
  | Set_period_start_day (v : Z)
  | Set_region (v : string)
  | Set_max_duration_hours (v : Z)
  | Set_other (key : string).

Definition apply_update (row : settings) (u : setting_update) : settings :=
  match u with
  | Set_fixed_cost_nok v =>
      mksettings v (budget_nok row) (period_start_day row) (region row)
        (max_duration_hours row)
  | Set_budget_nok v =>
      mksettings (fixed_cost_nok row) v (period_start_day row) (region row)
        (max_duration_hours row)
  | Set_period_start_day v =>
      mksettings (fixed_cost_nok row) (budget_nok row) v (region row)
        (max_duration_hours row)
  | Set_region v =>
      mksettings (fixed_cost_nok row) (budget_nok row) (period_start_day row)
        v (max_duration_hours row)
  | Set_max_duration_hours v =>
      mksettings (fixed_cost_nok row) (budget_nok row) (period_start_day row)
        (region row) v
  | Set_other _ => row
  end.

(** [update_user_setting(user_id, **kwargs)]: one UPDATE per known key, in
    the order given. *)
Definition update_user_setting (user_id : Z) (kwargs : list setting_update)
    (db : database) : database :=
  let '(_, db) := get_user_settings user_id db in
  fold_left
    (fun db u =>
       mkdb (sessions db)
         (alter (fun row => apply_update row u) user_id (user_settings db)))
    kwargs db.

End Store.

(** ** core/price_api.py *)

Module PriceApi.

Definition VALID_REGIONS : list string := ["NO1"; "NO2"; "NO3"; "NO4"; "NO5"].

Definition MVA_RATE : Q := 0.25.

Definition MVA_EXEMPT_REGIONS : list string := ["NO4"].

(** [region in regions]. *)
Definition region_in (region : string) (regions : list string) : bool :=
  existsb (String.eqb region) regions.

(** One record of the upstream payload: the hour of its [time_start] and its
    pre-tax [NOK_per_kWh]. Records are as the price source documents them,
    with both fields present and well-formed; a body that holds another
    element is in [PriceApi64]. *)
Record entry := mkentry { time_start_hour : Z; NOK_per_kWh : Q }.

(** What a GET of the day's price file does: the request or the decoding of
    its body raises (unreachable, timeout, undecodable), or a status comes
    back with the decoded list of records. *)
Inductive response :=
  | Fails
  | Replies (status : Z) (data : list entry).

(** State threaded through the price functions: the cache table and the log
    of upstream requests made, latest first. *)
Record world := mkworld {
  price_cache : gmap (Z * string * Z) Q;
  requests : list (Z * string)
}.

Definition M (A : Type) : Type := world -> A * world.

Definition ret {A} (a : A) : M A := fun w => (a, w).

Definition bind {A B} (m : M A) (k : A -> M B) : M B :=
  fun w => let (a, w') := m w in k a w'.

Notation "'do' x <- m ; k" := (bind m (fun x => k))
  (at level 10, x name, m at level 100, k at level 200).

Section Upstream.

Variable api : Z -> string -> response.

(** The loop of [fetch_daily_prices] that parses the response and adds MVA. *)
Definition parse_prices (mva_multiplier : Q) (data : list entry) : gmap Z Q :=
  fold_left
    (fun prices e =>
       let hour := time_start_hour e in
       let price_raw := NOK_per_kWh e in
       let price_with_mva := (price_raw * mva_multiplier)%Q in
       <[hour := Py.round price_with_mva 5]> prices)
    data ∅.

(** The part of [fetch_daily_prices] after the cache check: the request,
    the parse and the cache write. *)
Definition fetch_from_api (date_str : Z) (region : string)
    : M (option (gmap Z Q)) :=
  fun w =>
    let w := mkworld (price_cache w) ((date_str, region) :: requests w) in
    match api date_str region with
    | Fails => (None, w)
    | Replies status data =>
        if negb (status =? 200) then (None, w)
        else
          let mva_multiplier :=
            if region_in region MVA_EXEMPT_REGIONS then 1.0%Q
            else (1 + MVA_RATE)%Q in
          let prices := parse_prices mva_multiplier data in
          let w :=
            mkworld
              (Models.cache_prices date_str region (map_to_list prices)
                 (price_cache w))
              (requests w) in
          (Some prices, w)
    end.

(** [fetch_daily_prices(date, region)]. *)
Definition fetch_daily_prices (date : Z) (region : string)
    : M (option (gmap Z Q)) :=
  fun w =>
    if negb (region_in region VALID_REGIONS) then (None, w)
    else
      let date_str := DT.strftime_date date in
      let cached := Models.get_cached_prices date_str region (price_cache w) in
      match cached with
      | Some hit =>
          if Py.dict_truthy hit then (Some hit, w)
          else fetch_from_api date_str region w
      | None => fetch_from_api date_str region w
      end.

(** [prices.get(hour)] behind the guard [if not prices: return None]. *)
Definition price_at (prices : option (gmap Z Q)) (hour : Z) : option Q :=
  match prices with
  | Some d => if Py.dict_truthy d then d !! hour else None
  | None => None
  end.

(** [get_current_price(region)]; [now] is the clock reading it takes. *)
Definition get_current_price (now : Z) (region : string) : M (option Q) :=
  do prices <- fetch_daily_prices now region ;
  ret (price_at prices (DT.hour now)).

(** [get_price_for_hour(dt, region)]. *)
Definition get_price_for_hour (dt : Z) (region : string) : M (option Q) :=
  do prices <- fetch_daily_prices dt region ;
  ret (price_at prices (DT.hour dt)).

(** The [while current < end] loop of [get_prices_for_period]; [fuel] bounds
    the number of turns. *)
Fixpoint period_loop (fuel : nat) (current end_ : Z) (region : string)
    : M (list (Z * Q)) :=
  match fuel with
  | O => ret []
  | S fuel' =>
      if current <? end_ then
        do price <- get_price_for_hour current region ;
        do rest <- period_loop fuel' (current + DT.HOUR) end_ region ;
        ret (match price with
             | Some p => (current, p) :: rest
             | None => rest
             end)
      else ret []
  end.

(** Turns the loop takes from [current]: the hours that begin before [end]. *)
Definition turns (current end_ : Z) : nat :=
  Z.to_nat ((end_ - current + DT.HOUR - 1) / DT.HOUR).

(** [get_prices_for_period(start, end, region)]. *)
Definition get_prices_for_period (start end_ : Z) (region : string)
    : M (list (Z * Q)) :=
  let current := DT.replace_to_hour start in
  period_loop (turns current end_) current end_ region.

End Upstream.

(** [format_region_name(region)]: [names.get(region, region)]. *)
Definition region_names : gmap string string :=
  list_to_map
    [("NO1", "Oslo / Øst-Norge");
     ("NO2", "Kristiansand / Sør-Norge");
     ("NO3", "Trondheim / Midt-Norge");
     ("NO4", "Tromsø / Nord-Norge");
     ("NO5", "Bergen / Vest-Norge")]%string.

Definition format_region_name (region : string) : string :=
  match region_names !! region with
  | Some name => name
  | None => region
  end.

End PriceApi.

(** ** core/calculator.py *)

Module Calculator.

Import PriceApi.

(** [calculate_watt(low_watt, high_watt, mode)]. *)
Definition calculate_watt (low_watt high_watt : Z) (mode : string) : Z :=
  if String.eqb mode "low" then low_watt
  else if String.eqb mode "high" then high_watt
  else (low_watt + high_watt) / 2.

(** One item of [hourly_breakdown]; [bd_hour] is the hour of day that the
    label [hour_start.strftime("%H:%M")] shows. *)
Record breakdown_item := mkitem {
  bd_hour : Z;
  bd_fraction : Q;
  bd_price : Q;
  bd_kwh : Q;
  bd_cost : Q
}.

(** The dict that [calculate_session_cost] returns. *)
Record result := mkresult {
  hours : Q;
  kwh : Q;
  spot_cost : Q;
  fixed_cost : Q;
  total_cost : Q;
  avg_spot_price : Q;
  hourly_breakdown : list breakdown_item
}.

(** Fraction of the hour beginning at [hour_start] that the session used. *)
Definition hour_fraction (hour_start start_time end_time : Z) : Q :=
  let hour_end := hour_start + DT.HOUR in
  let actual_start := Z.max hour_start start_time in
  let actual_end := Z.min hour_end end_time in
  (Py.total_seconds (actual_end - actual_start) / 3600)%Q.

(** Running totals of the per-hour loop. *)
Record totals := mktotals {
  total_kwh : Q;
  total_spot_cost : Q;
  breakdown : list breakdown_item
}.

(** Body of the loop over [hourly_prices]. *)
Definition hour_step (start_time end_time watt : Z) (acc : totals)
    (hp : Z * Q) : totals :=
  let '(hour_start, price) := hp in
  let fraction := hour_fraction hour_start start_time end_time in
  if Qle_bool fraction 0 then acc
  else
    let hour_kwh := (fraction * (inject_Z watt / 1000))%Q in
    let hour_spot_cost := (hour_kwh * price)%Q in
    mktotals
      (total_kwh acc + hour_kwh)%Q
      (total_spot_cost acc + hour_spot_cost)%Q
      (breakdown acc ++
       [mkitem (DT.hour hour_start) (Py.round fraction 2) (Py.round price 4)
          (Py.round hour_kwh 4) (Py.round hour_spot_cost 2)]).

Definition hour_loop (start_time end_time watt : Z)
    (hourly_prices : list (Z * Q)) : totals :=
  fold_left (hour_step start_time end_time watt) hourly_prices
    (mktotals 0 0 []).

Section Upstream.

Variable api : Z -> string -> response.

(** [calculate_session_cost(start_time, end_time, watt, fixed_cost_per_kwh,
    region)]; [now] is the clock reading that [get_current_price] takes when
    the fallback is reached. *)
Definition calculate_session_cost (now : Z) (start_time end_time : Z)
    (watt : Z) (fixed_cost_per_kwh : Q) (region : string) : M result :=
  let duration := end_time - start_time in
  let total_hours := (Py.total_seconds duration / 3600)%Q in
  if Qle_bool total_hours 0 then
    ret (mkresult 0 0 0 0 0 0 [])
  else
    do hourly_prices <- get_prices_for_period api start_time end_time region ;
    match hourly_prices with
    | [] =>
        do current_price <- get_current_price api now region ;
        let current_price :=
          match current_price with
          | Some p => p
          | None => 1.5%Q
          end in
        let kwh := (total_hours * (inject_Z watt / 1000))%Q in
        let spot_cost := (kwh * current_price)%Q in
        let fixed_cost := (kwh * fixed_cost_per_kwh)%Q in
        ret (mkresult (Py.round total_hours 2) (Py.round kwh 4)
               (Py.round spot_cost 2) (Py.round fixed_cost 2)
               (Py.round (spot_cost + fixed_cost) 2)
               (Py.round current_price 4) [])
    | _ =>
        let acc := hour_loop start_time end_time watt hourly_prices in
        let total_fixed_cost := (total_kwh acc * fixed_cost_per_kwh)%Q in
        let avg_spot_price :=
          if Qle_bool (total_kwh acc) 0 then 0%Q
          else (total_spot_cost acc / total_kwh acc)%Q in
        ret (mkresult (Py.round total_hours 2) (Py.round (total_kwh acc) 4)
               (Py.round (total_spot_cost acc) 2)
               (Py.round total_fixed_cost 2)
               (Py.round (total_spot_cost acc + total_fixed_cost) 2)
               (Py.round avg_spot_price 4) (breakdown acc))
    end.

(** [estimate_current_cost(start_time, watt, fixed_cost_per_kwh, region)];
    [now] is the clock reading it takes, [later] the one a fallback takes. *)
Definition estimate_current_cost (now later : Z) (start_time : Z) (watt : Z)
    (fixed_cost_per_kwh : Q) (region : string) : M result :=
  calculate_session_cost later start_time now watt fixed_cost_per_kwh region.

End Upstream.

End Calculator.

(** ** core/price_api.py, with floats as doubles and with what it raises *)

Module PriceApi64.

Import PriceApi(VALID_REGIONS, MVA_EXEMPT_REGIONS, region_in, turns).

Definition MVA_RATE : float := F64.nearest 0.25.

(** One element of the decoded body as the parse loop meets it: a record
    whose [time_start] parses to a datetime of the given hour and whose
    [NOK_per_kWh] is a number, or an element on which the body of the loop
    raises (a key that is missing: KeyError; a value of another type:
    TypeError; a [time_start] that is no ISO datetime: ValueError). *)
Inductive element :=
  | Entry (time_start_hour : Z) (NOK_per_kWh : float)
  | Malformed (e : Exn.exception).

(** What the [try] block around the GET does: an exception in it (request,
    timeout, decoding of the body), or a status with the decoded body. *)
Inductive response :=
  | Fails
  | Replies (status : Z) (data : list element).

(** The cache table and the log of upstream requests, latest first. *)
Record world := mkworld {
  price_cache : gmap (Z * string * Z) float;
  requests : list (Z * string)
}.

Definition M (A : Type) : Type := world -> Exn.result A * world.

Definition ret {A} (a : A) : M A := fun w => (Exn.Return a, w).

Definition bind {A B} (m : M A) (k : A -> M B) : M B :=
  fun w =>
    match m w with
    | (Exn.Return a, w') => k a w'
    | (Exn.Raise e, w') => (Exn.Raise e, w')
    end.

Notation "'do' x <- m ; k" := (bind m (fun x => k))
  (at level 10, x name, m at level 100, k at level 200).

(** [cache_prices(date, region, prices)] and [get_cached_prices(date,
    region)] of [database/models.py], the REAL column holding doubles. *)
Definition cache_prices (date : Z) (region : string) (prices : list (Z * float))
    (cache : gmap (Z * string * Z) float) : gmap (Z * string * Z) float :=
  fold_left (fun c hp => <[(date, region, fst hp) := snd hp]> c) prices cache.

Definition get_cached_prices (date : Z) (region : string)
    (cache : gmap (Z * string * Z) float) : option (gmap Z float) :=
  match
    omap (fun row : Z * string * Z * float =>
            let '(d, r, h, p) := row in
            if decide (d = date /\ r = region) then Some (h, p) else None)
      (map_to_list cache)
  with
  | [] => None
  | rows => Some (list_to_map rows)
  end.

Section Upstream.

Variable api : Z -> string -> response.

(** The loop over [data], which stands outside the [try] block. *)
Fixpoint parse_prices (mva_multiplier : float) (data : list element)
    (prices : gmap Z float) : Exn.result (gmap Z float) :=
  match data with
  | [] => Exn.Return prices
  | Entry hour price_raw :: data' =>
      let price_with_mva := PrimFloat.mul price_raw mva_multiplier in
      parse_prices mva_multiplier data'
        (<[hour := F64.round price_with_mva 5]> prices)
  | Malformed e :: _ => Exn.Raise e
  end.

(** The part of [fetch_daily_prices] after the cache check. *)
Definition fetch_from_api (date_str : Z) (region : string)
    : M (option (gmap Z float)) :=
  fun w =>
    let w := mkworld (price_cache w) ((date_str, region) :: requests w) in
    match api date_str region with
    | Fails => (Exn.Return None, w)
    | Replies status data =>
        if negb (status =? 200) then (Exn.Return None, w)
        else
          let mva_multiplier :=
            if region_in region MVA_EXEMPT_REGIONS then F64.nearest 1.0
            else PrimFloat.add (F64.nearest 1) MVA_RATE in
          match parse_prices mva_multiplier data ∅ with
          | Exn.Raise e => (Exn.Raise e, w)
          | Exn.Return prices =>
              (Exn.Return (Some prices),
               mkworld
                 (cache_prices date_str region (map_to_list prices)
                    (price_cache w))
                 (requests w))
          end
    end.

(** [fetch_daily_prices(date, region)]. *)
Definition fetch_daily_prices (date : Z) (region : string)
    : M (option (gmap Z float)) :=
  fun w =>
    if negb (region_in region VALID_REGIONS) then (Exn.Return None, w)
    else
      let date_str := DT.strftime_date date in
      match get_cached_prices date_str region (price_cache w) with
      | Some hit =>
          if Py.dict_truthy hit then (Exn.Return (Some hit), w)
          else fetch_from_api date_str region w
      | None => fetch_from_api date_str region w
      end.

(** [prices.get(hour)] behind the guard [if not prices: return None]. *)
Definition price_at (prices : option (gmap Z float)) (hour : Z)
    : option float :=
  match prices with
  | Some d => if Py.dict_truthy d then d !! hour else None
  | None => None
  end.

(** [get_current_price(region)]; [now] is the clock reading it takes. *)
Definition get_current_price (now : Z) (region : string) : M (option float) :=
  do prices <- fetch_daily_prices now region ;
  ret (price_at prices (DT.hour now)).

(** [get_price_for_hour(dt, region)]. *)
Definition get_price_for_hour (dt : Z) (region : string) : M (option float) :=
  do prices <- fetch_daily_prices dt region ;
  ret (price_at prices (DT.hour dt)).

(** The [while current < end] loop of [get_prices_for_period]; [fuel] bounds
    the number of turns, and a price is appended before the next hour is
    asked for. *)
Fixpoint period_loop (fuel : nat) (current end_ : Z) (region : string)
    : M (list (Z * float)) :=
  match fuel with
  | O => ret []
  | S fuel' =>
      if current <? end_ then
        do price <- get_price_for_hour current region ;
        do rest <- period_loop fuel' (current + DT.HOUR) end_ region ;
        ret (match price with
             | Some p => (current, p) :: rest
             | None => rest
             end)
      else ret []
  end.

(** [get_prices_for_period(start, end, region)]. *)
Definition get_prices_for_period (start end_ : Z) (region : string)
    : M (list (Z * float)) :=
  let current := DT.replace_to_hour start in
  period_loop (turns current end_) current end_ region.

End Upstream.

End PriceApi64.

(** ** core/calculator.py, with floats as doubles *)

Module Calculator64.

Import PriceApi64.

(** One item of [hourly_breakdown]. *)
Record breakdown_item := mkitem {
  bd_hour : Z;
  bd_fraction : float;
  bd_price : float;
  bd_kwh : float;
  bd_cost : float
}.

(** The dict that [calculate_session_cost] returns; an int 0 of the source
    is the double 0. *)
Record result := mkresult {
  hours : float;
  kwh : float;
  spot_cost : float;
  fixed_cost : float;
  total_cost : float;
  avg_spot_price : float;
  hourly_breakdown : list breakdown_item
}.

(** [(end_time - start_time).total_seconds() / 3600]. *)
Definition hours_between (start_time end_time : Z) : float :=
  PrimFloat.div (F64.total_seconds (end_time - start_time)) (F64.nearest 3600).

(** [watt / 1000], a division of two ints. *)
Definition kilowatts (watt : Z) : float := F64.nearest (inject_Z watt / 1000).

(** Fraction of the hour beginning at [hour_start] that the session used. *)
Definition hour_fraction (hour_start start_time end_time : Z) : float :=
  let hour_end := hour_start + DT.HOUR in
  let actual_start := Z.max hour_start start_time in
  let actual_end := Z.min hour_end end_time in
  hours_between actual_start actual_end.

(** Running totals of the per-hour loop. *)
Record totals := mktotals {
  total_kwh : float;
  total_spot_cost : float;
  breakdown : list breakdown_item
}.

(** Body of the loop over [hourly_prices]. *)
Definition hour_step (start_time end_time watt : Z) (acc : totals)
    (hp : Z * float) : totals :=
  let '(hour_start, price) := hp in
  let fraction := hour_fraction hour_start start_time end_time in
  if PrimFloat.leb fraction PrimFloat.zero then acc
  else
    let hour_kwh := PrimFloat.mul fraction (kilowatts watt) in
    let hour_spot_cost := PrimFloat.mul hour_kwh price in
    mktotals
      (PrimFloat.add (total_kwh acc) hour_kwh)
      (PrimFloat.add (total_spot_cost acc) hour_spot_cost)
      (breakdown acc ++
       [mkitem (DT.hour hour_start) (F64.round fraction 2) (F64.round price 4)
          (F64.round hour_kwh 4) (F64.round hour_spot_cost 2)]).

Definition hour_loop (start_time end_time watt : Z)
    (hourly_prices : list (Z * float)) : totals :=
  fold_left (hour_step start_time end_time watt) hourly_prices
    (mktotals PrimFloat.zero PrimFloat.zero []).

(** The dict of the fallback branch, at the price it settles on. *)
Definition fallback_result (start_time end_time watt : Z)
    (fixed_cost_per_kwh current_price : float) : result :=
  let total_hours := hours_between start_time end_time in
  let kwh := PrimFloat.mul total_hours (kilowatts watt) in
  let spot_cost := PrimFloat.mul kwh current_price in
  let fixed_cost := PrimFloat.mul kwh fixed_cost_per_kwh in
  mkresult (F64.round total_hours 2) (F64.round kwh 4)
    (F64.round spot_cost 2) (F64.round fixed_cost 2)
    (F64.round (PrimFloat.add spot_cost fixed_cost) 2)
    (F64.round current_price 4) [].

Section Upstream.

Variable api : Z -> string -> response.

(** [calculate_session_cost(start_time, end_time, watt, fixed_cost_per_kwh,
    region)]; [now] is the clock reading that [get_current_price] takes when
    the fallback is reached. *)
Definition calculate_session_cost (now : Z) (start_time end_time : Z)
    (watt : Z) (fixed_cost_per_kwh : float) (region : string) : M result :=
  let total_hours := hours_between start_time end_time in
  if PrimFloat.leb total_hours PrimFloat.zero then
    ret (mkresult PrimFloat.zero PrimFloat.zero PrimFloat.zero PrimFloat.zero
           PrimFloat.zero PrimFloat.zero [])
  else
    do hourly_prices <- get_prices_for_period api start_time end_time region ;
    match hourly_prices with
    | [] =>
        do current_price <- get_current_price api now region ;
        let current_price :=
          match current_price with
          | Some p => p
          | None => F64.nearest 1.5
          end in
        ret (fallback_result start_time end_time watt fixed_cost_per_kwh
               current_price)
    | _ =>
        let acc := hour_loop start_time end_time watt hourly_prices in
        let total_fixed_cost :=
          PrimFloat.mul (total_kwh acc) fixed_cost_per_kwh in
        let avg_spot_price :=
          if PrimFloat.ltb PrimFloat.zero (total_kwh acc)
          then PrimFloat.div (total_spot_cost acc) (total_kwh acc)
          else PrimFloat.zero in
        ret (mkresult (F64.round total_hours 2) (F64.round (total_kwh acc) 4)
               (F64.round (total_spot_cost acc) 2)
               (F64.round total_fixed_cost 2)
               (F64.round
                  (PrimFloat.add (total_spot_cost acc) total_fixed_cost) 2)
               (F64.round avg_spot_price 4) (breakdown acc))
    end.

(** [estimate_current_cost(start_time, watt, fixed_cost_per_kwh, region)];
    [now] is the clock reading it takes, [later] the one a fallback takes. *)
Definition estimate_current_cost (now later : Z) (start_time : Z) (watt : Z)
    (fixed_cost_per_kwh : float) (region : string) : M result :=
  calculate_session_cost later start_time now watt fixed_cost_per_kwh region.

End Upstream.

(** [format_duration(hours)]; [//] and [%] by 60 are floor division and its
    remainder, an int prints in decimal. *)
Definition format_duration (hours : float) : string :=
  let total_minutes := F64.int (PrimFloat.mul hours (F64.nearest 60)) in
  let h := total_minutes / 60 in
  let m := total_minutes mod 60 in
  if h =? 0 then pretty m +:+ "m"
  else if m =? 0 then pretty h +:+ "h"
  else pretty h +:+ "h " +:+ pretty m +:+ "m".

End Calculator64.

(** ** core/alerts.py *)

Module Alerts.

Import Models.

(** The two messages of [check_budget_alert], by the numbers they print. *)
Inductive alert :=
  | BudgetExceeded (total_cost budget percentage : Q)
  | BudgetWarning (percentage remaining : Q).

(** [s.get("total_cost_nok", 0) or 0]. *)
Definition cost_or_0 (s : session) : Q :=
  match s_total_cost_nok s with
  | Some c => c
  | None => 0
  end.

(** [sum(... for s in sessions)]. *)
Definition sum_costs (ss : list session) : Q :=
  fold_left (fun acc s => (acc + cost_or_0 s)%Q) ss 0%Q.

(** [check_budget_alert(user_id)]; [now] is the date of the clock reading. *)
Definition check_budget_alert (now : date) (user_id : Z) (db : database)
    : Py.outcome (option alert) * database :=
  let '(settings, db) := get_user_settings user_id db in
  match budget_nok settings with
  | None => (Py.Returned None, db)
  | Some budget =>
      if Qle_bool budget 0 then (Py.Returned None, db)
      else
        match get_monthly_sessions user_id (year now) (month now)
                (period_start_day settings) db with
        | Py.Raised e => (Py.Raised e, db)
        | Py.Returned sessions =>
            let total_cost := sum_costs sessions in
            let percentage := (total_cost / budget * 100)%Q in
            if Qle_bool 100 percentage then
              (Py.Returned
                 (Some (BudgetExceeded total_cost budget percentage)), db)
            else if Qle_bool 80 percentage then
              let remaining := (budget - total_cost)%Q in
              (Py.Returned (Some (BudgetWarning percentage remaining)), db)
            else (Py.Returned None, db)
        end
  end.

(** The dict returned by [get_monthly_summary]. *)
Record summary := mksummary {
  sm_year : Z;
  sm_month : Z;
  session_count : Z;
  sm_total_kwh : Q;
  sm_total_cost : Q;
  sm_spot_cost : Q;
  sm_fixed_cost : Q;
  avg_price_per_kwh : Q;
  sm_budget : option Q;
  remaining : option Q;
  sm_region : string
}.

(** [s.get(column, 0) or 0]. *)
Definition or_0 (x : option Q) : Q :=
  match x with
  | Some v => v
  | None => 0
  end.

(** [sum(s.get(column, 0) or 0 for s in sessions)]. *)
Definition sum_column (column : session -> option Q) (ss : list session) : Q :=
  fold_left (fun acc s => (acc + or_0 (column s))%Q) ss 0%Q.

(** [get_monthly_summary(user_id, year, month)]; [now] is the date of the
    clock reading. A budget of 0 is falsy and leaves no remainder. *)
Definition get_monthly_summary (now : date) (user_id : Z)
    (year month : option Z) (db : database)
    : Py.outcome summary * database :=
  let year := match year with Some y => y | None => Models.year now end in
  let month := match month with Some m => m | None => Models.month now end in
  let '(settings, db) := get_user_settings user_id db in
  match get_monthly_sessions user_id year month (period_start_day settings)
          db with
  | Py.Raised e => (Py.Raised e, db)
  | Py.Returned sessions =>
      let total_kwh := sum_column s_kwh sessions in
      let total_cost := sum_column s_total_cost_nok sessions in
      let total_spot := sum_column s_spot_cost_nok sessions in
      let total_fixed := sum_column s_fixed_cost_nok sessions in
      let avg_price :=
        if Qle_bool total_kwh 0 then 0%Q else (total_cost / total_kwh)%Q in
      let budget := budget_nok settings in
      let remaining :=
        match budget with
        | Some b => if Qeq_bool b 0 then None else Some (b - total_cost)%Q
        | None => None
        end in
      (Py.Returned
         (mksummary year month (Z.of_nat (length sessions))
            (Py.round total_kwh 2) (Py.round total_cost 2)
            (Py.round total_spot 2) (Py.round total_fixed 2)
            (Py.round avg_price 2) budget
            (match remaining with
             | Some x => Some (Py.round x 2)
             | None => None
             end)
            (region settings)),
       db)
  end.

(** The messages of [check_runtime_alert] and [check_max_duration], by the
    values they print. *)
Inductive session_alert :=
  | LongSession (apparat_name : string) (hours : Q)
  | MaxDurationReached (apparat_name : string) (hours : Q) (max_hours : Z).

(** [(now - start_time).total_seconds() / 3600]. *)
Definition running_hours (now start_time : Store.datetime) : Q :=
  (Py.total_seconds (Store.micros_between now start_time) / 3600)%Q.

(** [check_runtime_alert(user_id)]; [now] is the clock reading. *)
Definition check_runtime_alert (now : Store.datetime) (user_id : Z)
    (t : Store.tables) : option session_alert :=
  match Store.get_active_session user_id t with
  | None => None
  | Some (session, a) =>
      let hours := running_hours now (Store.r_start_time session) in
      if Qle_bool 2 hours then Some (LongSession (Store.a_name a) hours)
      else None
  end.

(** [check_max_duration(user_id)]; [now] is the clock reading. *)
Definition check_max_duration (now : Store.datetime) (user_id : Z)
    (db : database) (t : Store.tables) : option session_alert * database :=
  let '(settings, db) := get_user_settings user_id db in
  let max_hours := max_duration_hours settings in
  if (max_hours =? 0) || (max_hours <=? 0) then (None, db)
  else
    match Store.get_active_session user_id t with
    | None => (None, db)
    | Some (session, a) =>
        let hours := running_hours now (Store.r_start_time session) in
        if Qle_bool (inject_Z max_hours) hours then
          (Some (MaxDurationReached (Store.a_name a) hours max_hours), db)
        else (None, db)
    end.

End Alerts.

(** ** core/alerts.py: the budget check, with floats as doubles *)

Module Alerts64.

Import Models(date, year, month, period_bounds, date_leb).

(** A joined row of [sessions] as [check_budget_alert] reads it. *)
Record session := mksession {
  s_user_id : Z;
  s_end_time : option Store.datetime;
  s_cancelled : bool;
  s_total_cost_nok : option float
}.

(** A row of [user_settings]. *)
Record settings := mksettings {
  fixed_cost_nok : float;
  budget_nok : option float;
  period_start_day : Z;
  region : string;
  max_duration_hours : Z
}.

(** Column defaults of [user_settings]. *)
Definition default_settings : settings :=
  mksettings (F64.nearest 1.0) None 1 "NO1" 0.

Record database := mkdb {
  sessions : list session;
  user_settings : gmap Z settings
}.

(** [get_user_settings(user_id)]: get or create. *)
Definition get_user_settings (user_id : Z) (db : database)
    : settings * database :=
  match user_settings db !! user_id with
  | Some row => (row, db)
  | None =>
      (default_settings,
       mkdb (sessions db) (<[user_id := default_settings]> (user_settings db)))
  end.

(** ORDER BY end_time DESC. *)
Definition ends_after (a b : session) : bool :=
  match s_end_time a, s_end_time b with
  | Some ea, Some eb => Store.datetime_leb eb ea
  | Some _, None => true
  | None, Some _ => false
  | None, None => true
  end.

(** [get_monthly_sessions(user_id, year, month, period_start_day)]. *)
Definition get_monthly_sessions (user_id year month period_start_day : Z)
    (db : database) : Py.outcome (list session) :=
  match period_bounds year month period_start_day with
  | Py.Raised e => Py.Raised e
  | Py.Returned (start_date, end_date) =>
      Py.Returned
        (Store.order_by ends_after
           (List.filter
              (fun s =>
                 (s_user_id s =? user_id)
                 && negb (s_cancelled s)
                 && match s_end_time s with
                    | Some e =>
                        date_leb start_date (Store.dt_date e)
                        && date_leb (Store.dt_date e) end_date
                    | None => false
                    end)
              (sessions db)))
  end.

(** The two messages of [check_budget_alert], by the numbers they print. *)
Inductive alert :=
  | BudgetExceeded (total_cost budget percentage : float)
  | BudgetWarning (percentage remaining : float).

(** [s.get("total_cost_nok", 0) or 0]; the int 0 is the double 0. *)
Definition cost_or_0 (s : session) : float :=
  match s_total_cost_nok s with
  | Some c => if PrimFloat.eqb c PrimFloat.zero then PrimFloat.zero else c
  | None => PrimFloat.zero
  end.

Section Builtins.

(** The built-in [sum] over floats, started at 0. It is the interpreter's:
    one addition after the other up to CPython 3.11, with a compensation
    term from 3.12 on; both return the term itself for a single term. *)
Variable sum : list float -> float.

(** [check_budget_alert(user_id)]; [now] is the date of the clock reading. *)
Definition check_budget_alert (now : date) (user_id : Z) (db : database)
    : Py.outcome (option alert) * database :=
  let '(settings, db) := get_user_settings user_id db in
  match budget_nok settings with
  | None => (Py.Returned None, db)
  | Some budget =>
      if PrimFloat.leb budget PrimFloat.zero then (Py.Returned None, db)
      else
        match get_monthly_sessions user_id (year now) (month now)
                (period_start_day settings) db with
        | Py.Raised e => (Py.Raised e, db)
        | Py.Returned sessions =>
            let total_cost := sum (map cost_or_0 sessions) in
            let percentage :=
              PrimFloat.mul (PrimFloat.div total_cost budget)
                (F64.nearest 100) in
            if PrimFloat.leb (F64.nearest 100) percentage then
              (Py.Returned
                 (Some (BudgetExceeded total_cost budget percentage)), db)
            else if PrimFloat.leb (F64.nearest 80) percentage then
              let remaining := PrimFloat.sub budget total_cost in
              (Py.Returned (Some (BudgetWarning percentage remaining)), db)
            else (Py.Returned None, db)
        end
  end.

End Builtins.

(** [sum] as one addition after the other. *)
Definition sum_left (xs : list float) : float :=
  fold_left PrimFloat.add xs PrimFloat.zero.

End Alerts64.

(** * Notions used in the statements *)

Import Models PriceApi Calculator Alerts.

(** The price a cache write leaves for an hour: the last one it lists. *)
Definition written (prices : list (Z * Q)) : gmap Z Q :=
  list_to_map (rev prices).

(** A curve with a price for each of the hours 0..23 and for no other. *)
Definition complete_curve (m : gmap Z Q) : Prop :=
  forall hour, is_Some (m !! hour) <-> 0 <= hour < 24.

(** Every key of the cache reads as no curve or as a complete one. *)
Definition cache_complete (cache : gmap (Z * string * Z) Q) : Prop :=
  forall date region m,
    get_cached_prices date region cache = Some m -> complete_curve m.

(** The entries list each hour 0..23 and no other hour. *)
Definition covers_day (prices : list (Z * Q)) : bool :=
  forallb (fun h => existsb (fun hp => fst hp =? h) prices)
    (map Z.of_nat (seq 0 24))
  && forallb (fun hp => (0 <=? fst hp) && (fst hp <? 24)) prices.

(** The curve a cache miss for (date, region) obtains from upstream. *)
Definition upstream_curve (api : Z -> string -> response) (date_str : Z)
    (region : string) : option (gmap Z Q) :=
  match api date_str region with
  | Fails => None
  | Replies status data =>
      if negb (status =? 200) then None
      else Some (parse_prices
                   (if region_in region MVA_EXEMPT_REGIONS then 1.0%Q
                    else (1 + MVA_RATE)%Q) data)
  end.

(** The cache holds nothing but curves that upstream serves. *)
Definition coherent (api : Z -> string -> response)
    (cache : gmap (Z * string * Z) Q) : Prop :=
  forall date region m,
    get_cached_prices date region cache = Some m ->
    upstream_curve api date region = Some m.

(** The price of the hour of [dt] as upstream serves it. *)
Definition resolved_price (api : Z -> string -> response) (region : string)
    (dt : Z) : option Q :=
  if negb (region_in region VALID_REGIONS) then None
  else price_at (upstream_curve api (DT.strftime_date dt) region) (DT.hour dt).

(** The hour starts that the loop of [get_prices_for_period] visits. *)
Fixpoint hour_starts_loop (fuel : nat) (current end_ : Z) : list Z :=
  match fuel with
  | O => []
  | S fuel' =>
      if current <? end_
      then current :: hour_starts_loop fuel' (current + DT.HOUR) end_
      else []
  end.

Definition hour_starts (start end_ : Z) : list Z :=
  let current := DT.replace_to_hour start in
  hour_starts_loop (turns current end_) current end_.

(** The visited hours that have a price, with it. *)
Definition priced (api : Z -> string -> response) (region : string)
    (hs : list Z) : list (Z * Q) :=
  omap (fun h => match resolved_price api region h with
                 | Some p => Some (h, p)
                 | None => None
                 end) hs.

Definition Qsum (l : list Q) : Q := fold_right Qplus 0%Q l.

(** The hour fractions that enter the totals of the per-hour loop. *)
Definition used_fractions (start_time end_time : Z)
    (hourly_prices : list (Z * Q)) : list Q :=
  List.filter (fun f => negb (Qle_bool f 0))
    (map (fun hp => hour_fraction (fst hp) start_time end_time)
       hourly_prices).

(** Hours in a count of microseconds, as the code computes them. *)
Definition hours_of (us : Z) : Q := (Py.total_seconds us / 3600)%Q.

(** Duration of the interval in hours. *)
Definition total_hours (start_time end_time : Z) : Q :=
  hours_of (end_time - start_time).

(** Microseconds of the hour beginning at [h] that lie in the interval. *)
Definition overlap (h start_time end_time : Z) : Z :=
  Z.min (h + DT.HOUR) end_time - Z.max h start_time.

Definition Zsum (l : list Z) : Z := fold_right Z.add 0 l.

(** Spot cost that the per-hour loop adds up over [hps]. *)
Fixpoint spot_sum (start_time end_time watt : Z) (hps : list (Z * Q)) : Q :=
  match hps with
  | [] => 0
  | hp :: rest =>
      let f := hour_fraction (fst hp) start_time end_time in
      ((if Qle_bool f 0 then 0 else f * (inject_Z watt / 1000) * snd hp)
       + spot_sum start_time end_time watt rest)%Q
  end.

(** The price of an hour where it is served and not negative, else 0. *)
Definition clamped_price (api : Z -> string -> response) (region : string)
    (h : Z) : Q :=
  match resolved_price api region h with
  | Some p => if Qle_bool 0 p then p else 0
  | None => 0
  end.

(** The result of the per-hour branch on the priced hours [hps]. *)
Definition per_hour_result (start_time end_time watt : Z)
    (fixed_cost_per_kwh : Q) (hps : list (Z * Q)) : result :=
  let acc := hour_loop start_time end_time watt hps in
  let total_fixed_cost := (total_kwh acc * fixed_cost_per_kwh)%Q in
  mkresult (Py.round (total_hours start_time end_time) 2)
    (Py.round (total_kwh acc) 4) (Py.round (total_spot_cost acc) 2)
    (Py.round total_fixed_cost 2)
    (Py.round (total_spot_cost acc + total_fixed_cost) 2)
    (Py.round (if Qle_bool (total_kwh acc) 0 then 0
               else total_spot_cost acc / total_kwh acc) 4)
    (breakdown acc).

(** The month before (year, month), as (year, month). *)
Definition preceding_month (year month : Z) : Z * Z :=
  if month =? 1 then (year - 1, 12) else (year, month - 1).

(** ** Notions used in the further properties *)

(** Upstream serves a curve with at least one price for every day of the
    region. *)
Definition serves (api : Z -> string -> response) (region : string) : Prop :=
  forall d, exists m, upstream_curve api d region = Some m /\ m <> ∅.

(** No (date, region) was requested twice, and every request made has left
    a cached curve. *)
Definition asked_once (w : world) : Prop :=
  List.NoDup (requests w)
  /\ forall d r, In (d, r) (requests w) ->
                 get_cached_prices d r (price_cache w) <> None.

(** The (year, month) after a month, and the dates a calendar has. *)
Definition next_month (year month : Z) : Z * Z :=
  if month =? 12 then (year + 1, 1) else (year, month + 1).

Definition valid_date (d : date) : Prop :=
  1 <= month d <= 12 /\ 1 <= day d <= days_in_month (year d) (month d).

(** [x BETWEEN start AND end] for the two bounds of a period. *)
Definition in_window (x : date) (win : date * date) : bool :=
  date_leb (fst win) x && date_leb x (snd win).

Import Store.

(** The key of the UNIQUE constraint of [apparater]. *)
Definition apparat_key (a : apparat) : Z * string :=
  (a_user_id a, nocase (a_name a)).

(** The constraints SQLite keeps on [apparater]: no two rows with one key,
    no two rows with one id, no id above the last one given out. *)
Definition apparater_ok (t : tables) : Prop :=
  NoDup (map apparat_key (apparater t))
  /\ NoDup (map a_id (apparater t))
  /\ Forall (fun a => a_id a <= apparat_seq t) (apparater t).

(** The rows [get_active_session] selects from. *)
Definition is_active (user_id : Z) (t : tables) (s : session_row) : bool :=
  (r_user_id s =? user_id)
  && match r_end_time s with None => true | Some _ => false end
  && negb (r_cancelled s)
  && match joined t s with Some _ => true | None => false end.

(** ** Notions for the functions with doubles and exceptions *)



(** The multiplier that [fetch_daily_prices] applies in a region. *)
Definition mva_multiplier (region : string) : float :=
  if region_in region MVA_EXEMPT_REGIONS then F64.nearest 1.0
  else PrimFloat.add (F64.nearest 1) PriceApi64.MVA_RATE.


(** The raw price of the last record of a body for an hour. *)
Fixpoint last_price (hour : Z) (data : list PriceApi64.element)
    : option float :=
  match data with
  | [] => None
  | PriceApi64.Entry h p :: data' =>
      match last_price hour data' with
      | Some q => Some q
      | None => if h =? hour then Some p else None
      end
  | PriceApi64.Malformed _ :: data' => last_price hour data'
  end.

(** The breakdown row of a listed hour, and whether the loop keeps it. *)
Definition breakdown_row64 (start_time end_time watt : Z) (hp : Z * float)
    : Calculator64.breakdown_item :=
  let fraction := Calculator64.hour_fraction (fst hp) start_time end_time in
  let hour_kwh := PrimFloat.mul fraction (Calculator64.kilowatts watt) in
  Calculator64.mkitem (DT.hour (fst hp)) (F64.round fraction 2)
    (F64.round (snd hp) 4) (F64.round hour_kwh 4)
    (F64.round (PrimFloat.mul hour_kwh (snd hp)) 2).

Definition hour_used (start_time end_time : Z) (hp : Z * float) : bool :=
  negb (PrimFloat.leb (Calculator64.hour_fraction (fst hp) start_time end_time)
          PrimFloat.zero).

(** ** Concrete inputs *)

(** A payload of 24 records at one raw price. *)
Definition flat_day (raw : Q) : list entry :=
  map (fun h => mkentry (Z.of_nat h) raw) (seq 0 24).

(** Upstream sources: every day served; only day 0 served; unreachable;
    a payload of a single record. *)
Definition api_flat : Z -> string -> response :=
  fun _ _ => Replies 200 (flat_day 0.968).

Definition api_first_day : Z -> string -> response :=
  fun d _ => if d =? 0 then Replies 200 (flat_day 0.968) else Replies 404 [].

Definition api_down : Z -> string -> response := fun _ _ => Fails.

Definition api_one_hour : Z -> string -> response :=
  fun _ _ => Replies 200 [mkentry 0 0.8].

Definition empty_world : world := mkworld ∅ [].

(** The datetime at [hour]:[minute] of day number [day]. *)
Definition clock (day hour minute : Z) : Z :=
  day * DT.DAY + hour * DT.HOUR + minute * 60000000.

Definition day_prices : list (Z * Q) :=
  map (fun h => (Z.of_nat h, 1.21%Q)) (seq 0 24).

(** User 7 with a budget and one completed session of the given cost that
    ended on 2025-03-10. *)
Definition db_spent (budget cost : Q) : database :=
  mkdb [mksession 1 7 (Some (mkdate 2025 3 10)) false (Some 1.0%Q) None None
          (Some cost)]
    {[7 := mksettings 1.0 (Some budget) 1 "NO1" 0]}.

(** The two tables before any insert. *)
Definition no_tables : tables := mktables [] 0 [] 0.

(** The reading [hour]:[minute] of the clock on a date. *)
Definition at_time (year month day hour minute : Z) : datetime :=
  mkdatetime (mkdate year month day) (hour * DT.HOUR + minute * 60000000).

(** User 123 with the appliance of the repository's tests; the same with a
    session started at 18:00 on 2025-03-10. *)
Definition heater_tables : tables :=
  snd (add_apparat 123 "Heater" 750 1500 no_tables).

Definition running_tables : tables :=
  snd (start_session (at_time 2025 3 10 18 0) 123 1 "high" 1500 heater_tables).

Definition empty_world64 : PriceApi64.world := PriceApi64.mkworld ∅ [].

Definition api_down64 : Z -> string -> PriceApi64.response :=
  fun _ _ => PriceApi64.Fails.

(** Day 0 is answered with a body whose second record lacks its price. *)
Definition api_malformed : Z -> string -> PriceApi64.response :=
  fun _ _ =>
    PriceApi64.Replies 200
      [PriceApi64.Entry 0 (F64.nearest 0.8);
       PriceApi64.Malformed Exn.KeyError].

(** Day 0 is answered 404, every other day with 24 records at one price. *)
Definition api_second_day : Z -> string -> PriceApi64.response :=
  fun d _ =>
    if d =? 0 then PriceApi64.Replies 404 []
    else PriceApi64.Replies 200
           (map (fun h => PriceApi64.Entry (Z.of_nat h) (F64.nearest 0.968))
              (seq 0 24)).

(** User 7 with a budget and one completed session of the given cost that
    ended on 2025-03-10, the amounts being the doubles of the decimals. *)
Definition db_spent64 (budget cost : Q) : Alerts64.database :=
  Alerts64.mkdb
    [Alerts64.mksession 7 (Some (at_time 2025 3 10 12 0)) false
       (Some (F64.nearest cost))]
    {[7 := Alerts64.mksettings (F64.nearest 1.0) (Some (F64.nearest budget)) 1
             "NO1" 0]}.

(** Upstream with a negative price for the hour from 11:00: raw -1.0 there
    and 0.5 in every other hour. *)
Definition api_negative_hour : Z -> string -> response :=
  fun _ _ =>
    Replies 200
      (map (fun h => mkentry (Z.of_nat h)
                       (if Nat.eqb h 11 then (-1.0)%Q else 0.5%Q))
         (seq 0 24)).

(** Upstream that answers 404 for day 0 and serves every later day. *)
Definition api_later_days : Z -> string -> response :=
  fun d _ => if d =? 0 then Replies 404 [] else Replies 200 (flat_day 0.968).

(** * Properties *)

(** ** The price cache *)

Section Cache.

Implicit Types (cache : gmap (Z * string * Z) Q) (date hour : Z).
Implicit Types (region : string).

Lemma elem_of_select date region cache hour (p : Q) :
  (hour, p) ∈ select_hour_price date region cache
  <-> cache !! (date, region, hour) = Some p.
Proof.
  unfold select_hour_price. rewrite list_elem_of_omap. split.
  - intros [[[[d r] h] q] [Hin Hrow]].
    apply elem_of_map_to_list in Hin.
    destruct (decide (d = date /\ r = region)) as [[-> ->]|]; [|discriminate].
    now inversion Hrow; subst.
  - intros Hlook. exists (date, region, hour, p). split.
    + now apply elem_of_map_to_list.
    + destruct (decide (date = date /\ region = region)) as [|n]; [reflexivity|].
      exfalso; apply n; now split.
Qed.

Lemma lookup_select date region cache hour :
  (list_to_map (select_hour_price date region cache) : gmap Z Q) !! hour
  = cache !! (date, region, hour).
Proof.
  destruct (cache !! (date, region, hour)) as [p|] eqn:Hlook.
  - apply elem_of_list_to_map_1'.
    + intros q Hq. apply elem_of_select in Hq. congruence.
    + now apply elem_of_select.
  - apply not_elem_of_list_to_map_1. intros Hin.
    apply list_elem_of_fmap in Hin as [[h q] [Heq Hin]]; simpl in Heq; subst h.
    apply elem_of_select in Hin. congruence.
Qed.

Lemma get_cached_prices_None date region cache :
  get_cached_prices date region cache = None
  <-> forall hour, cache !! (date, region, hour) = None.
Proof.
  unfold get_cached_prices. split.
  - destruct (select_hour_price date region cache) as [|row rows] eqn:Hsel;
      [|discriminate].
    intros _ hour. rewrite <- lookup_select, Hsel. apply lookup_empty.
  - intros Hnone.
    destruct (select_hour_price date region cache) as [|[h p] rows] eqn:Hsel;
      [reflexivity|].
    assert (Hin : (h, p) ∈ select_hour_price date region cache)
      by (rewrite Hsel; left).
    apply elem_of_select in Hin. rewrite Hnone in Hin. discriminate.
Qed.

Lemma get_cached_prices_Some date region cache (m : gmap Z Q) :
  get_cached_prices date region cache = Some m ->
  (forall hour, m !! hour = cache !! (date, region, hour)) /\ m <> ∅.
Proof.
  unfold get_cached_prices.
  destruct (select_hour_price date region cache) as [|[h p] rows] eqn:Hsel;
    [discriminate|].
  intros Hm.
  assert (Hmap : m = list_to_map (select_hour_price date region cache))
    by (rewrite Hsel; congruence).
  clear Hm. subst m. split.
  - intros hour. apply lookup_select.
  - intros Hempty.
    assert (Hin : (h, p) ∈ select_hour_price date region cache)
      by (rewrite Hsel; left).
    apply elem_of_select in Hin. rewrite <- lookup_select, Hempty in Hin.
    rewrite lookup_empty in Hin. discriminate.
Qed.

Lemma lookup_cache_prices_other date region (prices : list (Z * Q)) cache
    d r hour :
  (d, r) <> (date, region) ->
  cache_prices date region prices cache !! (d, r, hour)
  = cache !! (d, r, hour).
Proof.
  intros Hne. revert cache.
  induction prices as [|[h p] prices IH]; intros cache; [reflexivity|].
  unfold cache_prices in *; simpl. rewrite IH.
  apply lookup_insert_ne. congruence.
Qed.

Lemma lookup_cache_prices_key date region (prices : list (Z * Q)) cache hour :
  cache_prices date region prices cache !! (date, region, hour)
  = match written prices !! hour with
    | Some p => Some p
    | None => cache !! (date, region, hour)
    end.
Proof.
  unfold written.
  induction prices as [|[h p] prices IH] using rev_ind.
  - simpl. now rewrite lookup_empty.
  - unfold cache_prices in *. rewrite fold_left_app, rev_unit. simpl.
    destruct (decide (h = hour)) as [->|Hne].
    + now rewrite !lookup_insert_eq.
    + rewrite !lookup_insert_ne by congruence. apply IH.
Qed.

Lemma written_map_to_list (m : gmap Z Q) : written (map_to_list m) = m.
Proof.
  assert (Hin : forall h p, (h, p) ∈ rev (map_to_list m) <-> m !! h = Some p).
  { intros h p. rewrite list_elem_of_In, <- in_rev, <- list_elem_of_In.
    apply elem_of_map_to_list. }
  unfold written. apply map_eq; intros hour.
  destruct (m !! hour) as [p|] eqn:Hlook.
  - apply elem_of_list_to_map_1'.
    + intros q Hq. apply Hin in Hq. congruence.
    + now apply Hin.
  - apply not_elem_of_list_to_map_1. intros Hel.
    apply list_elem_of_fmap in Hel as [[h q] [Heq Hel]]; simpl in Heq; subst h.
    apply Hin in Hel. congruence.
Qed.
Lemma get_cached_prices_ext date region cache1 cache2 :
  (forall hour,
     cache1 !! (date, region, hour) = cache2 !! (date, region, hour)) ->
  get_cached_prices date region cache1 = get_cached_prices date region cache2.
Proof.
  intros Hext.
  destruct (get_cached_prices date region cache1) as [m1|] eqn:H1;
    destruct (get_cached_prices date region cache2) as [m2|] eqn:H2;
    try reflexivity.
  - apply get_cached_prices_Some in H1 as [H1 _], H2 as [H2 _].
    f_equal. apply map_eq; intros hour. now rewrite H1, H2.
  - apply get_cached_prices_Some in H1 as [H1 Hne].
    exfalso; apply Hne. apply map_empty; intros hour.
    rewrite H1, Hext.
    exact (proj1 (get_cached_prices_None _ _ _) H2 hour).
  - apply get_cached_prices_Some in H2 as [H2 Hne].
    exfalso; apply Hne. apply map_empty; intros hour.
    rewrite H2, <- Hext.
    exact (proj1 (get_cached_prices_None _ _ _) H1 hour).
Qed.

Lemma get_cached_prices_intro date region cache (m : gmap Z Q) :
  m <> ∅ ->
  (forall hour, cache !! (date, region, hour) = m !! hour) ->
  get_cached_prices date region cache = Some m.
Proof.
  intros Hne Hlook.
  destruct (get_cached_prices date region cache) as [m'|] eqn:Hget.
  - apply get_cached_prices_Some in Hget as [Hget _].
    f_equal. apply map_eq; intros hour. now rewrite Hget.
  - exfalso; apply Hne. apply map_empty; intros hour.
    rewrite <- Hlook.
    exact (proj1 (get_cached_prices_None _ _ _) Hget hour).
Qed.

Lemma dict_truthy_true (m : gmap Z Q) : m <> ∅ -> Py.dict_truthy m = true.
Proof.
  intros Hne. unfold Py.dict_truthy.
  apply map_size_non_empty_iff in Hne.
  destruct (size m); [congruence | reflexivity].
Qed.

Lemma price_at_lookup (m : gmap Z Q) hour : price_at (Some m) hour = m !! hour.
Proof.
  unfold price_at, Py.dict_truthy.
  destruct (size m) eqn:Hsize; simpl; [|reflexivity].
  apply map_size_empty_iff in Hsize. subst m. now rewrite lookup_empty.
Qed.

End Cache.

(** ** Fetching through the cache *)

Section Fetch.
Variable api : Z -> string -> response.

Lemma fetch_invalid_region (dt : Z) (region : string) (w : world) :
  region_in region VALID_REGIONS = false ->
  fetch_daily_prices api dt region w = (None, w).
Proof. intros Hr. unfold fetch_daily_prices. now rewrite Hr. Qed.

Lemma fetch_coherent (dt : Z) (region : string) (w : world) :
  region_in region VALID_REGIONS = true ->
  coherent api (price_cache w) ->
  exists w',
    fetch_daily_prices api dt region w
    = (upstream_curve api (DT.strftime_date dt) region, w')
    /\ coherent api (price_cache w').
Proof.
  intros Hr Hco. unfold fetch_daily_prices. rewrite Hr; simpl.
  destruct (get_cached_prices (DT.strftime_date dt) region (price_cache w))
    as [hit|] eqn:Hget.
  - pose proof (Hco _ _ _ Hget) as Hup.
    apply get_cached_prices_Some in Hget as [_ Hne].
    rewrite (dict_truthy_true _ Hne), Hup. now exists w.
  - unfold coherent, upstream_curve, fetch_from_api in *.
    destruct (api (DT.strftime_date dt) region) as [|status data] eqn:Hapi.
    + eexists; split; [reflexivity | exact Hco].
    + destruct (negb (status =? 200)) eqn:Hstatus.
      * eexists; split; [reflexivity | exact Hco].
      * eexists; split; [reflexivity|]. simpl.
        set (prices := parse_prices _ data).
        intros d r m Hm.
        destruct (decide ((d, r) = (DT.strftime_date dt, region))) as [Heq|Hne].
        -- inversion Heq; subst d r.
           apply get_cached_prices_Some in Hm as [Hm _].
           rewrite Hapi, Hstatus. f_equal. apply map_eq; intros hour.
           rewrite Hm, lookup_cache_prices_key, written_map_to_list.
           fold prices. destruct (prices !! hour); [reflexivity|].
           symmetry. exact (proj1 (get_cached_prices_None _ _ _) Hget hour).
        -- apply Hco. rewrite <- Hm. apply get_cached_prices_ext.
           intros hour. symmetry. now apply lookup_cache_prices_other.
Qed.

Lemma get_price_for_hour_coherent (dt : Z) (region : string) (w : world) :
  coherent api (price_cache w) ->
  exists w',
    get_price_for_hour api dt region w = (resolved_price api region dt, w')
    /\ coherent api (price_cache w').
Proof.
  intros Hco. unfold get_price_for_hour, bind, ret, resolved_price.
  destruct (region_in region VALID_REGIONS) eqn:Hr; simpl.
  - destruct (fetch_coherent dt region w Hr Hco) as [w' [-> Hco']].
    now exists w'.
  - rewrite (fetch_invalid_region dt region w Hr). now exists w.
Qed.

Lemma period_loop_coherent (region : string) (fuel : nat) :
  forall (current end_ : Z) (w : world),
    coherent api (price_cache w) ->
    exists w',
      period_loop api fuel current end_ region w
      = (priced api region (hour_starts_loop fuel current end_), w')
      /\ coherent api (price_cache w').
Proof.
  induction fuel as [|fuel IH]; intros current end_ w Hco; simpl.
  - now exists w.
  - destruct (current <? end_).
    + unfold bind at 1.
      destruct (get_price_for_hour_coherent current region w Hco)
        as [w1 [-> Hco1]].
      unfold bind at 1.
      destruct (IH (current + DT.HOUR) end_ w1 Hco1) as [w2 [-> Hco2]].
      exists w2. split; [|exact Hco2].
      unfold ret, priced; simpl.
      now destruct (resolved_price api region current).
    + now exists w.
Qed.

End Fetch.

(** ** Rounding *)

Lemma round_half_even_bounds (x : Q) :
  Qfloor x <= Py.round_half_even x <= Qfloor x + 1.
Proof.
  unfold Py.round_half_even.
  destruct (x - inject_Z (Qfloor x) ?= 1 # 2)%Q; [|lia|lia].
  destruct (Z.even (Qfloor x)); lia.
Qed.

Lemma round_half_even_mono (x y : Q) :
  (x <= y)%Q -> Py.round_half_even x <= Py.round_half_even y.
Proof.
  intros Hxy. pose proof (Qfloor_resp_le x y Hxy) as Hfloor.
  destruct (Z.eq_dec (Qfloor x) (Qfloor y)) as [Heq|Hne].
  - unfold Py.round_half_even. rewrite <- Heq.
    destruct (Qcompare_spec (x - inject_Z (Qfloor x)) (1 # 2)) as [Hx|Hx|Hx];
      destruct (Qcompare_spec (y - inject_Z (Qfloor x)) (1 # 2)) as [Hy|Hy|Hy];
      try lia; try (exfalso; lra);
      destruct (Z.even (Qfloor x)); lia.
  - pose proof (round_half_even_bounds x). pose proof (round_half_even_bounds y).
    lia.
Qed.

Lemma scale_pos (n : nat) : (0 < inject_Z (10 ^ Z.of_nat n))%Q.
Proof.
  replace 0%Q with (inject_Z 0) by reflexivity. rewrite <- Zlt_Qlt.
  apply Z.pow_pos_nonneg; lia.
Qed.

Lemma round_mono (x y : Q) (n : nat) :
  (x <= y)%Q -> (Py.round x n <= Py.round y n)%Q.
Proof.
  intros Hxy. unfold Py.round. pose proof (scale_pos n) as Hs.
  unfold Qdiv. apply Qmult_le_compat_r.
  - rewrite <- Zle_Qle. apply round_half_even_mono.
    apply Qmult_le_compat_r; [exact Hxy | now apply Qlt_le_weak].
  - apply Qinv_le_0_compat. now apply Qlt_le_weak.
Qed.

Lemma round_0 (n : nat) : (Py.round 0 n == 0)%Q.
Proof.
  unfold Py.round.
  assert (H : Py.round_half_even (0 * inject_Z (10 ^ Z.of_nat n)) = 0).
  { unfold Py.round_half_even.
    assert (Hf : Qfloor (0 * inject_Z (10 ^ Z.of_nat n)) = 0).
    { rewrite (Qfloor_comp _ 0) by ring. reflexivity. }
    rewrite Hf.
    destruct (Qcompare_spec (0 * inject_Z (10 ^ Z.of_nat n) - inject_Z 0) (1 # 2))
      as [Hx|Hx|Hx]; [exfalso | reflexivity | exfalso].
    - assert (H0 : (0 * inject_Z (10 ^ Z.of_nat n) == 0)%Q) by ring.
      rewrite H0 in Hx. discriminate.
    - assert (H0 : (0 * inject_Z (10 ^ Z.of_nat n) == 0)%Q) by ring.
      rewrite H0 in Hx. discriminate. }
  rewrite H. unfold Qdiv. ring.
Qed.

Lemma round_nonneg (x : Q) (n : nat) : (0 <= x)%Q -> (0 <= Py.round x n)%Q.
Proof.
  intros Hx. rewrite <- (round_0 n). now apply round_mono.
Qed.

(** ** Hours of an interval *)

Lemma HOUR_pos : 0 < DT.HOUR.
Proof. reflexivity. Qed.

Lemma replace_to_hour_bounds (dt : Z) :
  DT.replace_to_hour dt <= dt < DT.replace_to_hour dt + DT.HOUR.
Proof.
  unfold DT.replace_to_hour.
  pose proof (Z.mod_pos_bound dt DT.HOUR HOUR_pos). lia.
Qed.

Lemma turns_done (current end_ : Z) :
  end_ <= current -> turns current end_ = 0%nat.
Proof.
  intros Hle. unfold turns.
  assert ((end_ - current + DT.HOUR - 1) / DT.HOUR < 1).
  { apply Z.div_lt_upper_bound; pose proof HOUR_pos; lia. }
  lia.
Qed.

Lemma turns_step (current end_ : Z) :
  current < end_ -> turns current end_ = S (turns (current + DT.HOUR) end_).
Proof.
  intros Hlt. unfold turns. pose proof HOUR_pos as Hpos.
  replace (end_ - current + DT.HOUR - 1)
    with (end_ - (current + DT.HOUR) + DT.HOUR - 1 + 1 * DT.HOUR) by lia.
  rewrite Z.div_add by lia.
  assert (0 <= (end_ - (current + DT.HOUR) + DT.HOUR - 1) / DT.HOUR)
    by (apply Z.div_pos; lia).
  lia.
Qed.

(** Once the fuel covers the turns of the loop, more fuel changes nothing. *)
Lemma hour_starts_loop_enough (fuel : nat) :
  forall current end_,
    (turns current end_ <= fuel)%nat ->
    hour_starts_loop fuel current end_
    = hour_starts_loop (turns current end_) current end_.
Proof.
  induction fuel as [|fuel IH]; intros current end_ Hfuel.
  - now replace (turns current end_) with 0%nat by lia.
  - destruct (Z.ltb_spec current end_) as [Hlt|Hge].
    + rewrite (turns_step _ _ Hlt) in *. simpl.
      apply Z.ltb_lt in Hlt. rewrite Hlt. f_equal. apply IH. lia.
    + rewrite (turns_done _ _ Hge). simpl.
      apply Z.ltb_ge in Hge. now rewrite Hge.
Qed.

Lemma period_loop_enough (api : Z -> string -> response) (region : string)
    (fuel : nat) :
  forall current end_ w,
    (turns current end_ <= fuel)%nat ->
    period_loop api fuel current end_ region w
    = period_loop api (turns current end_) current end_ region w.
Proof.
  induction fuel as [|fuel IH]; intros current end_ w Hfuel.
  - now replace (turns current end_) with 0%nat by lia.
  - destruct (Z.ltb_spec current end_) as [Hlt|Hge].
    + rewrite (turns_step _ _ Hlt) in *. simpl.
      apply Z.ltb_lt in Hlt. rewrite Hlt. unfold bind.
      destruct (get_price_for_hour api current region w) as [price w1].
      rewrite IH by lia. reflexivity.
    + rewrite (turns_done _ _ Hge). simpl.
      apply Z.ltb_ge in Hge. now rewrite Hge.
Qed.

Lemma hour_starts_loop_range (fuel : nat) :
  forall current end_ h,
    In h (hour_starts_loop fuel current end_) -> current <= h < end_.
Proof.
  induction fuel as [|fuel IH]; intros current end_ h; simpl; [tauto|].
  destruct (Z.ltb_spec current end_) as [Hlt|Hge]; simpl; [|tauto].
  intros [<-|Hin]; [lia|].
  apply IH in Hin. pose proof HOUR_pos. lia.
Qed.

Lemma overlap_sum (start_time end_time : Z) (fuel : nat) :
  start_time < end_time ->
  forall current,
    start_time < current + DT.HOUR ->
    (turns current end_time <= fuel)%nat ->
    Zsum (map (fun h => overlap h start_time end_time)
            (hour_starts_loop fuel current end_time))
    = if current <? end_time then end_time - Z.max current start_time else 0.
Proof.
  intros Hse. pose proof HOUR_pos as Hpos.
  induction fuel as [|fuel IH]; intros current Hcur Hfuel.
  - destruct (Z.ltb_spec current end_time) as [Hlt|Hge]; [|reflexivity].
    rewrite (turns_step _ _ Hlt) in Hfuel. lia.
  - simpl. destruct (Z.ltb_spec current end_time) as [Hlt|Hge]; [|reflexivity].
    simpl. rewrite (turns_step _ _ Hlt) in Hfuel.
    rewrite IH by lia. unfold overlap.
    destruct (Z.ltb_spec (current + DT.HOUR) end_time); lia.
Qed.

Lemma hours_of_eq (us : Z) : (hours_of us == us # 3600000000)%Q.
Proof.
  unfold hours_of, Py.total_seconds, Qdiv, Qmult, Qinv, Qeq, inject_Z; simpl.
  lia.
Qed.

Lemma hours_of_le (a b : Z) : a <= b -> (hours_of a <= hours_of b)%Q.
Proof.
  intros Hab. rewrite !hours_of_eq. unfold Qle; simpl. lia.
Qed.

Lemma hours_of_plus (a b : Z) : (hours_of (a + b) == hours_of a + hours_of b)%Q.
Proof.
  rewrite !hours_of_eq. unfold Qeq, Qplus; simpl. lia.
Qed.

Lemma hours_of_le_0 (us : Z) : Qle_bool (hours_of us) 0 = true <-> us <= 0.
Proof.
  rewrite Qle_bool_iff, hours_of_eq. unfold Qle; simpl. lia.
Qed.

Lemma hours_of_pos (us : Z) : 0 < us -> Qle_bool (hours_of us) 0 = false.
Proof.
  intros Hpos. destruct (Qle_bool (hours_of us) 0) eqn:Hle; [|reflexivity].
  apply hours_of_le_0 in Hle. lia.
Qed.

Lemma hour_fraction_overlap (h start_time end_time : Z) :
  hour_fraction h start_time end_time = hours_of (overlap h start_time end_time).
Proof. reflexivity. Qed.

Lemma Qsum_hours (l : list Z) :
  (Qsum (map hours_of l) == hours_of (Zsum l))%Q.
Proof.
  induction l as [|x l IH]; simpl.
  - now rewrite hours_of_eq.
  - now rewrite IH, hours_of_plus.
Qed.

Lemma used_fractions_all (start_time end_time : Z) (hps : list (Z * Q)) :
  (forall h, In h (map fst hps) -> 0 < overlap h start_time end_time) ->
  used_fractions start_time end_time hps
  = map hours_of (map (fun h => overlap h start_time end_time) (map fst hps)).
Proof.
  unfold used_fractions.
  induction hps as [|[h p] hps IH]; intros Hpos; [reflexivity|].
  simpl. rewrite hour_fraction_overlap, hours_of_pos by (apply Hpos; now left).
  simpl. f_equal. apply IH. intros h' Hin. apply Hpos. now right.
Qed.

Lemma hour_loop_totals (start_time end_time watt : Z) (hps : list (Z * Q)) :
  forall acc,
    (total_kwh (fold_left (hour_step start_time end_time watt) hps acc)
     == total_kwh acc
        + Qsum (used_fractions start_time end_time hps)
          * (inject_Z watt / 1000))%Q
    /\ (total_spot_cost
          (fold_left (hour_step start_time end_time watt) hps acc)
        == total_spot_cost acc + spot_sum start_time end_time watt hps)%Q.
Proof.
  unfold used_fractions.
  induction hps as [|[h p] hps IH]; intros acc; simpl.
  - split; ring.
  - destruct (IH (hour_step start_time end_time watt acc (h, p)))
      as [Hk Hs].
    rewrite Hk, Hs. unfold hour_step.
    destruct (Qle_bool (hour_fraction h start_time end_time) 0); simpl;
      split; ring.
Qed.

(** ** The hours of an interval, continued *)

Lemma hour_starts_head (start_time end_time : Z) :
  start_time < end_time ->
  exists rest,
    hour_starts start_time end_time
    = DT.replace_to_hour start_time :: rest.
Proof.
  intros Hse. unfold hour_starts.
  pose proof (replace_to_hour_bounds start_time) as Hb.
  rewrite (turns_step (DT.replace_to_hour start_time) end_time) by lia.
  simpl. replace (DT.replace_to_hour start_time <? end_time) with true
    by (symmetry; apply Z.ltb_lt; lia).
  eexists; reflexivity.
Qed.

Lemma overlap_pos (start_time end_time h : Z) :
  start_time < end_time ->
  In h (hour_starts start_time end_time) ->
  0 < overlap h start_time end_time.
Proof.
  intros Hse Hin. apply hour_starts_loop_range in Hin.
  pose proof (replace_to_hour_bounds start_time). pose proof HOUR_pos.
  unfold overlap. lia.
Qed.

Lemma fractions_sum_all (start_time end_time : Z) (hps : list (Z * Q)) :
  start_time < end_time ->
  map fst hps = hour_starts start_time end_time ->
  (Qsum (used_fractions start_time end_time hps)
   == total_hours start_time end_time)%Q.
Proof.
  intros Hse Hall.
  rewrite used_fractions_all
    by (intros h Hin; rewrite Hall in Hin; now apply overlap_pos).
  rewrite Qsum_hours, Hall. unfold hour_starts, total_hours.
  pose proof (replace_to_hour_bounds start_time) as Hb.
  rewrite overlap_sum by lia.
  replace (DT.replace_to_hour start_time <? end_time) with true
    by (symmetry; apply Z.ltb_lt; lia).
  now replace (Z.max (DT.replace_to_hour start_time) start_time)
    with start_time by lia.
Qed.

Lemma used_fractions_cons (start_time end_time : Z) (hp : Z * Q)
    (hps : list (Z * Q)) :
  used_fractions start_time end_time (hp :: hps)
  = if Qle_bool (hour_fraction (fst hp) start_time end_time) 0
    then used_fractions start_time end_time hps
    else hour_fraction (fst hp) start_time end_time
         :: used_fractions start_time end_time hps.
Proof.
  unfold used_fractions; simpl.
  now destruct (Qle_bool (hour_fraction (fst hp) start_time end_time) 0).
Qed.

Lemma Qle_bool_false (x : Q) : Qle_bool x 0 = false -> (0 < x)%Q.
Proof.
  intros Hx. apply Qnot_le_lt. intros Hle.
  apply Qle_bool_iff in Hle. congruence.
Qed.

Lemma period_loop_fractions_le (api : Z -> string -> response)
    (region : string) (start_time end_time : Z) (fuel : nat) :
  forall current w,
    (Qsum (used_fractions start_time end_time
             (fst (period_loop api fuel current end_time region w)))
     <= Qsum (used_fractions start_time end_time
                (map (fun h => (h, 0%Q))
                   (hour_starts_loop fuel current end_time))))%Q.
Proof.
  induction fuel as [|fuel IH]; intros current w; simpl.
  - apply Qle_refl.
  - destruct (current <? end_time); simpl; [|apply Qle_refl].
    unfold bind.
    destruct (get_price_for_hour api current region w) as [price w1].
    specialize (IH (current + DT.HOUR) w1).
    destruct (period_loop api fuel (current + DT.HOUR) end_time region w1)
      as [rest w2].
    simpl in *. rewrite (used_fractions_cons _ _ (current, 0%Q)).
    destruct price as [p|]; simpl.
    + rewrite (used_fractions_cons _ _ (current, p)). simpl.
      destruct (Qle_bool (hour_fraction current start_time end_time) 0);
        simpl; [exact IH | lra].
    + destruct (Qle_bool (hour_fraction current start_time end_time) 0)
        eqn:Hf; simpl; [exact IH|].
      apply Qle_bool_false in Hf. lra.
Qed.

(** ** Estimates over a priced interval *)

Section Estimates.

Variable api : Z -> string -> response.
Variable region : string.

Variable price : Z -> Q.

Lemma priced_all (hs : list Z) :
  (forall h, In h hs -> resolved_price api region h = Some (price h)) ->
  priced api region hs = map (fun h => (h, price h)) hs.
Proof.
  unfold priced.
  induction hs as [|h hs IH]; intros Hall; [reflexivity|].
  simpl. rewrite (Hall h (or_introl eq_refl)).
  simpl. f_equal. apply IH. intros h' Hin. apply Hall. now right.
Qed.

(** With a price for every hour of the interval the per-hour branch runs,
    on all of the hours. *)
Lemma cost_priced_path (now start_time end_time watt : Z)
    (fixed_cost_per_kwh : Q) (w : world) :
  coherent api (price_cache w) ->
  start_time < end_time ->
  (forall h, In h (hour_starts start_time end_time) ->
             resolved_price api region h = Some (price h)) ->
  exists w',
    calculate_session_cost api now start_time end_time watt
      fixed_cost_per_kwh region w
    = (per_hour_result start_time end_time watt fixed_cost_per_kwh
         (map (fun h => (h, price h))
            (hour_starts start_time end_time)), w').
Proof.
  intros Hco Hse Hall. unfold calculate_session_cost.
  fold (hours_of (end_time - start_time)).
  rewrite hours_of_pos by lia.
  unfold bind at 1. unfold get_prices_for_period.
  destruct (period_loop_coherent api region
              (turns (DT.replace_to_hour start_time) end_time)
              (DT.replace_to_hour start_time) end_time w Hco)
    as [w' [-> _]].
  fold (hour_starts start_time end_time).
  rewrite (priced_all _ Hall).
  destruct (hour_starts_head start_time end_time Hse) as [rest Hhead].
  rewrite Hhead. simpl. exists w'. reflexivity.
Qed.

Hypothesis price_nonneg : forall h, (0 <= price h)%Q.

Lemma spot_sum_nonneg (start_time end_time watt : Z) (hs : list Z) :
  0 <= watt ->
  (0 <= spot_sum start_time end_time watt (map (fun h => (h, price h)) hs))%Q.
Proof using price_nonneg.
  intros Hw. induction hs as [|h hs IH]; simpl; [apply Qle_refl|].
  destruct (Qle_bool (hour_fraction h start_time end_time) 0) eqn:Hf.
  - lra.
  - apply Qle_bool_false in Hf.
    assert (0 <= hour_fraction h start_time end_time
                 * (inject_Z watt / 1000) * price h)%Q; [|lra].
    apply Qmult_le_0_compat; [|apply price_nonneg].
    apply Qmult_le_0_compat; [lra|].
    apply Qle_shift_div_l; [reflexivity|].
    rewrite Qmult_0_l. replace 0%Q with (inject_Z 0) by reflexivity.
    now rewrite <- Zle_Qle.
Qed.

Lemma watt_kw_nonneg (watt : Z) : 0 <= watt -> (0 <= inject_Z watt / 1000)%Q.
Proof.
  intros Hw. apply Qle_shift_div_l; [reflexivity|].
  rewrite Qmult_0_l. replace 0%Q with (inject_Z 0) by reflexivity.
  now rewrite <- Zle_Qle.
Qed.

Lemma contribution_mono (h start_time t1 t2 watt : Z) (p : Q) :
  t1 <= t2 -> 0 <= watt -> (0 <= p)%Q ->
  ((if Qle_bool (hour_fraction h start_time t1) 0 then 0
    else hour_fraction h start_time t1 * (inject_Z watt / 1000) * p)
   <= (if Qle_bool (hour_fraction h start_time t2) 0 then 0
       else hour_fraction h start_time t2 * (inject_Z watt / 1000) * p))%Q.
Proof.
  intros Ht Hw Hp. pose proof (watt_kw_nonneg watt Hw) as Hkw.
  assert (Hf : (hour_fraction h start_time t1
                <= hour_fraction h start_time t2)%Q).
  { rewrite !hour_fraction_overlap. apply hours_of_le. unfold overlap. lia. }
  assert (Hwp : (0 <= inject_Z watt / 1000 * p)%Q)
    by now apply Qmult_le_0_compat.
  destruct (Qle_bool (hour_fraction h start_time t1) 0) eqn:H1;
    destruct (Qle_bool (hour_fraction h start_time t2) 0) eqn:H2.
  - apply Qle_refl.
  - apply Qle_bool_false in H2.
    rewrite <- Qmult_assoc. apply Qmult_le_0_compat; [lra | exact Hwp].
  - apply Qle_bool_false in H1. apply Qle_bool_iff in H2. lra.
  - rewrite <- !Qmult_assoc. now apply Qmult_le_compat_r.
Qed.

Lemma spot_sum_mono (start_time t1 t2 watt : Z) (fuel1 : nat) :
  t1 <= t2 -> 0 <= watt ->
  forall fuel2 current,
    (turns current t1 <= fuel1)%nat ->
    (turns current t2 <= fuel2)%nat ->
    (spot_sum start_time t1 watt
       (map (fun h => (h, price h)) (hour_starts_loop fuel1 current t1))
     <= spot_sum start_time t2 watt
          (map (fun h => (h, price h)) (hour_starts_loop fuel2 current t2)))%Q.
Proof using price_nonneg.
  intros Ht Hw.
  induction fuel1 as [|fuel1 IH]; intros fuel2 current Hf1 Hf2.
  - simpl. now apply spot_sum_nonneg.
  - simpl. destruct (Z.ltb_spec current t1) as [Hlt|Hge];
      [|now apply spot_sum_nonneg].
    rewrite (turns_step current t1) in Hf1 by lia.
    rewrite (turns_step current t2) in Hf2 by lia.
    destruct fuel2 as [|fuel2]; [lia|]. simpl.
    replace (current <? t2) with true by (symmetry; apply Z.ltb_lt; lia).
    simpl. apply Qplus_le_compat.
    + now apply contribution_mono.
    + apply IH; lia.
Qed.

Lemma priced_energy (start_time end_time watt : Z) :
  start_time < end_time ->
  (total_kwh (hour_loop start_time end_time watt
                (map (fun h => (h, price h))
                   (hour_starts start_time end_time)))
   == total_hours start_time end_time * (inject_Z watt / 1000))%Q.
Proof.
  intros Hse. unfold hour_loop.
  destruct (hour_loop_totals start_time end_time watt
              (map (fun h => (h, price h)) (hour_starts start_time end_time))
              (mktotals 0 0 [])) as [Hk _].
  rewrite Hk; simpl.
  rewrite fractions_sum_all; [ring | exact Hse |].
  rewrite map_map; simpl. apply map_id.
Qed.

Lemma priced_spot (start_time end_time watt : Z) (hs : list Z) :
  (total_spot_cost (hour_loop start_time end_time watt
                      (map (fun h => (h, price h)) hs))
   == spot_sum start_time end_time watt (map (fun h => (h, price h)) hs))%Q.
Proof.
  unfold hour_loop.
  destruct (hour_loop_totals start_time end_time watt
              (map (fun h => (h, price h)) hs) (mktotals 0 0 []))
    as [_ Hs].
  rewrite Hs; simpl. ring.
Qed.

Lemma total_hours_mono (start_time t1 t2 : Z) :
  t1 <= t2 -> (total_hours start_time t1 <= total_hours start_time t2)%Q.
Proof. intros Ht. apply hours_of_le. lia. Qed.

Lemma total_hours_nonneg (start_time end_time : Z) :
  start_time <= end_time -> (0 <= total_hours start_time end_time)%Q.
Proof.
  intros Hse. unfold total_hours. rewrite hours_of_eq. unfold Qle; simpl. lia.
Qed.

(** Energy and total cost of the per-hour result grow with the end. *)
Lemma per_hour_result_mono (start_time t1 t2 watt : Z)
    (fixed_cost_per_kwh : Q) :
  start_time < t1 -> t1 <= t2 -> 0 <= watt -> (0 <= fixed_cost_per_kwh)%Q ->
  let r1 :=
    per_hour_result start_time t1 watt fixed_cost_per_kwh
      (map (fun h => (h, price h)) (hour_starts start_time t1)) in
  let r2 :=
    per_hour_result start_time t2 watt fixed_cost_per_kwh
      (map (fun h => (h, price h)) (hour_starts start_time t2)) in
  (kwh r1 <= kwh r2)%Q /\ (total_cost r1 <= total_cost r2)%Q.
Proof using price_nonneg.
  intros Hs1 Ht Hw Hfix r1 r2. subst r1 r2. unfold per_hour_result; simpl.
  pose proof (watt_kw_nonneg watt Hw) as Hkw.
  pose proof (total_hours_mono start_time t1 t2 Ht) as Hh.
  assert (Hk : (total_hours start_time t1 * (inject_Z watt / 1000)
                <= total_hours start_time t2 * (inject_Z watt / 1000))%Q)
    by now apply Qmult_le_compat_r.
  assert (Hsp : (spot_sum start_time t1 watt
                   (map (fun h => (h, price h)) (hour_starts start_time t1))
                 <= spot_sum start_time t2 watt
                      (map (fun h => (h, price h))
                         (hour_starts start_time t2)))%Q)
    by (apply spot_sum_mono; auto).
  split; apply round_mono.
  - rewrite !priced_energy by lia. exact Hk.
  - rewrite !priced_spot, !priced_energy by lia.
    apply Qplus_le_compat; [exact Hsp|].
    now apply Qmult_le_compat_r.
Qed.

Lemma per_hour_result_nonneg (start_time end_time watt : Z)
    (fixed_cost_per_kwh : Q) :
  start_time < end_time -> 0 <= watt -> (0 <= fixed_cost_per_kwh)%Q ->
  let r :=
    per_hour_result start_time end_time watt fixed_cost_per_kwh
      (map (fun h => (h, price h)) (hour_starts start_time end_time)) in
  (0 <= kwh r)%Q /\ (0 <= total_cost r)%Q.
Proof using price_nonneg.
  intros Hse Hw Hfix r. subst r. unfold per_hour_result; simpl.
  pose proof (watt_kw_nonneg watt Hw) as Hkw.
  assert (Hh : (0 <= total_hours start_time end_time)%Q)
    by (apply total_hours_nonneg; lia).
  assert (Hk : (0 <= total_hours start_time end_time
                     * (inject_Z watt / 1000))%Q)
    by now apply Qmult_le_0_compat.
  split; apply round_nonneg.
  - now rewrite priced_energy.
  - rewrite priced_spot, priced_energy by lia.
    assert (0 <= spot_sum start_time end_time watt
                   (map (fun h => (h, price h))
                      (hour_starts start_time end_time)))%Q
      by now apply spot_sum_nonneg.
    assert (0 <= total_hours start_time end_time * (inject_Z watt / 1000)
                 * fixed_cost_per_kwh)%Q
      by now apply Qmult_le_0_compat.
    lra.
Qed.

End Estimates.

Lemma degenerate_cost (api : Z -> string -> response)
    (now start_time end_time watt : Z) (fixed_cost_per_kwh : Q)
    (region : string) (w : world) :
  end_time <= start_time ->
  calculate_session_cost api now start_time end_time watt fixed_cost_per_kwh
    region w
  = (mkresult 0 0 0 0 0 0 [], w).
Proof.
  intros Hle. unfold calculate_session_cost.
  fold (hours_of (end_time - start_time)).
  replace (Qle_bool (hours_of (end_time - start_time)) 0) with true
    by (symmetry; apply hours_of_le_0; lia).
  reflexivity.
Qed.

Lemma hour_starts_loop_incl (t1 t2 : Z) (fuel1 : nat) :
  t1 <= t2 ->
  forall fuel2 current h,
    (turns current t2 <= fuel2)%nat ->
    In h (hour_starts_loop fuel1 current t1) ->
    In h (hour_starts_loop fuel2 current t2).
Proof.
  intros Ht. induction fuel1 as [|fuel1 IH]; intros fuel2 current h Hf2;
    simpl; [tauto|].
  destruct (Z.ltb_spec current t1) as [Hlt|Hge]; [|simpl; tauto].
  rewrite (turns_step current t2) in Hf2 by lia.
  destruct fuel2 as [|fuel2]; [lia|]. simpl.
  replace (current <? t2) with true by (symmetry; apply Z.ltb_lt; lia).
  intros [<-|Hin]; [now left | right].
  apply IH; [lia | exact Hin].
Qed.

Lemma hour_starts_incl (start_time t1 t2 h : Z) :
  t1 <= t2 ->
  In h (hour_starts start_time t1) -> In h (hour_starts start_time t2).
Proof.
  intros Ht. unfold hour_starts. now apply hour_starts_loop_incl.
Qed.

(** ** The fallback branch *)

Lemma coherent_empty (api : Z -> string -> response) : coherent api ∅.
Proof.
  intros d r m Hm. apply get_cached_prices_Some in Hm as [Hm Hne].
  exfalso; apply Hne. apply map_empty; intros hour.
  now rewrite Hm, lookup_empty.
Qed.

Lemma get_current_price_coherent (api : Z -> string -> response)
    (now : Z) (region : string) (w : world) :
  coherent api (price_cache w) ->
  exists w',
    get_current_price api now region w = (resolved_price api region now, w')
    /\ coherent api (price_cache w').
Proof. apply get_price_for_hour_coherent. Qed.

(** A cost calculation leaves a cache that holds only served curves. *)
Lemma cost_coherent (api : Z -> string -> response)
    (now start_time end_time watt : Z) (fixed_cost_per_kwh : Q)
    (region : string) (w : world) :
  coherent api (price_cache w) ->
  coherent api
    (price_cache
       (snd (calculate_session_cost api now start_time end_time watt
               fixed_cost_per_kwh region w))).
Proof.
  intros Hco. unfold calculate_session_cost.
  destruct (Qle_bool (Py.total_seconds (end_time - start_time) / 3600) 0);
    [exact Hco|].
  unfold bind at 1. unfold get_prices_for_period.
  destruct (period_loop_coherent api region
              (turns (DT.replace_to_hour start_time) end_time)
              (DT.replace_to_hour start_time) end_time w Hco)
    as [w1 [-> Hco1]].
  destruct (priced api region _) as [|hp hps]; [|exact Hco1].
  unfold bind.
  destruct (get_current_price_coherent api now region w1 Hco1)
    as [w2 [-> Hco2]].
  exact Hco2.
Qed.

(** ** Complete curves *)

Lemma written_is_Some (prices : list (Z * Q)) (hour : Z) :
  is_Some (written prices !! hour) <-> exists p, In (hour, p) prices.
Proof.
  unfold written. split.
  - intros [p Hp]. exists p. apply elem_of_list_to_map_2 in Hp.
    apply list_elem_of_In in Hp. now apply in_rev.
  - intros [p Hin].
    destruct (list_to_map (rev prices) !! hour) as [q|] eqn:Hlook;
      [now exists q|].
    exfalso. apply not_elem_of_list_to_map in Hlook. apply Hlook.
    apply list_elem_of_fmap. exists (hour, p). split; [reflexivity|].
    apply list_elem_of_In. now apply in_rev in Hin.
Qed.

Lemma covers_day_complete (prices : list (Z * Q)) :
  covers_day prices = true -> complete_curve (written prices).
Proof.
  unfold covers_day. intros Hcov.
  apply andb_true_iff in Hcov as [Hall Hrange].
  rewrite forallb_forall in Hall, Hrange.
  intros hour. rewrite written_is_Some. split.
  - intros [p Hin]. specialize (Hrange _ Hin). simpl in Hrange. lia.
  - intros Hh.
    assert (Hin : In hour (map Z.of_nat (seq 0 24))).
    { apply in_map_iff. exists (Z.to_nat hour). split; [lia|].
      apply in_seq. lia. }
    specialize (Hall _ Hin). apply existsb_exists in Hall as [[h p] [Hhp Heq]].
    simpl in Heq. apply Z.eqb_eq in Heq. subst h. now exists p.
Qed.

Lemma complete_curve_size (m : gmap Z Q) :
  complete_curve m -> size m = 24%nat.
Proof.
  intros Hm.
  assert (Hdom : dom m = list_to_set (seqZ 0 24)).
  { apply set_eq. intros h.
    rewrite elem_of_dom, elem_of_list_to_set, elem_of_seqZ, (Hm h). lia. }
  rewrite <- size_dom, Hdom, size_list_to_set by apply NoDup_seqZ.
  reflexivity.
Qed.

Lemma complete_curve_nonempty (m : gmap Z Q) : complete_curve m -> m <> ∅.
Proof.
  intros Hm Hempty. destruct (proj2 (Hm 0) ltac:(lia)) as [p Hp].
  rewrite Hempty, lookup_empty in Hp. discriminate.
Qed.

Lemma cache_complete_rows (cache : gmap (Z * string * Z) Q) date region hour :
  cache_complete cache -> ~ 0 <= hour < 24 ->
  cache !! (date, region, hour) = None.
Proof.
  intros Hcc Hout.
  destruct (get_cached_prices date region cache) as [m|] eqn:Hget.
  - pose proof (Hcc _ _ _ Hget hour) as Hm.
    apply get_cached_prices_Some in Hget as [Hget _].
    rewrite <- Hget. destruct (m !! hour) eqn:Hlook; [|reflexivity].
    exfalso. apply Hout, Hm. eauto.
  - exact (proj1 (get_cached_prices_None _ _ _) Hget hour).
Qed.

(** ** Calendar *)

Lemma days_in_month_bounds (y m : Z) : 28 <= days_in_month y m <= 31.
Proof.
  unfold days_in_month.
  destruct (m =? 2); [destruct (isleap y); lia|].
  destruct ((m =? 4) || (m =? 6) || (m =? 9) || (m =? 11)); lia.
Qed.

Lemma new_date_ok (y m d : Z) :
  1 <= y <= 9999 -> 1 <= m <= 12 -> 1 <= d <= days_in_month y m ->
  new_date y m d = Py.Returned (mkdate y m d).
Proof.
  intros Hy Hm Hd. unfold new_date.
  repeat match goal with
         | |- context [?a <=? ?b] =>
             rewrite (proj2 (Z.leb_le a b)) by lia
         end.
  reflexivity.
Qed.

Lemma monthrange_ok (y m : Z) :
  1 <= m <= 12 -> monthrange y m = Py.Returned (days_in_month y m).
Proof.
  intros Hm. unfold monthrange.
  repeat match goal with
         | |- context [?a <=? ?b] =>
             rewrite (proj2 (Z.leb_le a b)) by lia
         end.
  reflexivity.
Qed.

(** ** Facts about the concrete inputs *)

Lemma cache_complete_empty : cache_complete ∅.
Proof.
  intros d r m Hm. apply get_cached_prices_Some in Hm as [Hm Hne].
  exfalso; apply Hne. apply map_empty; intros hour.
  now rewrite Hm, lookup_empty.
Qed.

Lemma api_flat_priced (h : Z) :
  exists p, resolved_price api_flat "NO1" h = Some p /\ (0 <= p)%Q.
Proof.
  exists 1.21000%Q. split; [|discriminate].
  unfold resolved_price. simpl negb. cbv iota.
  unfold upstream_curve, api_flat. simpl negb. cbv iota.
  rewrite price_at_lookup.
  assert (Hh : 0 <= DT.hour h < 24)
    by (unfold DT.hour; apply Z.mod_pos_bound; lia).
  assert (Hin : In (DT.hour h) (map Z.of_nat (seq 0 24))).
  { apply in_map_iff. exists (Z.to_nat (DT.hour h)). split; [lia|].
    apply in_seq. lia. }
  revert Hin. generalize (DT.hour h). intros k Hin. simpl in Hin.
  repeat (destruct Hin as [<-|Hin]; [vm_compute; reflexivity|]).
  contradiction.
Qed.

(** ** The repository's tests and the documented example *)

(** tests/test_calculator.py, class TestCalculateWatt. *)
Example test_low_mode : calculate_watt 750 1500 "low" = 750.
Proof. reflexivity. Qed.

Example test_high_mode : calculate_watt 750 1500 "high" = 1500.
Proof. reflexivity. Qed.

Example test_avg_mode : calculate_watt 750 1500 "avg" = 1125.
Proof. reflexivity. Qed.

Example test_avg_mode_odd_numbers : calculate_watt 100 201 "avg" = 150.
Proof. reflexivity. Qed.

Example test_same_low_high :
  calculate_watt 1000 1000 "low" = 1000
  /\ calculate_watt 1000 1000 "high" = 1000
  /\ calculate_watt 1000 1000 "avg" = 1000.
Proof. repeat split. Qed.

(** 750 W / 1500 W in mode "avg", two hours at a raw price of 0.968 (1.21
    with MVA), fixed cost 1.0: 2.25 kWh, spot 2.72, fixed 2.25, total 4.97,
    after one request for the day. *)
Example two_hours_flat_price :
  let watt := calculate_watt 750 1500 "avg" in
  let run :=
    calculate_session_cost api_flat (clock 0 12 0) (clock 0 10 0)
      (clock 0 12 0) watt 1.0 "NO1" empty_world in
  (hours (fst run), kwh (fst run), spot_cost (fst run), fixed_cost (fst run),
   total_cost (fst run), avg_spot_price (fst run))
  = (2.00, 2.2500, 2.72, 2.25, 4.97, 1.2100)%Q
  /\ requests (snd run) = [(0, "NO1"%string)].
Proof. split; vm_compute; reflexivity. Qed.

(** The exempt region pays no MVA: 0.968 stays 0.968. *)
Example exempt_region_price :
  fst (get_current_price api_flat (clock 0 10 0) "NO4" empty_world)
  = Some 0.96800%Q.
Proof. vm_compute. reflexivity. Qed.

(** A second request for the same day is served from the cache. *)
Example second_fetch_hits_cache :
  let w1 := snd (fetch_daily_prices api_flat (clock 0 10 0) "NO1" empty_world) in
  let w2 := snd (fetch_daily_prices api_flat (clock 0 11 0) "NO1" w1) in
  requests w1 = [(0, "NO1"%string)] /\ w2 = w1.
Proof. split; vm_compute; reflexivity. Qed.

(** ** The functions with doubles and exceptions *)











(** * Properties of the specification *)

(** ** Wattage resolution *)

(** C8: wattage resolution is a function of (low, high, mode): "low" gives
    the low bound, "high" the high bound, "avg" the integer floor of
    (low + high) / 2 and nothing beyond that floor, and with equal bounds
    all three modes give the common value. *)
Theorem calculate_watt_modes (low high : Z) :
  calculate_watt low high "low" = low
  /\ calculate_watt low high "high" = high
  /\ calculate_watt low high "avg" = (low + high) / 2
  /\ 2 * calculate_watt low high "avg" <= low + high
       < 2 * calculate_watt low high "avg" + 2
  /\ calculate_watt low low "low" = low
  /\ calculate_watt low low "high" = low
  /\ calculate_watt low low "avg" = low.
Proof.
  unfold calculate_watt; cbn [String.eqb Ascii.eqb Bool.eqb].
  repeat split; try reflexivity.
  - pose proof (Z.mul_div_le (low + high) 2); lia.
  - pose proof (Z.mul_succ_div_gt (low + high) 2); lia.
  - replace (low + low) with (low * 2) by lia.
    apply Z.div_mul; lia.
Qed.

(** C10: every mode string other than "low" and "high", the empty string and
    unknown words included, resolves to the floor of (low + high) / 2; no
    mode is rejected. *)
Theorem calculate_watt_other_modes (low high : Z) (mode : string) :
  mode <> "low"%string -> mode <> "high"%string ->
  calculate_watt low high mode = (low + high) / 2.
Proof.
  intros Hlow Hhigh. unfold calculate_watt.
  apply String.eqb_neq in Hlow, Hhigh.
  now rewrite Hlow, Hhigh.
Qed.

(** C10 at the empty mode and at an unknown one. *)
Lemma calculate_watt_other_modes_witness :
  calculate_watt 750 1500 EmptyString = 1125 /\ calculate_watt 100 201 "turbo" = 150.
Proof.
  split.
  - rewrite (calculate_watt_other_modes 750 1500 EmptyString); [reflexivity | | ];
      discriminate.
  - rewrite (calculate_watt_other_modes 100 201 "turbo"); [reflexivity | | ];
      discriminate.
Defined.

(** ** The cost engine *)

(** C7: for end <= start the result has duration, energy, spot cost, fixed
    cost, total cost and average price 0 and no breakdown; nothing is
    raised, and for every upstream source the cache and the request log are
    left as they were: no fetch is made. *)
Theorem degenerate_interval_zero (api : Z -> string -> response)
    (now start_time end_time watt : Z) (fixed_cost_per_kwh : Q)
    (region : string) (w : world) :
  end_time <= start_time ->
  calculate_session_cost api now start_time end_time watt fixed_cost_per_kwh
    region w
  = (mkresult 0 0 0 0 0 0 [], w).
Proof. apply degenerate_cost. Qed.

(** C7 at an inverted and at an empty interval. *)
Lemma degenerate_interval_zero_witness :
  calculate_session_cost api_flat (clock 0 12 0) (clock 0 12 0)
    (clock 0 10 0) 1000 1.0 "NO1" empty_world
  = (mkresult 0 0 0 0 0 0 [], empty_world)
  /\ calculate_session_cost api_flat (clock 0 12 0) (clock 0 12 0)
       (clock 0 12 0) 1000 1.0 "NO1" empty_world
     = (mkresult 0 0 0 0 0 0 [], empty_world).
Proof.
  split; apply degenerate_interval_zero; vm_compute; discriminate.
Defined.

(** C1: where the body of a 200 reply holds a record without its price, the
    cost calculation raises KeyError: the loop that reads the records stands
    outside the [try] block of [fetch_daily_prices]. Where the request itself
    fails, the sibling path returns the whole-interval result at the emergency
    price 1.5. *)
Theorem malformed_record_raises :
  Calculator64.calculate_session_cost api_malformed (clock 0 12 0)
    (clock 0 10 0) (clock 0 12 0) 1000 (F64.nearest 1.0) "NO1" empty_world64
  = (Exn.Raise Exn.KeyError, PriceApi64.mkworld ∅ [(0, "NO1"%string)])
  /\ Calculator64.calculate_session_cost api_down64 (clock 0 12 0)
       (clock 0 10 0) (clock 0 12 0) 1000 (F64.nearest 1.0) "NO1"
       empty_world64
     = (Exn.Return
          (Calculator64.mkresult (F64.nearest 2.0) (F64.nearest 2.0)
             (F64.nearest 3.0) (F64.nearest 2.0) (F64.nearest 5.0)
             (F64.nearest 1.5) []),
        PriceApi64.mkworld ∅
          [(0, "NO1"%string); (0, "NO1"%string); (0, "NO1"%string)]).
Proof. split; vm_compute; reflexivity. Qed.




(** The hour fractions that enter the totals never sum to more than the
    duration of the interval; they sum to exactly the duration when the
    list holds every hour of the interval, and the energy total is their
    sum times the kilowatts. *)
Theorem per_hour_fractions (api : Z -> string -> response)
    (start_time end_time : Z) (region : string) (w : world) :
  start_time < end_time ->
  let hourly_prices :=
    fst (get_prices_for_period api start_time end_time region w) in
  (Qsum (used_fractions start_time end_time hourly_prices)
   <= total_hours start_time end_time)%Q
  /\ (map fst hourly_prices = hour_starts start_time end_time ->
      (Qsum (used_fractions start_time end_time hourly_prices)
       == total_hours start_time end_time)%Q)
  /\ (forall watt,
        (total_kwh (hour_loop start_time end_time watt hourly_prices)
         == Qsum (used_fractions start_time end_time hourly_prices)
            * (inject_Z watt / 1000))%Q).
Proof.
  intros Hse hourly_prices. repeat split.
  - unfold hourly_prices, get_prices_for_period.
    eapply Qle_trans; [apply period_loop_fractions_le|].
    apply Qle_lteq; right.
    apply fractions_sum_all; [exact Hse|].
    rewrite map_map; simpl. apply map_id.
  - now apply fractions_sum_all.
  - intros watt. unfold hour_loop.
    destruct (hour_loop_totals start_time end_time watt hourly_prices
                (mktotals 0 0 [])) as [Hk _].
    rewrite Hk; simpl. ring.
Qed.

(** The fractions of 10:30 to 12:15 with every hour priced: 1.75 hours. *)
Lemma per_hour_fractions_witness :
  let hourly_prices :=
    fst (get_prices_for_period api_flat (clock 0 10 30) (clock 0 12 15)
           "NO1" empty_world) in
  (Qsum (used_fractions (clock 0 10 30) (clock 0 12 15) hourly_prices)
   == total_hours (clock 0 10 30) (clock 0 12 15))%Q.
Proof.
  destruct (per_hour_fractions api_flat (clock 0 10 30) (clock 0 12 15)
              "NO1" empty_world ltac:(reflexivity)) as [_ [Hall _]].
  apply Hall. vm_compute. reflexivity.
Defined.

(** C3 at a failing input: from 23:00 to 01:00 with day 0 served and day 1
    answered by a 404, the per-hour branch runs on the single priced hour;
    the hour from 00:00 is left out, the fractions sum to 1 hour of the 2,
    and the result reports 2.00 hours but 1 kWh at 1000 W. *)
Lemma unpriced_hour_is_dropped :
  let start_time := clock 0 23 0 in
  let end_time := clock 1 1 0 in
  let hourly_prices :=
    fst (get_prices_for_period api_first_day start_time end_time "NO1"
           empty_world) in
  hourly_prices = [(clock 0 23 0, 1.21000%Q)]
  /\ ~ (Qsum (used_fractions start_time end_time hourly_prices)
        == total_hours start_time end_time)%Q
  /\ (Qsum (used_fractions start_time end_time hourly_prices) == 1)%Q
  /\ (total_hours start_time end_time == 2)%Q
  /\ kwh (fst (calculate_session_cost api_first_day end_time start_time
                 end_time 1000 1.0 "NO1" empty_world)) = 1.0000%Q
  /\ hours (fst (calculate_session_cost api_first_day end_time start_time
                   end_time 1000 1.0 "NO1" empty_world)) = 2.00%Q.
Proof.
  repeat split; try (vm_compute; reflexivity).
  vm_compute. discriminate.
Qed.

(** C9, as amended: an estimate is the cost calculation with the clock reading
    as end time. With stable prices, that is an upstream source that serves a
    price, none negative, for every hour from the start to the later reading,
    and caches that hold only what it serves, and with a non-negative wattage
    and fixed cost, the energy and the total cost of an estimate taken at [t1]
    are at most those of an estimate taken at a later [t2] (in exact
    arithmetic). *)
Theorem estimates_monotone (api : Z -> string -> response) (region : string)
    (start_time watt : Z) (fixed_cost_per_kwh : Q)
    (t1 later1 t2 later2 : Z) (w1 w2 : world) :
  coherent api (price_cache w1) ->
  coherent api (price_cache w2) ->
  (forall h, In h (hour_starts start_time t2) ->
             exists p, resolved_price api region h = Some p /\ (0 <= p)%Q) ->
  0 <= watt ->
  (0 <= fixed_cost_per_kwh)%Q ->
  t1 <= t2 ->
  let r1 :=
    fst (estimate_current_cost api t1 later1 start_time watt
           fixed_cost_per_kwh region w1) in
  let r2 :=
    fst (estimate_current_cost api t2 later2 start_time watt
           fixed_cost_per_kwh region w2) in
  estimate_current_cost api t1 later1 start_time watt fixed_cost_per_kwh
    region w1
  = calculate_session_cost api later1 start_time t1 watt fixed_cost_per_kwh
      region w1
  /\ (kwh r1 <= kwh r2)%Q
  /\ (total_cost r1 <= total_cost r2)%Q.
Proof.
  intros Hco1 Hco2 Hprices Hw Hfix Ht r1 r2. split; [reflexivity|].
  subst r1 r2. unfold estimate_current_cost.
  set (price := clamped_price api region).
  assert (Hnonneg : forall h, (0 <= price h)%Q).
  { intros h. unfold price, clamped_price.
    destruct (resolved_price api region h) as [p|]; [|apply Qle_refl].
    destruct (Qle_bool 0 p) eqn:Hp; [|apply Qle_refl].
    now apply Qle_bool_iff. }
  assert (Hsome2 : forall h, In h (hour_starts start_time t2) ->
                             resolved_price api region h = Some (price h)).
  { intros h Hin. destruct (Hprices h Hin) as [p [Hp Hpos]].
    unfold price, clamped_price. rewrite Hp.
    apply Qle_bool_iff in Hpos. now rewrite Hpos. }
  assert (Hsome1 : forall h, In h (hour_starts start_time t1) ->
                             resolved_price api region h = Some (price h)).
  { intros h Hin. apply Hsome2. now apply (hour_starts_incl _ t1). }
  destruct (Z_le_gt_dec t1 start_time) as [Hd1|Hn1].
  - rewrite (degenerate_cost api later1 start_time t1) by exact Hd1. simpl.
    destruct (Z_le_gt_dec t2 start_time) as [Hd2|Hn2].
    + rewrite (degenerate_cost api later2 start_time t2) by exact Hd2. simpl.
      split; apply Qle_refl.
    + destruct (cost_priced_path api region price later2 start_time t2 watt
                  fixed_cost_per_kwh w2 Hco2 ltac:(lia) Hsome2)
        as [w2' ->]. simpl fst.
      apply (per_hour_result_nonneg price Hnonneg);
        [lia | exact Hw | exact Hfix].
  - destruct (cost_priced_path api region price later1 start_time t1 watt
                fixed_cost_per_kwh w1 Hco1 ltac:(lia) Hsome1)
      as [w1' ->].
    destruct (cost_priced_path api region price later2 start_time t2 watt
                fixed_cost_per_kwh w2 Hco2 ltac:(lia) Hsome2)
      as [w2' ->]. simpl fst.
    apply (per_hour_result_mono price Hnonneg);
      [lia | exact Ht | exact Hw | exact Hfix].
Qed.

(** C9 for estimates at 10:40 and 12:10 of a session begun at 10:00, the
    second taken in the state that the first has left. *)
Lemma estimates_monotone_witness :
  let first :=
    estimate_current_cost api_flat (clock 0 10 40) (clock 0 10 40)
      (clock 0 10 0) 1125 1.0 "NO1" empty_world in
  let second :=
    estimate_current_cost api_flat (clock 0 12 10) (clock 0 12 10)
      (clock 0 10 0) 1125 1.0 "NO1" (snd first) in
  (kwh (fst first) <= kwh (fst second))%Q
  /\ (total_cost (fst first) <= total_cost (fst second))%Q.
Proof.
  destruct (estimates_monotone api_flat "NO1" (clock 0 10 0) 1125 1.0
              (clock 0 10 40) (clock 0 10 40) (clock 0 12 10) (clock 0 12 10)
              empty_world
              (snd (estimate_current_cost api_flat (clock 0 10 40)
                      (clock 0 10 40) (clock 0 10 0) 1125 1.0 "NO1"
                      empty_world))
              (coherent_empty _)
              (cost_coherent _ _ _ _ _ _ _ empty_world (coherent_empty _))
              (fun h _ => api_flat_priced h) ltac:(lia) ltac:(discriminate)
              ltac:(vm_compute; discriminate)) as [_ H].
  exact H.
Defined.

(** C9 as stated fails: with a stable curve whose price for the hour from
    11:00 is negative, the estimate taken at 12:00 has a lower total than the
    one taken at 11:00. *)
Lemma estimates_can_fall :
  let first :=
    estimate_current_cost api_negative_hour (clock 0 11 0) (clock 0 11 0)
      (clock 0 10 0) 1000 0 "NO4" empty_world in
  let second :=
    estimate_current_cost api_negative_hour (clock 0 12 0) (clock 0 12 0)
      (clock 0 10 0) 1000 0 "NO4" (snd first) in
  (kwh (fst first) == 1)%Q /\ (kwh (fst second) == 2)%Q
  /\ (total_cost (fst first) == 0.5)%Q
  /\ (total_cost (fst second) == -0.5)%Q
  /\ ~ (total_cost (fst first) <= total_cost (fst second))%Q.
Proof.
  cbv zeta. repeat split; try (vm_compute; reflexivity).
  vm_compute. intros H. apply H. reflexivity.
Qed.

(** Where the hours of day 0 have no price, an estimate taken at 23:59 is
    the whole-interval fallback, and the one taken at 00:30 lists the hour
    from 00:00 only: energy and total fall (the dropped hours of C3). *)
Example estimate_falls_past_unpriced_hours :
  let first :=
    estimate_current_cost api_later_days (clock 0 23 59) (clock 0 23 59)
      (clock 0 22 0) 1000 1.0 "NO1" empty_world in
  let second :=
    estimate_current_cost api_later_days (clock 1 0 30) (clock 1 0 30)
      (clock 0 22 0) 1000 1.0 "NO1" (snd first) in
  (kwh (fst first) == 1.9833)%Q /\ (kwh (fst second) == 0.5)%Q
  /\ (total_cost (fst second) < total_cost (fst first))%Q.
Proof. cbv zeta. repeat split; vm_compute; reflexivity. Qed.

(** ** The price cache *)

(** C4, as the code has it: a cache write upserts the entries it is given.
    An hour it lists takes the last price listed for it, an hour of the key
    it does not list keeps its earlier price, other keys are untouched.
    When the write lists each of the hours 0..23 and no other, and every
    key read as no curve or a complete one before, the next read of the key
    is exactly the written 24-entry curve and every key still reads as no
    curve or a complete one. *)
Theorem cache_write_upserts (date : Z) (region : string)
    (prices : list (Z * Q)) (cache : gmap (Z * string * Z) Q) :
  (forall hour,
     cache_prices date region prices cache !! (date, region, hour)
     = match written prices !! hour with
       | Some p => Some p
       | None => cache !! (date, region, hour)
       end)
  /\ (forall d r hour,
        (d, r) <> (date, region) ->
        cache_prices date region prices cache !! (d, r, hour)
        = cache !! (d, r, hour))
  /\ (covers_day prices = true ->
      cache_complete cache ->
      get_cached_prices date region (cache_prices date region prices cache)
      = Some (written prices)
      /\ complete_curve (written prices)
      /\ size (written prices) = 24%nat
      /\ cache_complete (cache_prices date region prices cache)).
Proof.
  split; [intros hour; apply lookup_cache_prices_key|].
  split; [intros d r hour; apply lookup_cache_prices_other|].
  intros Hcov Hcc.
  pose proof (covers_day_complete prices Hcov) as Hcurve.
  assert (Hread :
    get_cached_prices date region (cache_prices date region prices cache)
    = Some (written prices)).
  { apply get_cached_prices_intro; [now apply complete_curve_nonempty|].
    intros hour. rewrite lookup_cache_prices_key.
    destruct (written prices !! hour) eqn:Hlook; [reflexivity|].
    apply cache_complete_rows; [exact Hcc|].
    intros Hin. apply Hcurve in Hin as [p Hp]. congruence. }
  split; [exact Hread|]. split; [exact Hcurve|].
  split; [now apply complete_curve_size|].
  intros d r m Hm.
  destruct (decide ((d, r) = (date, region))) as [Heq|Hne].
  - inversion Heq; subst d r. rewrite Hread in Hm.
    inversion Hm; subst m. exact Hcurve.
  - rewrite (get_cached_prices_ext d r _ cache) in Hm
      by (intros h; now apply lookup_cache_prices_other).
    exact (Hcc _ _ _ Hm).
Qed.

(** C4 as amended, for a write of 24 hours into an empty cache. *)
Lemma cache_write_upserts_witness :
  get_cached_prices 0 "NO1" (cache_prices 0 "NO1" day_prices ∅)
  = Some (written day_prices)
  /\ size (written day_prices) = 24%nat.
Proof.
  destruct (cache_write_upserts 0 "NO1" day_prices ∅) as [_ [_ Hfull]].
  destruct (Hfull ltac:(reflexivity) cache_complete_empty)
    as [Hread [_ [Hsize _]]].
  split; [exact Hread | exact Hsize].
Defined.

(** C4 as stated fails: a write of one hour leaves a one-entry curve, a
    second write of another hour merges into it, the cache is then not
    complete, and a fetch whose payload has one record caches a one-entry
    curve that the next read observes. *)
Lemma cache_write_partial_and_merged :
  get_cached_prices 0 "NO1" (cache_prices 0 "NO1" [(0, 1.0%Q)] ∅)
  = Some {[0 := 1.0%Q]}
  /\ get_cached_prices 0 "NO1"
       (cache_prices 0 "NO1" [(1, 2.0%Q)]
          (cache_prices 0 "NO1" [(0, 1.0%Q)] ∅))
     = Some (<[1 := 2.0%Q]> {[0 := 1.0%Q]})
  /\ ~ cache_complete (cache_prices 0 "NO1" [(0, 1.0%Q)] ∅)
  /\ (let w := snd (fetch_daily_prices api_one_hour 0 "NO1" empty_world) in
      get_cached_prices 0 "NO1" (price_cache w) = Some {[0 := 1.00000%Q]}).
Proof.
  assert (H1 : get_cached_prices 0 "NO1" (cache_prices 0 "NO1" [(0, 1.0%Q)] ∅)
               = Some {[0 := 1.0%Q]}) by (vm_compute; reflexivity).
  repeat split; try (vm_compute; reflexivity).
  intros Hcc. specialize (Hcc _ _ _ H1 1).
  destruct (proj2 Hcc ltac:(lia)) as [p Hp]. vm_compute in Hp. discriminate.
Qed.

(** ** The billing window *)

(** C5: for a year in 1..9999 and a month in 1..12, a period start day 1
    gives the calendar month, first to last day. A start day d > 1 gives
    the window from day d of the preceding month (December of the year
    before for January) to day d - 1 of the month, whenever the two dates
    exist, which they do for every d up to 28, the range the settings
    accept. The start day 5 with (2025, 3) gives 2025-02-05 to 2025-03-04. *)
Theorem period_bounds_window (year month d : Z) :
  1 <= year <= 9999 ->
  1 <= month <= 12 ->
  period_bounds year month 1
  = Py.Returned (mkdate year month 1,
                 mkdate year month (days_in_month year month))
  /\ (1 < d ->
      1 <= fst (preceding_month year month) ->
      d <= days_in_month (fst (preceding_month year month))
             (snd (preceding_month year month)) ->
      d - 1 <= days_in_month year month ->
      period_bounds year month d
      = Py.Returned (mkdate (fst (preceding_month year month))
                       (snd (preceding_month year month)) d,
                     mkdate year month (d - 1)))
  /\ (1 < d <= 28 ->
      1 <= fst (preceding_month year month) ->
      period_bounds year month d
      = Py.Returned (mkdate (fst (preceding_month year month))
                       (snd (preceding_month year month)) d,
                     mkdate year month (d - 1)))
  /\ preceding_month year 1 = (year - 1, 12)
  /\ period_bounds 2025 3 5
     = Py.Returned (mkdate 2025 2 5, mkdate 2025 3 4).
Proof.
  intros Hy Hm.
  assert (Hgen :
    1 < d ->
    1 <= fst (preceding_month year month) ->
    d <= days_in_month (fst (preceding_month year month))
           (snd (preceding_month year month)) ->
    d - 1 <= days_in_month year month ->
    period_bounds year month d
    = Py.Returned (mkdate (fst (preceding_month year month))
                     (snd (preceding_month year month)) d,
                   mkdate year month (d - 1))).
  { intros Hd Hprev Hstart Hend. unfold period_bounds, preceding_month in *.
    replace (d =? 1) with false by (symmetry; apply Z.eqb_neq; lia).
    replace (1 <? d) with true by (symmetry; apply Z.ltb_lt; lia).
    destruct (Z.eqb_spec month 1) as [->|Hne]; simpl in *.
    - rewrite !new_date_ok by lia. reflexivity.
    - rewrite !new_date_ok by lia. reflexivity. }
  split; [|split; [exact Hgen | split; [|split; reflexivity]]].
  - unfold period_bounds. simpl.
    pose proof (days_in_month_bounds year month).
    rewrite new_date_ok, monthrange_ok, new_date_ok by lia. reflexivity.
  - intros Hd Hprev. apply Hgen; try lia.
    + pose proof (days_in_month_bounds (fst (preceding_month year month))
                    (snd (preceding_month year month))). lia.
    + pose proof (days_in_month_bounds year month). lia.
Qed.

(** C5 in January 2024 with start day 15, and in February 2024. *)
Lemma period_bounds_window_witness :
  period_bounds 2024 1 15
  = Py.Returned (mkdate 2023 12 15, mkdate 2024 1 14)
  /\ period_bounds 2024 2 1
     = Py.Returned (mkdate 2024 2 1, mkdate 2024 2 29).
Proof.
  destruct (period_bounds_window 2024 1 15 ltac:(lia) ltac:(lia))
    as [_ [_ [H [_ _]]]].
  destruct (period_bounds_window 2024 2 15 ltac:(lia) ltac:(lia))
    as [H1 _].
  split.
  - apply H; simpl; lia.
  - exact H1.
Defined.

(** ** The budget alert *)

(** C6, as the code has it: the budget check returns no alert when the budget
    is unset or not above 0. Otherwise it computes the percentage as the
    double (total / budget) * 100 from the doubles stored, and returns the
    exceeded alert when 100 <= percentage holds of that double, the warning
    alert when it does not and 80 <= percentage holds, and none when neither
    holds: at most one alert, exceeded first. *)
Theorem budget_alert_thresholds (sum : list float -> float) (now : date)
    (user_id : Z) (db : Alerts64.database) :
  let settings := fst (Alerts64.get_user_settings user_id db) in
  let db' := snd (Alerts64.get_user_settings user_id db) in
  let check := Alerts64.check_budget_alert sum now user_id db in
  (Alerts64.budget_nok settings = None -> check = (Py.Returned None, db'))
  /\ (forall budget,
        Alerts64.budget_nok settings = Some budget ->
        PrimFloat.leb budget PrimFloat.zero = true ->
        check = (Py.Returned None, db'))
  /\ (forall budget sessions,
        Alerts64.budget_nok settings = Some budget ->
        PrimFloat.leb budget PrimFloat.zero = false ->
        Alerts64.get_monthly_sessions user_id (year now) (month now)
          (Alerts64.period_start_day settings) db' = Py.Returned sessions ->
        let total_cost := sum (map Alerts64.cost_or_0 sessions) in
        let percentage :=
          PrimFloat.mul (PrimFloat.div total_cost budget) (F64.nearest 100) in
        (PrimFloat.leb (F64.nearest 100) percentage = true ->
         check
         = (Py.Returned
              (Some (Alerts64.BudgetExceeded total_cost budget percentage)),
            db'))
        /\ (PrimFloat.leb (F64.nearest 100) percentage = false ->
            PrimFloat.leb (F64.nearest 80) percentage = true ->
            check
            = (Py.Returned
                 (Some (Alerts64.BudgetWarning percentage
                          (PrimFloat.sub budget total_cost))),
               db'))
        /\ (PrimFloat.leb (F64.nearest 100) percentage = false ->
            PrimFloat.leb (F64.nearest 80) percentage = false ->
            check = (Py.Returned None, db'))).
Proof.
  intros settings db' check. subst settings db' check.
  unfold Alerts64.check_budget_alert.
  destruct (Alerts64.get_user_settings user_id db) as [settings db'].
  cbn [fst snd]. split; [|split].
  - intros ->. reflexivity.
  - intros budget -> ->. reflexivity.
  - intros budget sessions -> -> ->. cbv zeta. split; [|split].
    + intros ->. reflexivity.
    + intros -> ->. reflexivity.
    + intros -> ->. reflexivity.
Qed.

(** C6 at 79.9 percent (none), 80 percent (warning), 100 percent (exceeded) of
    a budget of 1000, and with a budget of 0 (none). *)
Lemma budget_alert_thresholds_witness :
  fst (Alerts64.check_budget_alert Alerts64.sum_left (mkdate 2025 3 20) 7
         (db_spent64 1000 799)) = Py.Returned None
  /\ fst (Alerts64.check_budget_alert Alerts64.sum_left (mkdate 2025 3 20) 7
            (db_spent64 1000 800))
     = Py.Returned
         (Some (Alerts64.BudgetWarning (F64.nearest 80) (F64.nearest 200)))
  /\ fst (Alerts64.check_budget_alert Alerts64.sum_left (mkdate 2025 3 20) 7
            (db_spent64 1000 1000))
     = Py.Returned
         (Some (Alerts64.BudgetExceeded (F64.nearest 1000) (F64.nearest 1000)
                  (F64.nearest 100)))
  /\ fst (Alerts64.check_budget_alert Alerts64.sum_left (mkdate 2025 3 20) 7
            (db_spent64 0 1000)) = Py.Returned None.
Proof.
  split; [|split; [|split]].
  - destruct (budget_alert_thresholds Alerts64.sum_left (mkdate 2025 3 20) 7
                (db_spent64 1000 799)) as [_ [_ H]].
    destruct (H (F64.nearest 1000) _ eq_refl ltac:(vm_compute; reflexivity)
                eq_refl) as [_ [_ Hnone]].
    cbv zeta in Hnone. rewrite Hnone; [reflexivity | |]; vm_compute; reflexivity.
  - destruct (budget_alert_thresholds Alerts64.sum_left (mkdate 2025 3 20) 7
                (db_spent64 1000 800)) as [_ [_ H]].
    destruct (H (F64.nearest 1000) _ eq_refl ltac:(vm_compute; reflexivity)
                eq_refl) as [_ [Hwarn _]].
    cbv zeta in Hwarn. rewrite Hwarn; [| vm_compute; reflexivity ..].
    vm_compute. reflexivity.
  - destruct (budget_alert_thresholds Alerts64.sum_left (mkdate 2025 3 20) 7
                (db_spent64 1000 1000)) as [_ [_ H]].
    destruct (H (F64.nearest 1000) _ eq_refl ltac:(vm_compute; reflexivity)
                eq_refl) as [Hexc _].
    cbv zeta in Hexc. rewrite Hexc; [| vm_compute; reflexivity].
    vm_compute. reflexivity.
  - destruct (budget_alert_thresholds Alerts64.sum_left (mkdate 2025 3 20) 7
                (db_spent64 0 1000)) as [_ [H _]].
    cbv zeta in H. rewrite (H (F64.nearest 0) eq_refl); [reflexivity|].
    vm_compute. reflexivity.
Defined.

(** C6 as stated fails: a cost of 8.04 is exactly 80 percent of a budget of
    10.05, the percentage computed from the two doubles is below 80, and no
    alert is returned. *)
Lemma budget_alert_misses_exact_80_percent :
  (8.04 / 10.05 * 100 == 80)%Q
  /\ Alerts64.check_budget_alert Alerts64.sum_left (mkdate 2025 3 20) 7
       (db_spent64 10.05 8.04)
     = (Py.Returned None, db_spent64 10.05 8.04)
  /\ PrimFloat.ltb
       (PrimFloat.mul (PrimFloat.div (F64.nearest 8.04) (F64.nearest 10.05))
          (F64.nearest 100))
       (F64.nearest 80) = true.
Proof. split; [reflexivity|]. split; vm_compute; reflexivity. Qed.

(** * Further properties of the code *)

(** ** Fetching: cache hits, failures, tax *)

Lemma cached_after_write (date : Z) (region : string) (m : gmap Z Q)
    (cache : gmap (Z * string * Z) Q) :
  m <> ∅ ->
  get_cached_prices date region cache = None ->
  get_cached_prices date region
    (cache_prices date region (map_to_list m) cache) = Some m.
Proof.
  intros Hne Hmiss. apply get_cached_prices_intro; [exact Hne|].
  intros hour. rewrite lookup_cache_prices_key, written_map_to_list.
  destruct (m !! hour); [reflexivity|].
  exact (proj1 (get_cached_prices_None _ _ _) Hmiss hour).
Qed.

(** A miss reaches upstream; what it returns. *)
Lemma fetch_cases (api : Z -> string -> response) (dt : Z) (region : string)
    (w : world) :
  region_in region VALID_REGIONS = true ->
  (exists hit,
     get_cached_prices (DT.strftime_date dt) region (price_cache w) = Some hit
     /\ hit <> ∅
     /\ fetch_daily_prices api dt region w = (Some hit, w))
  \/ (get_cached_prices (DT.strftime_date dt) region (price_cache w) = None
      /\ fetch_daily_prices api dt region w
         = fetch_from_api api (DT.strftime_date dt) region w).
Proof.
  intros Hr. unfold fetch_daily_prices. rewrite Hr; simpl.
  destruct (get_cached_prices (DT.strftime_date dt) region (price_cache w))
    as [hit|] eqn:Hget.
  - left. exists hit.
    pose proof (get_cached_prices_Some _ _ _ _ Hget) as [_ Hne].
    now rewrite (dict_truthy_true _ Hne).
  - now right.
Qed.

(** X2: once a request for a day has returned a curve that is not empty, every
    later request for the same day and region returns that curve and changes
    nothing: no fetch is made and the cache is not written. *)
Theorem fetch_then_hit (api : Z -> string -> response) (dt dt' : Z)
    (region : string) (w w' : world) (m : gmap Z Q) :
  fetch_daily_prices api dt region w = (Some m, w') ->
  m <> ∅ ->
  DT.strftime_date dt' = DT.strftime_date dt ->
  fetch_daily_prices api dt' region w' = (Some m, w').
Proof.
  intros Hfetch Hne Hday.
  destruct (region_in region VALID_REGIONS) eqn:Hr.
  2:{ rewrite (fetch_invalid_region api dt region w Hr) in Hfetch.
      discriminate. }
  assert (Hcached :
    get_cached_prices (DT.strftime_date dt) region (price_cache w') = Some m).
  { destruct (fetch_cases api dt region w Hr)
      as [[hit [Hget [_ Hhit]]]|[Hmiss Hmissed]].
    - rewrite Hhit in Hfetch. inversion Hfetch; subst. exact Hget.
    - rewrite Hmissed in Hfetch. unfold fetch_from_api in Hfetch.
      destruct (api (DT.strftime_date dt) region) as [|status data];
        [discriminate|].
      destruct (negb (status =? 200)); [discriminate|].
      inversion Hfetch; subst. simpl.
      now apply cached_after_write. }
  destruct (fetch_cases api dt' region w' Hr)
    as [[hit [Hget [_ Hhit]]]|[Hmiss _]];
    rewrite Hday in *; congruence.
Qed.

Lemma fetch_then_hit_witness :
  fetch_daily_prices api_flat (clock 0 23 0) "NO1"
    (snd (fetch_daily_prices api_flat (clock 0 10 0) "NO1" empty_world))
  = (Some (parse_prices 1.25 (flat_day 0.968)),
     snd (fetch_daily_prices api_flat (clock 0 10 0) "NO1" empty_world)).
Proof.
  apply (fetch_then_hit api_flat (clock 0 10 0) (clock 0 23 0) "NO1"
           empty_world).
  - vm_compute. reflexivity.
  - intros H. apply (f_equal (fun m => m !! 0)) in H. vm_compute in H.
    discriminate.
  - vm_compute. reflexivity.
Defined.

(** X3: a failed fetch for a valid region (upstream unreachable, or a status
    other than 200) returns no curve, leaves the cache as it was and is not
    remembered: the next request for the same day asks upstream again. *)
Theorem failed_fetch_is_retried (api : Z -> string -> response) (dt : Z)
    (region : string) (w w' : world) :
  region_in region VALID_REGIONS = true ->
  fetch_daily_prices api dt region w = (None, w') ->
  price_cache w' = price_cache w
  /\ requests w' = (DT.strftime_date dt, region) :: requests w
  /\ fetch_daily_prices api dt region w'
     = (None,
        mkworld (price_cache w)
          ((DT.strftime_date dt, region)
           :: (DT.strftime_date dt, region) :: requests w)).
Proof.
  intros Hr Hfetch.
  destruct (fetch_cases api dt region w Hr)
    as [[hit [_ [_ Hhit]]]|[Hmiss Hmissed]];
    [rewrite Hhit in Hfetch; discriminate|].
  rewrite Hmissed in Hfetch. unfold fetch_from_api in Hfetch.
  assert (Hw' : w' = mkworld (price_cache w)
                       ((DT.strftime_date dt, region) :: requests w)).
  { destruct (api (DT.strftime_date dt) region) as [|status data];
      [now inversion Hfetch|].
    destruct (negb (status =? 200)); [now inversion Hfetch | discriminate]. }
  subst w'. simpl. repeat split.
  destruct (fetch_cases api dt region
              (mkworld (price_cache w)
                 ((DT.strftime_date dt, region) :: requests w)) Hr)
    as [[hit [Hget _]]|[_ ->]]; [simpl in Hget; congruence|].
  unfold fetch_from_api in *. simpl.
  destruct (api (DT.strftime_date dt) region) as [|status data];
    [reflexivity|].
  destruct (negb (status =? 200)); [reflexivity | discriminate].
Qed.

Lemma failed_fetch_is_retried_witness :
  let w' := snd (fetch_daily_prices api_down (clock 0 10 0) "NO1" empty_world) in
  price_cache w' = price_cache empty_world
  /\ requests w' = (0, "NO1"%string) :: requests empty_world
  /\ fetch_daily_prices api_down (clock 0 10 0) "NO1" w'
     = (None, mkworld ∅ [(0, "NO1"%string); (0, "NO1"%string)]).
Proof.
  apply (failed_fetch_is_retried api_down (clock 0 10 0) "NO1" empty_world).
  - reflexivity.
  - vm_compute. reflexivity.
Defined.

Lemma parse_prices_lookup64 (mva : float) (data : list PriceApi64.element)
    (acc m : gmap Z float) (hour : Z) :
  PriceApi64.parse_prices mva data acc = Exn.Return m ->
  (forall e, ~ In (PriceApi64.Malformed e) data)
  /\ m !! hour
     = match last_price hour data with
       | Some raw => Some (F64.round (PrimFloat.mul raw mva) 5)
       | None => acc !! hour
       end.
Proof.
  revert acc. induction data as [|[h p|e] data IH]; intros acc; simpl.
  - intros [= <-]. split; [tauto | reflexivity].
  - intros H. apply IH in H. destruct H as [Hno Hm]. split.
    + intros e [He|He]; [discriminate | exact (Hno e He)].
    + rewrite Hm. destruct (last_price hour data); [reflexivity|].
      destruct (Z.eqb_spec h hour) as [->|Hne].
      * apply lookup_insert_eq.
      * apply lookup_insert_ne. exact Hne.
  - discriminate.
Qed.

(** X4: on a cache miss the curve returned is the body of a 200 reply, which
    then holds no malformed record, with the tax applied in doubles: each hour
    has the raw price of the last record for that hour, times 1.25 (times 1.0
    in NO4), rounded to 5 digits as [round] rounds a double. *)
Theorem fetched_prices_are_taxed (api : Z -> string -> PriceApi64.response)
    (dt : Z) (region : string) (w w' : PriceApi64.world) (m : gmap Z float) :
  PriceApi64.get_cached_prices (DT.strftime_date dt) region
    (PriceApi64.price_cache w) = None ->
  PriceApi64.fetch_daily_prices api dt region w = (Exn.Return (Some m), w') ->
  exists data,
    api (DT.strftime_date dt) region = PriceApi64.Replies 200 data
    /\ (forall e, ~ In (PriceApi64.Malformed e) data)
    /\ forall hour,
         m !! hour
         = option_map
             (fun raw =>
                F64.round
                  (PrimFloat.mul raw
                     (if String.eqb region "NO4" then F64.nearest 1.0
                      else F64.nearest 1.25)) 5)
             (last_price hour data).
Proof.
  intros Hmiss. unfold PriceApi64.fetch_daily_prices.
  destruct (negb (region_in region VALID_REGIONS)); [discriminate|].
  rewrite Hmiss. unfold PriceApi64.fetch_from_api.
  destruct (api (DT.strftime_date dt) region) as [|status data];
    [discriminate|].
  destruct (Z.eqb_spec status 200) as [->|Hne]; cbn [negb]; [|discriminate].
  assert (Hmul : (if region_in region MVA_EXEMPT_REGIONS then F64.nearest 1.0
                  else PrimFloat.add (F64.nearest 1) PriceApi64.MVA_RATE)
                 = (if String.eqb region "NO4" then F64.nearest 1.0
                    else F64.nearest 1.25)).
  { unfold region_in, MVA_EXEMPT_REGIONS. cbn [existsb].
    rewrite orb_false_r. destruct (String.eqb region "NO4"); [reflexivity|].
    vm_compute. reflexivity. }
  rewrite Hmul.
  destruct (PriceApi64.parse_prices _ data ∅) as [prices|e] eqn:Hp;
    [|discriminate].
  intros [= <- _]. exists data. split; [reflexivity|].
  split; [exact (proj1 (parse_prices_lookup64 _ _ _ _ 0 Hp))|].
  intros hour. rewrite (proj2 (parse_prices_lookup64 _ _ _ _ hour Hp)).
  destruct (last_price hour data); [reflexivity | apply lookup_empty].
Qed.

Lemma fetched_prices_are_taxed_witness :
  exists data,
    api_second_day (DT.strftime_date (clock 1 10 0)) "NO2"
    = PriceApi64.Replies 200 data
    /\ (forall e, ~ In (PriceApi64.Malformed e) data)
    /\ forall hour,
         ((fun prices => default ∅ prices)
            (match fst (PriceApi64.fetch_daily_prices api_second_day
                          (clock 1 10 0) "NO2" empty_world64) with
             | Exn.Return prices => prices
             | Exn.Raise _ => None
             end)) !! hour
         = option_map
             (fun raw =>
                F64.round
                  (PrimFloat.mul raw
                     (if String.eqb "NO2" "NO4" then F64.nearest 1.0
                      else F64.nearest 1.25)) 5)
             (last_price hour data).
Proof.
  apply (fetched_prices_are_taxed api_second_day (clock 1 10 0) "NO2"
           empty_world64
           (snd (PriceApi64.fetch_daily_prices api_second_day (clock 1 10 0)
                   "NO2" empty_world64))).
  - vm_compute. reflexivity.
  - vm_compute. reflexivity.
Defined.

(** The price stored for a raw price of 0.4001 outside NO4. *)
Example taxed_price_of_0_4001 :
  F64.round (PrimFloat.mul (F64.nearest 0.4001) (F64.nearest 1.25)) 5
  = F64.nearest 0.50013.
Proof. vm_compute. reflexivity. Qed.

(** X5: while the cache holds only curves that upstream serves, the prices of
    a period are the upstream prices of its hours, in order, unpriced hours
    left out; the current price is the upstream price of the current hour; and
    both calls keep the cache that way. *)
Theorem prices_are_upstream (api : Z -> string -> response)
    (now start_time end_time : Z) (region : string) (w : world) :
  coherent api (price_cache w) ->
  fst (get_prices_for_period api start_time end_time region w)
  = priced api region (hour_starts start_time end_time)
  /\ coherent api
       (price_cache (snd (get_prices_for_period api start_time end_time
                            region w)))
  /\ fst (get_current_price api now region w) = resolved_price api region now
  /\ coherent api (price_cache (snd (get_current_price api now region w))).
Proof.
  intros Hco. unfold get_prices_for_period.
  destruct (period_loop_coherent api region
              (turns (DT.replace_to_hour start_time) end_time)
              (DT.replace_to_hour start_time) end_time w Hco)
    as [w1 [-> Hco1]].
  destruct (get_current_price_coherent api now region w Hco)
    as [w2 [-> Hco2]].
  simpl. auto.
Qed.

Lemma prices_are_upstream_witness :
  fst (get_prices_for_period api_flat (clock 0 10 30) (clock 0 12 0) "NO1"
         empty_world)
  = priced api_flat "NO1" (hour_starts (clock 0 10 30) (clock 0 12 0))
  /\ fst (get_current_price api_flat (clock 0 12 0) "NO1" empty_world)
     = resolved_price api_flat "NO1" (clock 0 12 0).
Proof.
  destruct (prices_are_upstream api_flat (clock 0 12 0) (clock 0 10 30)
              (clock 0 12 0) "NO1" empty_world (coherent_empty api_flat))
    as (H1 & _ & H2 & _).
  split; [exact H1 | exact H2].
Defined.

Lemma upstream_curve_Some (api : Z -> string -> response) (d : Z)
    (region : string) (m : gmap Z Q) :
  upstream_curve api d region = Some m ->
  exists data,
    api d region = Replies 200 data
    /\ m = parse_prices
             (if region_in region MVA_EXEMPT_REGIONS then 1.0%Q
              else (1 + MVA_RATE)%Q) data.
Proof.
  unfold upstream_curve.
  destruct (api d region) as [|status data]; [discriminate|].
  destruct (Z.eqb_spec status 200) as [->|Hne]; simpl; [|discriminate].
  intros [= <-]. now exists data.
Qed.

Lemma fetch_asked_once (api : Z -> string -> response) (dt : Z)
    (region : string) (w : world) :
  serves api region ->
  asked_once w ->
  asked_once (snd (fetch_daily_prices api dt region w)).
Proof.
  intros Hserves [Hnodup Hcached].
  destruct (region_in region VALID_REGIONS) eqn:Hr.
  2:{ rewrite (fetch_invalid_region api dt region w Hr). now split. }
  destruct (fetch_cases api dt region w Hr)
    as [[hit [_ [_ ->]]]|[Hmiss ->]]; [now split|].
  destruct (Hserves (DT.strftime_date dt)) as [m [Hup Hne]].
  apply upstream_curve_Some in Hup as [data [Hapi Hm]].
  unfold fetch_from_api. rewrite Hapi.
  change (negb (200 =? 200)) with false. cbv iota beta zeta.
  rewrite <- Hm. split; simpl.
  - constructor; [|exact Hnodup].
    intros Hin. now apply (Hcached _ _ Hin).
  - intros d r [Heq|Hin].
    + inversion Heq; subst d r.
      now rewrite cached_after_write.
    + destruct (decide ((d, r) = (DT.strftime_date dt, region))) as [Heq|Hneq].
      * inversion Heq; subst d r. now rewrite cached_after_write.
      * rewrite (get_cached_prices_ext d r _ (price_cache w))
          by (intros h; now apply lookup_cache_prices_other).
        now apply Hcached.
Qed.

Lemma period_loop_asked_once (api : Z -> string -> response)
    (region : string) (fuel : nat) :
  serves api region ->
  forall current end_ w,
    asked_once w ->
    asked_once (snd (period_loop api fuel current end_ region w)).
Proof.
  intros Hserves.
  induction fuel as [|fuel IH]; intros current end_ w Hw; simpl; [exact Hw|].
  destruct (current <? end_); [|exact Hw].
  unfold get_price_for_hour, bind, ret.
  pose proof (fetch_asked_once api current region w Hserves Hw) as H1.
  destruct (fetch_daily_prices api current region w) as [prices w1].
  simpl in *. specialize (IH (current + DT.HOUR) end_ w1 H1).
  destruct (period_loop api fuel (current + DT.HOUR) end_ region w1)
    as [rest w2].
  exact IH.
Qed.

(** X6: where upstream serves every day of the region with a curve that is not
    empty, a cost calculation never requests a (date, region) that has been
    requested before: the request log stays free of duplicates and every
    request in it has left a cached curve. *)
Theorem never_asks_twice (api : Z -> string -> response)
    (now start_time end_time watt : Z) (fixed_cost_per_kwh : Q)
    (region : string) (w : world) :
  serves api region ->
  asked_once w ->
  asked_once
    (snd (calculate_session_cost api now start_time end_time watt
            fixed_cost_per_kwh region w)).
Proof.
  intros Hserves Hw. unfold calculate_session_cost.
  destruct (Qle_bool (Py.total_seconds (end_time - start_time) / 3600) 0);
    [exact Hw|].
  unfold bind at 1. unfold get_prices_for_period.
  pose proof (period_loop_asked_once api region
                (turns (DT.replace_to_hour start_time) end_time) Hserves
                (DT.replace_to_hour start_time) end_time w Hw) as H1.
  destruct (period_loop api _ _ end_time region w) as [hps w1].
  simpl in H1. destruct hps as [|hp hps]; [|exact H1].
  unfold get_current_price, bind, ret.
  pose proof (fetch_asked_once api now region w1 Hserves H1) as H2.
  destruct (fetch_daily_prices api now region w1) as [prices w2].
  exact H2.
Qed.

Lemma serves_api_flat : serves api_flat "NO1".
Proof.
  intros d. eexists. split; [reflexivity|].
  intros H. apply (f_equal (fun m => m !! 0)) in H. vm_compute in H.
  discriminate.
Qed.

Lemma never_asks_twice_witness :
  asked_once
    (snd (calculate_session_cost api_flat (clock 1 2 0) (clock 0 22 30)
            (clock 1 2 0) 1125 1.0 "NO1" empty_world)).
Proof.
  apply (never_asks_twice api_flat (clock 1 2 0) (clock 0 22 30) (clock 1 2 0)
           1125 1.0 "NO1" empty_world serves_api_flat).
  split; [constructor|]. intros d r [].
Defined.

(** ** The hours of a period *)

Lemma hour_starts_loop_seq (fuel : nat) :
  forall current end_,
    fuel = turns current end_ ->
    hour_starts_loop fuel current end_
    = map (fun k => current + Z.of_nat k * DT.HOUR) (seq 0 fuel).
Proof.
  induction fuel as [|fuel IH]; intros current end_ Hfuel; [reflexivity|].
  destruct (Z.ltb_spec current end_) as [Hlt|Hge].
  2:{ rewrite (turns_done _ _ Hge) in Hfuel. discriminate. }
  rewrite (turns_step _ _ Hlt) in Hfuel. injection Hfuel as Hfuel.
  cbn [hour_starts_loop seq map].
  replace (current <? end_) with true by (symmetry; now apply Z.ltb_lt).
  f_equal; [simpl; lia|].
  rewrite (IH (current + DT.HOUR) end_ Hfuel), <- seq_shift, map_map.
  apply map_ext. intros k. lia.
Qed.

Lemma period_loop_sublist (api : Z -> string -> response) (region : string)
    (fuel : nat) :
  forall current end_ w,
    map fst (fst (period_loop api fuel current end_ region w))
    `sublist_of` hour_starts_loop fuel current end_.
Proof.
  induction fuel as [|fuel IH]; intros current end_ w; simpl;
    [constructor|].
  destruct (current <? end_); simpl; [|constructor].
  unfold bind.
  destruct (get_price_for_hour api current region w) as [price w1].
  specialize (IH (current + DT.HOUR) end_ w1).
  destruct (period_loop api fuel (current + DT.HOUR) end_ region w1)
    as [rest w2].
  simpl in *. destruct price as [p|]; simpl.
  - now apply sublist_skip.
  - now apply sublist_cons.
Qed.

Lemma listed_hours_visited (api : Z -> string -> response)
    (start_time end_time : Z) (region : string) (w : world) (h : Z) :
  In h (map fst (fst (get_prices_for_period api start_time end_time
                        region w))) ->
  In h (hour_starts start_time end_time).
Proof.
  intros Hin. apply list_elem_of_In. apply list_elem_of_In in Hin.
  eapply elem_of_sublist; [exact Hin|].
  apply period_loop_sublist.
Qed.

(** X7: the loop of get_prices_for_period visits the hour starts from the one
    at or before the start, one hour apart, that lie before the end; the hours
    listed are among them in that order, and each listed hour overlaps the
    interval. *)
Theorem listed_hours_grid (api : Z -> string -> response)
    (start_time end_time : Z) (region : string) (w : world) :
  let first := DT.replace_to_hour start_time in
  hour_starts start_time end_time
  = map (fun k => first + Z.of_nat k * DT.HOUR)
      (seq 0 (turns first end_time))
  /\ map fst (fst (get_prices_for_period api start_time end_time region w))
     `sublist_of` hour_starts start_time end_time
  /\ (first <= start_time < first + DT.HOUR)
  /\ forall h p,
       In (h, p) (fst (get_prices_for_period api start_time end_time
                         region w)) ->
       h < end_time /\ start_time < h + DT.HOUR.
Proof.
  intros first. split; [|split; [|split]].
  - unfold hour_starts. now apply hour_starts_loop_seq.
  - apply period_loop_sublist.
  - apply replace_to_hour_bounds.
  - intros h p Hin.
    assert (Hh : In h (hour_starts start_time end_time)).
    { apply (listed_hours_visited api start_time end_time region w).
      apply in_map_iff. now exists (h, p). }
    apply hour_starts_loop_range in Hh.
    pose proof (replace_to_hour_bounds start_time). lia.
Qed.

(** ** The result of a cost calculation *)

Lemma round_half_even_close (x : Q) :
  (inject_Z (Py.round_half_even x) - x <= 1 # 2)%Q
  /\ (x - inject_Z (Py.round_half_even x) <= 1 # 2)%Q.
Proof.
  unfold Py.round_half_even.
  pose proof (Qfloor_le x) as Hlo. pose proof (Qlt_floor x) as Hhi.
  rewrite inject_Z_plus in Hhi. change (inject_Z 1) with 1%Q in Hhi.
  destruct (Qcompare_spec (x - inject_Z (Qfloor x)) (1 # 2)) as [He|Hl|Hg].
  - destruct (Z.even (Qfloor x)); rewrite ?inject_Z_plus;
      change (inject_Z 1) with 1%Q; split; lra.
  - split; lra.
  - rewrite inject_Z_plus. change (inject_Z 1) with 1%Q. split; lra.
Qed.

(** The sum of two amounts rounded to cents is within a cent of the rounded
    sum. *)
Lemma round_sum_cent (x y : Q) :
  (Py.round x 2 + Py.round y 2 - 0.01 <= Py.round (x + y) 2)%Q
  /\ (Py.round (x + y) 2 <= Py.round x 2 + Py.round y 2 + 0.01)%Q.
Proof.
  unfold Py.round. change (10 ^ Z.of_nat 2) with 100.
  set (a := Py.round_half_even (x * inject_Z 100)).
  set (b := Py.round_half_even (y * inject_Z 100)).
  set (c := Py.round_half_even ((x + y) * inject_Z 100)).
  pose proof (round_half_even_close (x * inject_Z 100)) as [Ha1 Ha2].
  pose proof (round_half_even_close (y * inject_Z 100)) as [Hb1 Hb2].
  pose proof (round_half_even_close ((x + y) * inject_Z 100)) as [Hc1 Hc2].
  fold a in Ha1, Ha2. fold b in Hb1, Hb2. fold c in Hc1, Hc2.
  assert (Hsum : ((x + y) * inject_Z 100
                  == x * inject_Z 100 + y * inject_Z 100)%Q) by ring.
  rewrite Hsum in Hc1, Hc2.
  assert (Hup : c - a - b <= 1).
  { assert (H : (inject_Z (c - a - b) < inject_Z 2)%Q).
    { unfold Z.sub. rewrite !inject_Z_plus, !inject_Z_opp.
      change (inject_Z 2) with 2%Q. lra. }
    rewrite <- Zlt_Qlt in H. lia. }
  assert (Hdown : -1 <= c - a - b).
  { assert (H : (inject_Z (-2) < inject_Z (c - a - b))%Q).
    { unfold Z.sub. rewrite !inject_Z_plus, !inject_Z_opp.
      change (inject_Z (-2)) with (-2)%Q. lra. }
    rewrite <- Zlt_Qlt in H. lia. }
  assert (Hq1 : (inject_Z c <= inject_Z a + inject_Z b + 1)%Q).
  { change 1%Q with (inject_Z 1). rewrite <- !inject_Z_plus, <- Zle_Qle. lia. }
  assert (Hq2 : (inject_Z a + inject_Z b - 1 <= inject_Z c)%Q).
  { assert (H : (inject_Z a + inject_Z b <= inject_Z c + 1)%Q).
    { change 1%Q with (inject_Z 1). rewrite <- !inject_Z_plus, <- Zle_Qle.
      lia. }
    lra. }
  unfold Qdiv. change (/ inject_Z 100)%Q with (1 # 100)%Q.
  split; lra.
Qed.

(** Shape of the money fields of every result. *)
Lemma cost_money_shape (api : Z -> string -> response)
    (now start_time end_time watt : Z) (fixed_cost_per_kwh : Q)
    (region : string) (w : world) :
  let r :=
    fst (calculate_session_cost api now start_time end_time watt
           fixed_cost_per_kwh region w) in
  (spot_cost r = 0%Q /\ fixed_cost r = 0%Q /\ total_cost r = 0%Q)
  \/ exists x y,
       spot_cost r = Py.round x 2 /\ fixed_cost r = Py.round y 2
       /\ total_cost r = Py.round (x + y) 2.
Proof.
  intros r. subst r.
  remember (calculate_session_cost api now start_time end_time watt
              fixed_cost_per_kwh region w) as run eqn:Hrun.
  unfold calculate_session_cost in Hrun.
  destruct (Qle_bool (Py.total_seconds (end_time - start_time) / 3600) 0).
  - subst run. left. repeat split.
  - unfold bind at 1 in Hrun.
    destruct (get_prices_for_period api start_time end_time region w)
      as [hps w1].
    destruct hps as [|hp hps].
    + unfold bind, ret in Hrun.
      destruct (get_current_price api now region w1) as [price w2].
      subst run. right. eexists _, _. repeat split.
    + unfold ret in Hrun. subst run. right. eexists _, _. repeat split.
Qed.

(** X8: in every result of calculate_session_cost the total cost is within one
    cent of the sum of the spot cost and the fixed cost shown beside it: the
    three are rounded to cents one by one. *)
Theorem total_within_a_cent (api : Z -> string -> response)
    (now start_time end_time watt : Z) (fixed_cost_per_kwh : Q)
    (region : string) (w : world) :
  let r :=
    fst (calculate_session_cost api now start_time end_time watt
           fixed_cost_per_kwh region w) in
  (spot_cost r + fixed_cost r - 0.01 <= total_cost r)%Q
  /\ (total_cost r <= spot_cost r + fixed_cost r + 0.01)%Q.
Proof.
  intros r.
  destruct (cost_money_shape api now start_time end_time watt
              fixed_cost_per_kwh region w)
    as [[Hs [Hf Ht]]|[x [y [Hs [Hf Ht]]]]]; fold r in Hs, Hf, Ht;
    rewrite Hs, Hf, Ht.
  - split; lra.
  - apply round_sum_cent.
Qed.



Lemma hour_loop_breakdown64 (start_time end_time watt : Z)
    (hourly_prices : list (Z * float)) (acc : Calculator64.totals) :
  Calculator64.breakdown
    (fold_left (Calculator64.hour_step start_time end_time watt)
       hourly_prices acc)
  = Calculator64.breakdown acc
    ++ map (breakdown_row64 start_time end_time watt)
         (List.filter (hour_used start_time end_time) hourly_prices).
Proof.
  revert acc. induction hourly_prices as [|[h p] l IH]; intros acc;
    cbn [fold_left List.filter map].
  - rewrite app_nil_r. reflexivity.
  - rewrite IH. unfold Calculator64.hour_step, hour_used.
    cbn [fst snd].
    destruct (PrimFloat.leb _ _); cbn [negb]; [reflexivity|].
    cbn [Calculator64.breakdown map]. rewrite <- app_assoc. reflexivity.
Qed.

(** X9: where the duration computes positive and the price list is not empty,
    the calculation returns with the state the price list left, shows the
    duration rounded to 2 digits as [round] rounds a double, and has one
    breakdown row, in order, for each listed hour whose fraction computes
    positive: its hour of day and its fraction, price, energy and cost rounded
    from the doubles of that hour alone. *)
Theorem breakdown_rows (api : Z -> string -> PriceApi64.response)
    (now start_time end_time watt : Z) (fixed_cost_per_kwh : float)
    (region : string) (w w1 : PriceApi64.world)
    (hourly_prices : list (Z * float)) :
  PrimFloat.leb (Calculator64.hours_between start_time end_time)
    PrimFloat.zero = false ->
  PriceApi64.get_prices_for_period api start_time end_time region w
  = (Exn.Return hourly_prices, w1) ->
  hourly_prices <> [] ->
  exists r,
    Calculator64.calculate_session_cost api now start_time end_time watt
      fixed_cost_per_kwh region w = (Exn.Return r, w1)
    /\ Calculator64.hours r
       = F64.round (Calculator64.hours_between start_time end_time) 2
    /\ Calculator64.hourly_breakdown r
       = map (breakdown_row64 start_time end_time watt)
           (List.filter (hour_used start_time end_time) hourly_prices).
Proof.
  intros Hpos Hlist Hne. unfold Calculator64.calculate_session_cost.
  rewrite Hpos. unfold PriceApi64.bind. rewrite Hlist.
  destruct hourly_prices as [|hp l]; [congruence|].
  unfold PriceApi64.ret. eexists. split; [reflexivity|].
  split; [reflexivity|]. cbn [Calculator64.hourly_breakdown].
  unfold Calculator64.hour_loop. rewrite hour_loop_breakdown64. reflexivity.
Qed.

Lemma breakdown_rows_witness :
  exists r,
    Calculator64.calculate_session_cost api_second_day (clock 1 10 12)
      (clock 1 9 59) (clock 1 10 12) 1125 (F64.nearest 1.0) "NO1"
      empty_world64
    = (Exn.Return r,
       snd (PriceApi64.get_prices_for_period api_second_day (clock 1 9 59)
              (clock 1 10 12) "NO1" empty_world64))
    /\ Calculator64.hours r
       = F64.round (Calculator64.hours_between (clock 1 9 59) (clock 1 10 12)) 2
    /\ Calculator64.hourly_breakdown r
       = map (breakdown_row64 (clock 1 9 59) (clock 1 10 12) 1125)
           (List.filter (hour_used (clock 1 9 59) (clock 1 10 12))
              [(clock 1 9 0, F64.nearest 1.21);
               (clock 1 10 0, F64.nearest 1.21)]).
Proof.
  apply (breakdown_rows api_second_day (clock 1 10 12) (clock 1 9 59)
           (clock 1 10 12) 1125 (F64.nearest 1.0) "NO1" empty_world64).
  - vm_compute. reflexivity.
  - vm_compute. reflexivity.
  - discriminate.
Defined.

(** A session of 774 seconds is shown as 0.21 hours: the double of
    774 / 3600 lies below 0.215. *)
Example hours_of_774_seconds :
  Calculator64.hours
    (Calculator64.fallback_result 0 774000000 1000 (F64.nearest 1.0)
       (F64.nearest 1.5))
  = F64.nearest 0.21.
Proof. vm_compute. reflexivity. Qed.









(** ** Billing periods, budget alert and monthly summary *)

Lemma date_leb_iff (a b : date) :
  date_leb a b = true
  <-> year a < year b
      \/ (year a = year b
          /\ (month a < month b \/ (month a = month b /\ day a <= day b))).
Proof.
  unfold date_leb.
  rewrite !orb_true_iff, !andb_true_iff, !orb_true_iff, !andb_true_iff.
  rewrite !Z.ltb_lt, !Z.eqb_eq, Z.leb_le. tauto.
Qed.

Lemma date_leb_false (a b : date) :
  date_leb a b = false
  <-> ~ (year a < year b
         \/ (year a = year b
             /\ (month a < month b
                 \/ (month a = month b /\ day a <= day b)))).
Proof.
  rewrite <- date_leb_iff. destruct (date_leb a b); split; congruence.
Qed.

Lemma new_date_Returned (y m d : Z) (x : date) :
  new_date y m d = Py.Returned x ->
  x = mkdate y m d /\ 1 <= y <= 9999 /\ 1 <= m <= 12
  /\ 1 <= d <= days_in_month y m.
Proof.
  unfold new_date.
  destruct ((1 <=? y) && (y <=? 9999) && (1 <=? m) && (m <=? 12)
            && (1 <=? d) && (d <=? days_in_month y m)) eqn:Hok;
    [|discriminate].
  intros [= <-]. rewrite !andb_true_iff, !Z.leb_le in Hok. intuition lia.
Qed.

Lemma new_date_Raised (y m d : Z) :
  new_date y m d = Py.Raised Py.ValueError
  <-> ~ (1 <= y <= 9999 /\ 1 <= m <= 12 /\ 1 <= d <= days_in_month y m).
Proof.
  split.
  - intros Hr Hok. rewrite new_date_ok in Hr by tauto. discriminate.
  - intros Hbad. destruct (new_date y m d) as [x|[]] eqn:Hd; [|reflexivity].
    apply new_date_Returned in Hd. exfalso. apply Hbad. tauto.
Qed.

(** X11: for a year in 1..9999 and a month in 1..12 the period bounds raise
    ValueError exactly when the start day d is not 1 and d is below 1, or the
    preceding month falls before year 1 or has no day d, or the month itself
    has no day d - 1. *)
Theorem period_bounds_raises (year month d : Z) :
  1 <= year <= 9999 ->
  1 <= month <= 12 ->
  period_bounds year month d = Py.Raised Py.ValueError
  <-> d <> 1
      /\ (d < 1
          \/ fst (preceding_month year month) < 1
          \/ days_in_month (fst (preceding_month year month))
               (snd (preceding_month year month)) < d
          \/ days_in_month year month < d - 1).
Proof.
  intros Hy Hm.
  assert (Hprev : fst (preceding_month year month) <= 9999
                  /\ 1 <= snd (preceding_month year month) <= 12).
  { unfold preceding_month. destruct (month =? 1) eqn:H1; simpl; lia. }
  destruct (Z.eq_dec d 1) as [->|Hd1].
  - unfold period_bounds. simpl.
    pose proof (days_in_month_bounds year month).
    rewrite new_date_ok, monthrange_ok, new_date_ok by lia.
    split; [discriminate | intros [Hne _]; congruence].
  - unfold period_bounds.
    replace (d =? 1) with false by (symmetry; now apply Z.eqb_neq).
    set (py := fst (preceding_month year month)) in *.
    set (pm := snd (preceding_month year month)) in *.
    replace (if month =? 1 then (12, year - 1) else (month - 1, year))
      with (pm, py)
      by (unfold pm, py, preceding_month; now destruct (month =? 1)).
    destruct (new_date py pm d) as [sd|[]] eqn:Hs.
    + apply new_date_Returned in Hs as [_ [Hpy [_ Hd]]].
      replace (1 <? d) with true by (symmetry; apply Z.ltb_lt; lia).
      destruct (new_date year month (d - 1)) as [ed|[]] eqn:He.
      * apply new_date_Returned in He as [_ [_ [_ He]]].
        split; [discriminate | intros [_ Hbad]; lia].
      * apply new_date_Raised in He.
        split; [intros _; split; [exact Hd1 | lia] | reflexivity].
    + apply new_date_Raised in Hs.
      split; [intros _; split; [exact Hd1 | lia] | reflexivity].
Qed.

Lemma period_bounds_raises_witness :
  period_bounds 2025 3 31 = Py.Raised Py.ValueError
  <-> 31 <> 1
      /\ (31 < 1
          \/ fst (preceding_month 2025 3) < 1
          \/ days_in_month (fst (preceding_month 2025 3))
               (snd (preceding_month 2025 3)) < 31
          \/ days_in_month 2025 3 < 31 - 1).
Proof. apply (period_bounds_raises 2025 3 31); lia. Defined.

Lemma period_bounds_day1 (year month : Z) :
  1 <= year <= 9999 -> 1 <= month <= 12 ->
  period_bounds year month 1
  = Py.Returned (mkdate year month 1,
                 mkdate year month (days_in_month year month)).
Proof.
  intros Hy Hm. unfold period_bounds. simpl.
  pose proof (days_in_month_bounds year month).
  rewrite new_date_ok, monthrange_ok, new_date_ok by lia. reflexivity.
Qed.

Lemma period_bounds_later_day (year month d : Z) :
  1 <= year <= 9999 -> 1 <= month <= 12 -> 1 < d <= 28 ->
  1 <= fst (preceding_month year month) ->
  period_bounds year month d
  = Py.Returned (mkdate (fst (preceding_month year month))
                   (snd (preceding_month year month)) d,
                 mkdate year month (d - 1)).
Proof.
  intros Hy Hm Hd Hprev. unfold period_bounds, preceding_month in *.
  replace (d =? 1) with false by (symmetry; apply Z.eqb_neq; lia).
  replace (1 <? d) with true by (symmetry; apply Z.ltb_lt; lia).
  pose proof (days_in_month_bounds year month).
  destruct (Z.eqb_spec month 1) as [->|Hne]; simpl in *.
  - pose proof (days_in_month_bounds (year - 1) 12).
    rewrite !new_date_ok by lia. reflexivity.
  - pose proof (days_in_month_bounds year (month - 1)).
    rewrite !new_date_ok by lia. reflexivity.
Qed.

Lemma period_bounds_end (year month d : Z) (win : date * date) :
  1 < d ->
  period_bounds year month d = Py.Returned win ->
  snd win = mkdate year month (d - 1).
Proof.
  intros Hd. unfold period_bounds.
  replace (d =? 1) with false by (symmetry; apply Z.eqb_neq; lia).
  replace (1 <? d) with true by (symmetry; apply Z.ltb_lt; lia).
  destruct (if month =? 1 then (12, year - 1) else (month - 1, year))
    as [pm py].
  destruct (new_date py pm d) as [sd|e]; [|discriminate].
  destruct (new_date year month (d - 1)) as [ed|e] eqn:He; [|discriminate].
  intros [= <-]. apply new_date_Returned in He as [-> _]. reflexivity.
Qed.

(** X12: for a start day in 1..28, a year in 1..9998 and a preceding month not
    before year 1, the periods of a month and of the month after it both
    exist, share no date, and leave no date out between the first day of the
    one and the last day of the other. *)
Theorem consecutive_periods_tile (year month d : Z) (x : date) :
  1 <= year <= 9998 ->
  1 <= month <= 12 ->
  1 <= d <= 28 ->
  1 <= fst (preceding_month year month) ->
  exists this next,
    period_bounds year month d = Py.Returned this
    /\ period_bounds (fst (next_month year month))
         (snd (next_month year month)) d = Py.Returned next
    /\ (in_window x this = true -> in_window x next = false)
    /\ (valid_date x ->
        date_leb (fst this) x = true -> date_leb x (snd next) = true ->
        in_window x this || in_window x next = true).
Proof.
  intros Hy Hm Hd Hprev.
  assert (Hnext : 1 <= fst (next_month year month) <= 9999
                  /\ 1 <= snd (next_month year month) <= 12
                  /\ preceding_month (fst (next_month year month))
                       (snd (next_month year month)) = (year, month)).
  { unfold next_month, preceding_month.
    destruct (Z.eqb_spec month 12) as [->|Hne]; simpl.
    - repeat split; try lia. f_equal; lia.
    - replace (month + 1 =? 1) with false
        by (symmetry; apply Z.eqb_neq; lia).
      repeat split; try lia. f_equal; lia. }
  destruct Hnext as [Hny [Hnm Hpn]].
  destruct x as [xy xm xd]. unfold valid_date, in_window. simpl.
  destruct (Z.eq_dec d 1) as [->|Hd1].
  - rewrite (period_bounds_day1 year month) by lia.
    rewrite (period_bounds_day1 _ _ Hny Hnm).
    eexists _, _. split; [reflexivity|]. split; [reflexivity|]. simpl.
    unfold next_month in *.
    destruct (Z.eqb_spec month 12) as [->|Hne]; simpl in *.
    + split.
      * rewrite andb_true_iff, andb_false_iff, !date_leb_iff, !date_leb_false.
        simpl. lia.
      * intros [Hxm Hxd].
        rewrite orb_true_iff, !andb_true_iff, !date_leb_iff. simpl.
        intros H1 H2.
        destruct (Z.eq_dec xy year) as [->|Hxy];
          [destruct (Z.eq_dec xm 12) as [->|Hx12]|]; lia.
    + split.
      * rewrite andb_true_iff, andb_false_iff, !date_leb_iff, !date_leb_false.
        simpl. lia.
      * intros [Hxm Hxd].
        rewrite orb_true_iff, !andb_true_iff, !date_leb_iff. simpl.
        intros H1 H2.
        destruct (Z.eq_dec xy year) as [->|Hxy];
          [destruct (Z.eq_dec xm month) as [->|Hxm']|]; lia.
  - rewrite (period_bounds_later_day year month d) by lia.
    rewrite (period_bounds_later_day _ _ d Hny Hnm) by (rewrite ?Hpn; simpl; lia).
    rewrite Hpn.
    eexists _, _. split; [reflexivity|]. split; [reflexivity|]. simpl.
    split.
    + rewrite andb_true_iff, andb_false_iff, !date_leb_iff, !date_leb_false.
      simpl. lia.
    + intros _.
      rewrite orb_true_iff, !andb_true_iff, !date_leb_iff. simpl. lia.
Qed.

Lemma consecutive_periods_tile_witness :
  exists this next,
    period_bounds 2025 12 5 = Py.Returned this
    /\ period_bounds (fst (next_month 2025 12)) (snd (next_month 2025 12)) 5
       = Py.Returned next
    /\ (in_window (mkdate 2025 12 4) this = true
        -> in_window (mkdate 2025 12 4) next = false)
    /\ (valid_date (mkdate 2025 12 4) ->
        date_leb (fst this) (mkdate 2025 12 4) = true ->
        date_leb (mkdate 2025 12 4) (snd next) = true ->
        in_window (mkdate 2025 12 4) this || in_window (mkdate 2025 12 4) next
        = true).
Proof.
  apply (consecutive_periods_tile 2025 12 5 (mkdate 2025 12 4));
    [lia | lia | lia | vm_compute; discriminate].
Defined.

(** A session that ended on or after the start day of the month asked for
    is not among the sessions of that period. *)
Lemma late_session_filtered (user_id year month d k : Z) (s : session)
    (ss : list session) (us : gmap Z settings) :
  1 < d -> d <= k ->
  s_end_date s = Some (mkdate year month k) ->
  get_monthly_sessions user_id year month d (mkdb (s :: ss) us)
  = get_monthly_sessions user_id year month d (mkdb ss us).
Proof.
  intros Hd Hk Hend. unfold get_monthly_sessions.
  destruct (period_bounds year month d) as [[sd ed]|e] eqn:Hb; [|reflexivity].
  apply period_bounds_end in Hb; [|exact Hd]. simpl in Hb. subst ed.
  simpl. rewrite Hend.
  replace (date_leb (mkdate year month k) (mkdate year month (d - 1)))
    with false
    by (symmetry; apply date_leb_false; simpl; lia).
  now rewrite !andb_false_r.
Qed.

(** X13: with a start day after 1, a session that ended in the current
    calendar month on or after the start day is counted neither by the budget
    alert nor by the monthly summary of that month: the period asked for ends
    on the day before the start day. *)
Theorem late_sessions_not_counted (now : date) (user_id k : Z) (s : session)
    (ss : list session) (us : gmap Z settings) (st : settings) :
  us !! user_id = Some st ->
  1 < period_start_day st ->
  period_start_day st <= k ->
  s_end_date s = Some (mkdate (year now) (month now) k) ->
  fst (check_budget_alert now user_id (mkdb (s :: ss) us))
  = fst (check_budget_alert now user_id (mkdb ss us))
  /\ fst (get_monthly_summary now user_id None None (mkdb (s :: ss) us))
     = fst (get_monthly_summary now user_id None None (mkdb ss us)).
Proof.
  intros Hst Hd Hk Hend.
  unfold check_budget_alert, get_monthly_summary, get_user_settings.
  cbn [user_settings]. rewrite Hst.
  rewrite (late_session_filtered user_id (year now) (month now)
             (period_start_day st) k s ss us Hd Hk Hend).
  split.
  - destruct (budget_nok st) as [b|]; [|reflexivity].
    destruct (Qle_bool b 0); [reflexivity|].
    destruct (get_monthly_sessions _ _ _ _ _) as [l|e]; [|reflexivity].
    destruct (Qle_bool 100 _); [reflexivity|].
    destruct (Qle_bool 80 _); reflexivity.
  - destruct (get_monthly_sessions _ _ _ _ _); reflexivity.
Qed.

Lemma late_sessions_not_counted_witness :
  let us : gmap Z settings := {[7 := mksettings 1.0 (Some 100%Q) 5 "NO1" 0]} in
  let s := mksession 1 7 (Some (mkdate 2025 3 7)) false (Some 1.0%Q) None None
             (Some 95%Q) in
  fst (check_budget_alert (mkdate 2025 3 10) 7 (mkdb [s] us))
  = fst (check_budget_alert (mkdate 2025 3 10) 7 (mkdb [] us))
  /\ fst (get_monthly_summary (mkdate 2025 3 10) 7 None None (mkdb [s] us))
     = fst (get_monthly_summary (mkdate 2025 3 10) 7 None None (mkdb [] us)).
Proof.
  apply (late_sessions_not_counted (mkdate 2025 3 10) 7 7
           (mksession 1 7 (Some (mkdate 2025 3 7)) false (Some 1.0%Q) None
              None (Some 95%Q))
           [] {[7 := mksettings 1.0 (Some 100%Q) 5 "NO1" 0]}
           (mksettings 1.0 (Some 100%Q) 5 "NO1" 0)).
  - vm_compute. reflexivity.
  - simpl. lia.
  - simpl. lia.
  - reflexivity.
Defined.

Lemma no_sessions_of_user (user_id : Z) (ss : list session)
    (keep : session -> bool) :
  (forall s, In s ss -> s_user_id s <> user_id) ->
  List.filter (fun s => (s_user_id s =? user_id) && keep s) ss = [].
Proof.
  induction ss as [|s ss IH]; intros Hnone; [reflexivity|].
  simpl.
  replace (s_user_id s =? user_id) with false
    by (symmetry; apply Z.eqb_neq; apply Hnone; now left).
  simpl. apply IH. intros s' Hin. apply Hnone. now right.
Qed.

(** X14: for a user without sessions, a start day in 1..28 and a month whose
    period exists, the monthly summary counts 0 sessions, shows 0 for energy,
    costs and average price, which is not divided by the zero energy, and
    shows the whole budget as remaining, or no remainder without a budget. *)
Theorem summary_without_sessions (now : date) (user_id year month : Z)
    (db : database) :
  (forall s, In s (sessions db) -> s_user_id s <> user_id) ->
  1 <= year <= 9999 ->
  1 <= month <= 12 ->
  1 <= period_start_day (fst (get_user_settings user_id db)) <= 28 ->
  1 <= fst (preceding_month year month) ->
  exists sm,
    fst (get_monthly_summary now user_id (Some year) (Some month) db)
    = Py.Returned sm
    /\ session_count sm = 0
    /\ (sm_total_kwh sm == 0)%Q /\ (sm_total_cost sm == 0)%Q
    /\ (sm_spot_cost sm == 0)%Q /\ (sm_fixed_cost sm == 0)%Q
    /\ (avg_price_per_kwh sm == 0)%Q
    /\ match budget_nok (fst (get_user_settings user_id db)) with
       | Some b =>
           if Qeq_bool b 0 then remaining sm = None
           else remaining sm = Some (Py.round (b - 0) 2)
       | None => remaining sm = None
       end.
Proof.
  intros Hnone Hy Hm Hd Hprev.
  unfold get_monthly_summary.
  destruct (get_user_settings user_id db) as [st db'] eqn:Hget.
  assert (Hss : sessions db' = sessions db).
  { unfold get_user_settings in Hget.
    destruct (user_settings db !! user_id); inversion Hget; reflexivity. }
  simpl in Hd.
  assert (Hsessions :
    get_monthly_sessions user_id year month (period_start_day st) db'
    = Py.Returned []).
  { unfold get_monthly_sessions.
    destruct (Z.eq_dec (period_start_day st) 1) as [H1|H1].
    - rewrite H1, period_bounds_day1 by lia. f_equal.
      rewrite Hss.
      rewrite <- (no_sessions_of_user user_id (sessions db)
                    (fun s => negb (s_cancelled s)
                              && match s_end_date s with
                                 | Some d0 =>
                                     date_leb (mkdate year month 1) d0
                                     && date_leb d0
                                          (mkdate year month
                                             (days_in_month year month))
                                 | None => false
                                 end) Hnone).
      apply filter_ext. intros s. now rewrite andb_assoc.
    - rewrite period_bounds_later_day by lia. f_equal.
      rewrite Hss.
      rewrite <- (no_sessions_of_user user_id (sessions db)
                    (fun s => negb (s_cancelled s)
                              && match s_end_date s with
                                 | Some d0 =>
                                     date_leb
                                       (mkdate
                                          (fst (preceding_month year month))
                                          (snd (preceding_month year month))
                                          (period_start_day st)) d0
                                     && date_leb d0
                                          (mkdate year month
                                             (period_start_day st - 1))
                                 | None => false
                                 end) Hnone).
      apply filter_ext. intros s. now rewrite andb_assoc. }
  rewrite Hsessions. eexists. split; [reflexivity|]. simpl.
  repeat split; try apply round_0.
  destruct (budget_nok st) as [b|]; [|reflexivity].
  destruct (Qeq_bool b 0); reflexivity.
Qed.

Lemma summary_without_sessions_witness :
  exists sm,
    fst (get_monthly_summary (mkdate 2025 3 10) 8 (Some 2025) (Some 3)
           (db_spent 100 50))
    = Py.Returned sm
    /\ session_count sm = 0
    /\ (sm_total_kwh sm == 0)%Q /\ (sm_total_cost sm == 0)%Q
    /\ (sm_spot_cost sm == 0)%Q /\ (sm_fixed_cost sm == 0)%Q
    /\ (avg_price_per_kwh sm == 0)%Q
    /\ match budget_nok (fst (get_user_settings 8 (db_spent 100 50))) with
       | Some b =>
           if Qeq_bool b 0 then remaining sm = None
           else remaining sm = Some (Py.round (b - 0) 2)
       | None => remaining sm = None
       end.
Proof.
  apply (summary_without_sessions (mkdate 2025 3 10) 8 2025 3
           (db_spent 100 50)).
  - intros s [<-|[]]. discriminate.
  - lia.
  - lia.
  - vm_compute. split; discriminate.
  - vm_compute. discriminate.
Defined.

Lemma percentage_exceeded (t b : Q) :
  (0 < b)%Q -> (100 <= t / b * 100)%Q -> (b - t <= 0)%Q.
Proof.
  intros Hb Hp.
  assert (Ht : (t == b * (t / b))%Q) by (symmetry; apply Qmult_div_r; lra).
  assert (H1 : (1 <= t / b)%Q) by lra.
  assert (H2 : (b * 1 <= b * (t / b))%Q)
    by (apply Qmult_le_l; assumption).
  lra.
Qed.

Lemma percentage_below (t b : Q) :
  (0 < b)%Q -> ~ (100 <= t / b * 100)%Q -> (0 <= b - t)%Q.
Proof.
  intros Hb Hp.
  assert (Ht : (t == b * (t / b))%Q) by (symmetry; apply Qmult_div_r; lra).
  assert (H1 : (t / b <= 1)%Q) by lra.
  assert (H2 : (b * (t / b) <= b * 1)%Q)
    by (apply Qmult_le_l; assumption).
  lra.
Qed.

(** X15: the budget alert and the monthly summary of the same moment agree:
    with the exceeded alert the summary shows that budget and a remainder that
    is not positive, with the warning it shows the remainder of the warning,
    rounded to cents and not negative. *)
Theorem alert_agrees_with_summary (now : date) (user_id : Z) (db : database) :
  (forall total budget percentage,
     fst (check_budget_alert now user_id db)
     = Py.Returned (Some (BudgetExceeded total budget percentage)) ->
     exists sm,
       fst (get_monthly_summary now user_id None None db) = Py.Returned sm
       /\ sm_total_cost sm = Py.round total 2
       /\ sm_budget sm = Some budget
       /\ remaining sm = Some (Py.round (budget - total) 2)
       /\ (Py.round (budget - total) 2 <= 0)%Q)
  /\ (forall percentage left,
        fst (check_budget_alert now user_id db)
        = Py.Returned (Some (BudgetWarning percentage left)) ->
        exists sm,
          fst (get_monthly_summary now user_id None None db) = Py.Returned sm
          /\ remaining sm = Some (Py.round left 2)
          /\ (0 <= Py.round left 2)%Q).
Proof.
  unfold check_budget_alert, get_monthly_summary.
  destruct (get_user_settings user_id db) as [st db'].
  destruct (budget_nok st) as [b|]; [|split; intros; discriminate].
  destruct (Qle_bool b 0) eqn:Hb; [split; intros; discriminate|].
  assert (Hpos : (0 < b)%Q) by now apply Qle_bool_false.
  assert (Hnz : Qeq_bool b 0 = false).
  { destruct (Qeq_bool b 0) eqn:Hz; [|reflexivity].
    apply Qeq_bool_iff in Hz. lra. }
  destruct (get_monthly_sessions user_id (year now) (month now)
              (period_start_day st) db') as [ss|e];
    [|split; intros; discriminate].
  change (sum_column s_total_cost_nok ss) with (sum_costs ss).
  cbn [fst]. rewrite Hnz.
  destruct (Qle_bool 100 (sum_costs ss / b * 100)) eqn:H100.
  - split; [|intros; discriminate].
    intros total budget percentage [= <- <- <-].
    eexists. split; [reflexivity|]. cbn.
    repeat split.
    rewrite <- (round_0 2). apply round_mono.
    apply percentage_exceeded; [exact Hpos|].
    now apply Qle_bool_iff.
  - destruct (Qle_bool 80 (sum_costs ss / b * 100)) eqn:H80;
      [|split; intros; discriminate].
    split; [intros; discriminate|].
    intros percentage left [= <- <-].
    eexists. split; [reflexivity|]. cbn. split; [reflexivity|].
    apply round_nonneg. apply percentage_below; [exact Hpos|].
    intros Hge. apply Qle_bool_iff in Hge. congruence.
Qed.

Lemma alert_agrees_with_summary_witness :
  exists sm,
    fst (get_monthly_summary (mkdate 2025 3 15) 7 None None (db_spent 100 120))
    = Py.Returned sm
    /\ sm_budget sm = Some 100%Q
    /\ remaining sm = Some (Py.round (100 - sum_costs (sessions (db_spent 100 120))) 2)
    /\ (Py.round (100 - sum_costs (sessions (db_spent 100 120))) 2 <= 0)%Q.
Proof.
  destruct (alert_agrees_with_summary (mkdate 2025 3 15) 7 (db_spent 100 120))
    as [H _].
  destruct (H (sum_costs (sessions (db_spent 100 120))) 100%Q
              (sum_costs (sessions (db_spent 100 120)) / 100 * 100)%Q)
    as (sm & E & _ & B & R & L).
  - vm_compute. reflexivity.
  - exists sm. repeat split; assumption.
Defined.

(** ** Display helpers *)

Example test_only_hours :
  Calculator64.format_duration (F64.nearest 2.0) = "2h"%string
  /\ Calculator64.format_duration (F64.nearest 1.0) = "1h"%string.
Proof. split; vm_compute; reflexivity. Qed.

Example test_only_minutes :
  Calculator64.format_duration (F64.nearest 0.5) = "30m"%string
  /\ Calculator64.format_duration (F64.nearest 0.25) = "15m"%string.
Proof. split; vm_compute; reflexivity. Qed.

Example test_hours_and_minutes :
  Calculator64.format_duration (F64.nearest 1.5) = "1h 30m"%string
  /\ Calculator64.format_duration (F64.nearest 2.25) = "2h 15m"%string.
Proof. split; vm_compute; reflexivity. Qed.

Example test_zero : Calculator64.format_duration (F64.nearest 0) = "0m"%string.
Proof. vm_compute; reflexivity. Qed.

Example test_small_duration :
  Calculator64.format_duration (F64.nearest 0.016667) = "1m"%string.
Proof. vm_compute; reflexivity. Qed.

(** The product 2.05 * 60 is the double just below 123. *)
Example duration_of_2_05_hours :
  Calculator64.format_duration (F64.nearest 2.05) = "2h 2m"%string.
Proof. vm_compute; reflexivity. Qed.

Lemma int_truncates (x : float) :
  (Qabs (F64.exact x - inject_Z (F64.int x)) < 1)%Q
  /\ (0 <= F64.exact x -> 0 <= inject_Z (F64.int x) <= F64.exact x)%Q.
Proof.
  unfold F64.int. destruct (F64.exact x) as [n d]. cbn [Qnum Qden].
  pose proof (Z.quot_rem' n (Z.pos d)) as E.
  assert (Hq : (n # d) - inject_Z (n ÷ Z.pos d) == Z.rem n (Z.pos d) # d).
  { unfold Qeq, Qminus, Qplus, Qopp, inject_Z. cbn. nia. }
  split.
  - rewrite Hq. unfold Qabs, Qlt. cbn.
    pose proof (Z.rem_bound_abs n (Z.pos d) ltac:(lia)). lia.
  - intros H. unfold Qle in *. cbn in *.
    assert (0 <= n) by lia.
    pose proof (Z.rem_bound_pos n (Z.pos d) ltac:(lia) ltac:(lia)).
    pose proof (Z.quot_pos n (Z.pos d) ltac:(lia) ltac:(lia)). nia.
Qed.

(** X16: the duration shown is the double product hours * 60 truncated toward
    zero, as h hours and m minutes with m below 60, the hours left out when h
    is 0 and the minutes left out on the full hour; the minutes shown are less
    than one minute from that product and, for a product that is not negative,
    not above it. *)
Theorem duration_hours_minutes (hours : float) :
  let minutes := PrimFloat.mul hours (F64.nearest 60) in
  exists h m : Z,
    0 <= m < 60
    /\ 60 * h + m = F64.int minutes
    /\ (Qabs (F64.exact minutes - inject_Z (60 * h + m)) < 1)%Q
    /\ ((0 <= F64.exact minutes)%Q ->
        0 <= h /\ (inject_Z (60 * h + m) <= F64.exact minutes)%Q)
    /\ Calculator64.format_duration hours
       = (if h =? 0 then pretty m +:+ "m"
          else if m =? 0 then pretty h +:+ "h"
          else pretty h +:+ "h " +:+ pretty m +:+ "m").
Proof.
  intros minutes.
  exists (F64.int minutes / 60), (F64.int minutes mod 60).
  pose proof (int_truncates minutes) as (T1 & T2).
  assert (E : 60 * (F64.int minutes / 60) + F64.int minutes mod 60
              = F64.int minutes) by (symmetry; apply Z.div_mod; lia).
  split; [apply Z.mod_pos_bound; lia|].
  split; [exact E|]. rewrite E.
  split; [exact T1|]. split; [|reflexivity].
  intros H. destruct (T2 H) as [H0 H1]. split; [|exact H1].
  assert (0 <= F64.int minutes) by (rewrite Zle_Qle; exact H0).
  apply Z.div_pos; lia.
Qed.

Lemma region_names_lookup (region : string) :
  region_names !! region
  = if String.eqb region "NO5" then Some "Bergen / Vest-Norge"%string
    else if String.eqb region "NO4" then Some "Tromsø / Nord-Norge"%string
    else if String.eqb region "NO3" then Some "Trondheim / Midt-Norge"%string
    else if String.eqb region "NO2" then Some "Kristiansand / Sør-Norge"%string
    else if String.eqb region "NO1" then Some "Oslo / Øst-Norge"%string
    else None.
Proof.
  unfold region_names. cbn [list_to_map foldr fst snd uncurry].
  repeat match goal with
  | |- context [String.eqb region ?k] =>
      destruct (String.eqb_spec region k) as [->|];
        [vm_compute; reflexivity|]
  end.
  repeat (rewrite lookup_insert_ne by congruence).
  apply lookup_empty.
Qed.

(** X17: the table of region names covers exactly the valid regions: a valid
    region gets a name that is not its code, any other text is returned as it
    is. *)
Theorem region_names_cover_valid_regions (region : string) :
  (region_in region VALID_REGIONS = true -> format_region_name region <> region)
  /\ (region_in region VALID_REGIONS = false
      -> format_region_name region = region).
Proof.
  unfold format_region_name. rewrite region_names_lookup.
  unfold region_in, VALID_REGIONS. cbn [existsb].
  repeat match goal with
  | |- context [String.eqb region ?k] =>
      destruct (String.eqb_spec region k) as [->|]
  end; cbn; split; intros; try discriminate; try reflexivity; congruence.
Qed.

(** ** Appliances *)

Lemma same_apparat_key (user_id : Z) (name : string) (a : apparat) :
  same_apparat user_id name a = true <-> apparat_key a = (user_id, nocase name).
Proof.
  unfold same_apparat, apparat_key. rewrite andb_true_iff, Z.eqb_eq, String.eqb_eq.
  split; [intros [-> ->]; reflexivity | intros [= -> ->]; auto].
Qed.

Lemma same_apparat_false (user_id : Z) (name : string) (a : apparat) :
  same_apparat user_id name a = false <-> apparat_key a <> (user_id, nocase name).
Proof.
  rewrite <- same_apparat_key. destruct (same_apparat user_id name a); split; congruence.
Qed.

Lemma existsb_find {A} (f : A -> bool) (l : list A) :
  existsb f l = true <-> find f l <> None.
Proof.
  induction l as [|a l IH]; simpl; [split; congruence|].
  destruct (f a); simpl; [split; congruence | exact IH].
Qed.

Lemma existsb_key (user_id : Z) (name : string) (l : list apparat) :
  existsb (same_apparat user_id name) l = false
  <-> ~ In (user_id, nocase name) (map apparat_key l).
Proof.
  induction l as [|a l IH]; simpl; [tauto|].
  rewrite orb_false_iff, IH, same_apparat_false. intuition congruence.
Qed.

Lemma find_app_r {A} (f : A -> bool) (l l' : list A) :
  find f l = None -> find f (l ++ l') = find f l'.
Proof.
  induction l as [|a l IH]; simpl; [reflexivity|].
  destruct (f a); [discriminate | exact IH].
Qed.

Lemma find_ext_in {A} (f g : A -> bool) (l : list A) :
  (forall a, In a l -> f a = g a) -> find f l = find g l.
Proof.
  induction l as [|a l IH]; simpl; intros H; [reflexivity|].
  rewrite (H a) by auto. destruct (g a); [reflexivity | apply IH; auto].
Qed.

(** X18: [add_apparat] raises OverflowError, and changes nothing, when the
    user id or a wattage lies outside the 64-bit range of an SQLite
    INTEGER. Inside the range an appliance is added exactly when the user
    has none of that name, upper and lower case ASCII letters taken as
    equal; it can then be read back under every spelling of the name, with
    a fresh id; else nothing changes; the uniqueness of names and ids is
    kept. *)
Theorem add_apparat_unique_names (user_id : Z) (name : string)
    (low_watt high_watt : Z) (t : tables) :
  let added := fst (add_apparat user_id name low_watt high_watt t) in
  let t' := snd (add_apparat user_id name low_watt high_watt t) in
  let in_range :=
    sqlite_int user_id && sqlite_int low_watt && sqlite_int high_watt in
  (added = Exn.Raise Exn.OverflowError <-> in_range = false)
  /\ (added = Exn.Return true
      <-> in_range = true /\ get_apparat user_id name t = None)
  /\ (added = Exn.Return false
      <-> in_range = true /\ get_apparat user_id name t <> None)
  /\ (added <> Exn.Return true -> t' = t)
  /\ (added = Exn.Return true ->
      forall name', nocase name' = nocase name ->
        get_apparat user_id name' t'
        = Some (mkapparat (apparat_seq t + 1) user_id name low_watt high_watt))
  /\ (apparater_ok t -> apparater_ok t').
Proof.
  unfold add_apparat, get_apparat. cbv zeta.
  destruct (sqlite_int user_id && sqlite_int low_watt && sqlite_int high_watt);
    cbn [negb fst snd].
  2:{ repeat match goal with
             | |- _ /\ _ => split
             | |- _ <-> _ => split
             end;
      solve [congruence | tauto | intros [? ?]; congruence | auto]. }
  destruct (existsb (same_apparat user_id name) (apparater t)) eqn:E;
    cbn [fst snd].
  - apply existsb_find in E.
    repeat match goal with
           | |- _ /\ _ => split
           | |- _ <-> _ => split
           end;
      solve [congruence | tauto | intros [? ?]; congruence | auto].
  - assert (F : find (same_apparat user_id name) (apparater t) = None).
    { destruct (find _ _) eqn:F; [|reflexivity].
      assert (existsb (same_apparat user_id name) (apparater t) = true)
        by (apply existsb_find; congruence). congruence. }
    split; [split; congruence|]. split; [tauto|].
    split; [split; [congruence | intros [_ ?]; congruence]|].
    split; [congruence|]. split.
    + intros _ name' Hn. cbn [apparater].
      assert (S : forall a, same_apparat user_id name' a = same_apparat user_id name a)
        by (intros a; unfold same_apparat; rewrite Hn; reflexivity).
      rewrite (find_ext_in _ (same_apparat user_id name)) by (intros; apply S).
      rewrite find_app_r by exact F. simpl.
      unfold same_apparat. simpl. rewrite Z.eqb_refl, String.eqb_refl. reflexivity.
    + intros (K & I & B). unfold apparater_ok. cbn [apparater apparat_seq].
      rewrite !map_app. simpl. split; [|split].
      * apply NoDup_app. split; [exact K|]. split; [|apply NoDup_singleton].
        intros k Hk. rewrite list_elem_of_singleton. intros ->.
        apply existsb_key in E. apply E. apply list_elem_of_In. exact Hk.
      * apply NoDup_app. split; [exact I|]. split; [|apply NoDup_singleton].
        intros k Hk. rewrite list_elem_of_singleton. intros ->.
        apply list_elem_of_In, in_map_iff in Hk. destruct Hk as (a & Ha & Hin).
        rewrite Forall_forall in B. apply list_elem_of_In in Hin. apply B in Hin. lia.
      * apply Forall_app. split; [|repeat constructor; simpl; lia].
        eapply Forall_impl; [exact B|]. simpl. intros; lia.
Qed.

Lemma find_filter_none {A} (f : A -> bool) (l : list A) :
  find f (List.filter (fun a => negb (f a)) l) = None.
Proof.
  induction l as [|a l IH]; simpl; [reflexivity|].
  destruct (f a) eqn:E; simpl; [exact IH | rewrite E; exact IH].
Qed.

Lemma find_filter_keep {A} (f g : A -> bool) (l : list A) :
  (forall a, In a l -> f a = true -> g a = true) ->
  find f (List.filter g l) = find f l.
Proof.
  induction l as [|a l IH]; simpl; intros H; [reflexivity|].
  destruct (f a) eqn:E.
  - rewrite (H a) by auto. simpl. rewrite E. reflexivity.
  - destruct (g a); simpl; [rewrite E|]; apply IH; auto.
Qed.

Lemma NoDup_map_filter {A B} (k : A -> B) (g : A -> bool) (l : list A) :
  NoDup (map k l) -> NoDup (map k (List.filter g l)).
Proof.
  induction l as [|a l IH]; simpl; intros H; [constructor|].
  apply NoDup_cons in H. destruct H as [N H].
  destruct (g a); simpl; [|auto].
  apply NoDup_cons. split; [|auto].
  intros C. apply N. apply list_elem_of_In in C. apply list_elem_of_In.
  apply in_map_iff in C. destruct C as (b & <- & Hb).
  apply filter_In in Hb. apply in_map. tauto.
Qed.

Lemma Forall_filter' {A} (P : A -> Prop) (g : A -> bool) (l : list A) :
  Forall P l -> Forall P (List.filter g l).
Proof.
  induction 1 as [|a l Ha H IH]; simpl; [constructor|].
  destruct (g a); [constructor; assumption | assumption].
Qed.

Lemma delete_apparat_ok (user_id : Z) (name : string) (t : tables) :
  apparater_ok t -> apparater_ok (snd (delete_apparat user_id name t)).
Proof.
  intros (K & I & B). unfold apparater_ok, delete_apparat. cbn.
  split; [apply NoDup_map_filter; exact K|].
  split; [apply NoDup_map_filter; exact I|].
  apply Forall_filter'. exact B.
Qed.

(** X19: deleting an appliance reports whether the user had one of that name;
    afterwards the name reads as absent, every other name of every user reads
    as before, and the sessions and the id counter are untouched. *)
Theorem delete_apparat_removes (user_id : Z) (name : string) (t : tables) :
  let deleted := fst (delete_apparat user_id name t) in
  let t' := snd (delete_apparat user_id name t) in
  (deleted = true <-> get_apparat user_id name t <> None)
  /\ get_apparat user_id name t' = None
  /\ (forall user_id' name',
        (user_id', nocase name') <> (user_id, nocase name) ->
        get_apparat user_id' name' t' = get_apparat user_id' name' t)
  /\ session_rows t' = session_rows t
  /\ apparat_seq t' = apparat_seq t
  /\ (apparater_ok t -> apparater_ok t').
Proof.
  cbv zeta. unfold get_apparat. cbn [delete_apparat fst snd apparater].
  split; [apply existsb_find|].
  split; [apply find_filter_none|].
  split; [|split; [reflexivity|split; [reflexivity|apply delete_apparat_ok]]].
  intros u' n' Hk. apply find_filter_keep. intros a _ Ha.
  apply same_apparat_key in Ha. apply negb_true_iff, same_apparat_false.
  congruence.
Qed.

Section OrderBy.

Context {A : Type} (le : A -> A -> bool).
Hypothesis le_total : forall a b, le a b = true \/ le b a = true.

Lemma insert_by_Permutation (a : A) (l : list A) :
  Permutation (insert_by le a l) (a :: l).
Proof.
  induction l as [|b l IH]; simpl; [reflexivity|].
  destruct (le a b); [reflexivity|].
  rewrite IH. apply perm_swap.
Qed.

Lemma order_by_Permutation (l : list A) : Permutation (order_by le l) l.
Proof.
  induction l as [|a l IH]; simpl; [reflexivity|].
  rewrite insert_by_Permutation. constructor. exact IH.
Qed.

Lemma insert_by_HdRel (a b : A) (l : list A) :
  le b a = true -> HdRel (fun x y => le x y = true) b l ->
  HdRel (fun x y => le x y = true) b (insert_by le a l).
Proof.
  intros Hba H. destruct l as [|c l]; simpl; [constructor; exact Hba|].
  destruct (le a c); constructor; [exact Hba|]. inversion H; assumption.
Qed.

Lemma insert_by_Sorted (a : A) (l : list A) :
  Sorted (fun x y => le x y = true) l ->
  Sorted (fun x y => le x y = true) (insert_by le a l).
Proof.
  induction 1 as [|b l S IH H]; simpl; [repeat constructor|].
  destruct (le a b) eqn:E.
  - constructor; [constructor; assumption | constructor; exact E].
  - constructor; [exact IH|]. apply insert_by_HdRel; [|exact H].
    destruct (le_total a b); congruence.
Qed.

Lemma order_by_Sorted (l : list A) :
  Sorted (fun x y => le x y = true) (order_by le l).
Proof.
  induction l as [|a l IH]; simpl; [constructor|].
  apply insert_by_Sorted. exact IH.
Qed.

End OrderBy.

(** X20: the appliance list of a user holds each row of the user once, and no
    other row, in the order of the names. *)
Theorem get_all_apparater_sorted (user_id : Z) (t : tables) :
  Permutation (get_all_apparater user_id t)
    (List.filter (fun a => a_user_id a =? user_id) (apparater t))
  /\ Sorted (fun a b => String.leb (a_name a) (a_name b) = true)
       (get_all_apparater user_id t)
  /\ (forall a, In a (get_all_apparater user_id t)
                <-> In a (apparater t) /\ a_user_id a = user_id).
Proof.
  unfold get_all_apparater.
  pose proof (order_by_Permutation (fun a b => String.leb (a_name a) (a_name b))
                (List.filter (fun a => a_user_id a =? user_id) (apparater t))) as P.
  split; [exact P|]. split.
  - apply (order_by_Sorted (fun a b => String.leb (a_name a) (a_name b))).
    intros a b. apply String.leb_total.
  - intros a. split.
    + intros H. apply (Permutation_in _ P) in H. apply filter_In in H.
      rewrite Z.eqb_eq in H. exact H.
    + intros H. apply (Permutation_in _ (Permutation_sym P)).
      apply filter_In. rewrite Z.eqb_eq. exact H.
Qed.

Lemma find_id_unique (l : list apparat) (a : apparat) :
  NoDup (map a_id l) -> In a l ->
  find (fun b => a_id b =? a_id a) l = Some a.
Proof.
  induction l as [|b l IH]; simpl; intros N H; [tauto|].
  apply NoDup_cons in N. destruct N as [N1 N2].
  destruct H as [->|H]; [rewrite Z.eqb_refl; reflexivity|].
  destruct (a_id b =? a_id a) eqn:E; [|auto].
  apply Z.eqb_eq in E. exfalso. apply N1. rewrite E.
  apply list_elem_of_In. apply in_map. exact H.
Qed.

(** A session row keeps the id of its appliance. Once the appliance is
    deleted the row joins no appliance, and no later appliance takes the id:
    the row is seen neither as the active session nor in the history, of any
    user, whatever is added afterwards. *)
Lemma deleted_apparat_unjoined (user_id : Z) (name : string)
    (t : tables) (a : apparat) :
  apparater_ok t ->
  get_apparat user_id name t = Some a ->
  forall user_id' name' low_watt high_watt s,
    let t1 := snd (delete_apparat user_id name t) in
    let t2 := snd (add_apparat user_id' name' low_watt high_watt t1) in
    r_apparat_id s = a_id a ->
    joined t1 s = None /\ joined t2 s = None.
Proof.
  intros (K & I & B) G u' n' lo hi s t1 t2 Hs.
  apply find_some in G. destruct G as [Ga Gs].
  assert (J1 : joined t1 s = None).
  { unfold joined, t1. cbn [delete_apparat snd apparater]. rewrite Hs.
    destruct (find _ _) as [b|] eqn:F; [|reflexivity]. exfalso.
    apply find_some in F. destruct F as [Fb Fi].
    apply filter_In in Fb. destruct Fb as [Fb Fn].
    apply Z.eqb_eq in Fi.
    pose proof (find_id_unique _ a I Ga) as U1.
    pose proof (find_id_unique _ b I Fb) as U2.
    rewrite Fi in U2. rewrite U1 in U2. injection U2 as <-.
    rewrite Gs in Fn. discriminate. }
  split; [exact J1|].
  unfold joined, t2, add_apparat.
  destruct (negb _); cbn [snd]; [exact J1|].
  destruct (existsb _ _); cbn [snd]; [exact J1|]. cbn [apparater].
  unfold joined in J1. rewrite find_app_r by exact J1.
  simpl. rewrite Hs.
  rewrite Forall_forall in B. apply list_elem_of_In in Ga. apply B in Ga.
  unfold t1. cbn [delete_apparat snd apparat_seq].
  destruct (Z.eqb_spec (apparat_seq t + 1) (a_id a)); [lia|reflexivity].
Qed.

(** ** Sessions *)

Lemma get_active_session_find (user_id : Z) (t : tables) :
  get_active_session user_id t
  = match find (is_active user_id t) (session_rows t) with
    | Some s =>
        match joined t s with Some a => Some (s, a) | None => None end
    | None => None
    end.
Proof. reflexivity. Qed.

Lemma get_active_session_None (user_id : Z) (t : tables) :
  get_active_session user_id t = None
  <-> find (is_active user_id t) (session_rows t) = None.
Proof.
  rewrite get_active_session_find.
  destruct (find _ _) as [s|] eqn:F; [|tauto].
  apply find_some in F. destruct F as [_ F]. unfold is_active in F.
  destruct (joined t s); [split; discriminate|].
  rewrite andb_false_r in F. discriminate.
Qed.

Lemma get_active_session_Some (user_id : Z) (t : tables) s a :
  get_active_session user_id t = Some (s, a) ->
  In s (session_rows t) /\ is_active user_id t s = true /\ joined t s = Some a.
Proof.
  rewrite get_active_session_find.
  destruct (find _ _) as [s'|] eqn:F; [|discriminate].
  apply find_some in F. destruct F as [Fi Fa].
  destruct (joined t s') eqn:J; [|discriminate].
  intros [= <- <-]. auto.
Qed.

Lemma is_active_ext (user_id : Z) (t t' : tables) (s : session_row) :
  apparater t' = apparater t -> is_active user_id t' s = is_active user_id t s.
Proof. intros H. unfold is_active, joined. rewrite H. reflexivity. Qed.

Lemma find_map_none {A} (f : A -> bool) (g : A -> A) (l : list A) :
  (forall a, In a l -> f (g a) = false) -> find f (map g l) = None.
Proof.
  induction l as [|a l IH]; simpl; intros H; [reflexivity|].
  rewrite (H a) by auto. apply IH. auto.
Qed.

(** X21: a session started while the user has none running, on an appliance
    that exists, is the active session of the user, with the clock reading,
    the mode and the watts it was started with; ending it or cancelling it
    leaves the user with no active session. *)
Theorem session_lifecycle (now : datetime) (user_id apparat_id : Z)
    (watt_mode : string) (actual_watt : Z) (t : tables) (a : apparat) :
  find (fun b => a_id b =? apparat_id) (apparater t) = Some a ->
  get_active_session user_id t = None ->
  let id := fst (start_session now user_id apparat_id watt_mode actual_watt t) in
  let t1 := snd (start_session now user_id apparat_id watt_mode actual_watt t) in
  id = session_seq t + 1
  /\ get_active_session user_id t1
     = Some (mkrow id user_id apparat_id now None watt_mode actual_watt
               None None None None false, a)
  /\ (forall now' kwh spot_cost fixed_cost total_cost,
        get_active_session user_id
          (end_session now' id kwh spot_cost fixed_cost total_cost t1) = None)
  /\ (forall now', get_active_session user_id (cancel_session now' id t1) = None).
Proof.
  intros Ha Hn id t1. apply get_active_session_None in Hn.
  split; [reflexivity|].
  set (row := mkrow id user_id apparat_id now None watt_mode actual_watt
                None None None None false).
  assert (Hrow : is_active user_id t row = true).
  { unfold is_active, joined, row. cbn. rewrite Z.eqb_refl, Ha. reflexivity. }
  split; [|split].
  - rewrite get_active_session_find.
    rewrite (find_ext_in _ (is_active user_id t))
      by (intros; apply is_active_ext; reflexivity).
    unfold t1. cbn [start_session snd session_rows].
    rewrite find_app_r by exact Hn. change (session_seq t + 1) with id. fold row. cbn [find].
    rewrite Hrow. unfold joined. cbn. rewrite Ha. reflexivity.
  - intros. apply get_active_session_None.
    rewrite (find_ext_in _ (is_active user_id t))
      by (intros; apply is_active_ext; reflexivity).
    unfold t1. cbn [start_session end_session snd session_rows apparater].
    apply find_map_none. intros s Hs. change (session_seq t + 1) with id.
    destruct (r_id s =? id) eqn:E.
    + unfold is_active. cbn. rewrite andb_false_r. reflexivity.
    + apply in_app_or in Hs. destruct Hs as [Hs|[<-|[]]].
      * exact (find_none _ _ Hn s Hs).
      * unfold row in E. cbn in E. rewrite Z.eqb_refl in E. discriminate.
  - intros. apply get_active_session_None.
    rewrite (find_ext_in _ (is_active user_id t))
      by (intros; apply is_active_ext; reflexivity).
    unfold t1. cbn [start_session cancel_session snd session_rows apparater].
    apply find_map_none. intros s Hs. change (session_seq t + 1) with id.
    destruct (r_id s =? id) eqn:E.
    + unfold is_active. cbn. rewrite andb_false_r. reflexivity.
    + apply in_app_or in Hs. destruct Hs as [Hs|[<-|[]]].
      * exact (find_none _ _ Hn s Hs).
      * unfold row in E. cbn in E. rewrite Z.eqb_refl in E. discriminate.
Qed.

Lemma session_lifecycle_witness :
  let id :=
    fst (start_session (at_time 2025 3 10 18 0) 123 1 "high" 1500
           heater_tables) in
  id = session_seq heater_tables + 1
  /\ get_active_session 123 running_tables
     = Some (mkrow id 123 1 (at_time 2025 3 10 18 0) None "high" 1500
               None None None None false,
             mkapparat 1 123 "Heater" 750 1500)
  /\ (forall now' kwh spot_cost fixed_cost total_cost,
        get_active_session 123
          (end_session now' id kwh spot_cost fixed_cost total_cost
             running_tables) = None)
  /\ (forall now',
        get_active_session 123 (cancel_session now' id running_tables) = None).
Proof.
  apply (session_lifecycle (at_time 2025 3 10 18 0) 123 1 "high" 1500
           heater_tables (mkapparat 1 123 "Heater" 750 1500));
    reflexivity.
Defined.

(** X22: a session that is started on an existing appliance and then ended is
    among the sessions of every billing period that holds the date it ended
    on, with the energy and the costs it was ended with; had it been
    cancelled, no period would list it. *)
Theorem ended_session_is_counted (now now' : datetime)
    (user_id apparat_id : Z) (watt_mode : string) (actual_watt : Z)
    (t : tables) (a : apparat) (kwh spot_cost fixed_cost total_cost : Q)
    (us : gmap Z settings) (year month d : Z) (win : date * date) :
  find (fun b => a_id b =? apparat_id) (apparater t) = Some a ->
  period_bounds year month d = Py.Returned win ->
  in_window (dt_date now') win = true ->
  let id := fst (start_session now user_id apparat_id watt_mode actual_watt t) in
  let t1 := snd (start_session now user_id apparat_id watt_mode actual_watt t) in
  (exists ss,
      get_monthly_sessions user_id year month d
        (database_of
           (end_session now' id kwh spot_cost fixed_cost total_cost t1) us)
      = Py.Returned ss
      /\ In (mksession id user_id (Some (dt_date now')) false (Some kwh)
               (Some spot_cost) (Some fixed_cost) (Some total_cost)) ss)
  /\ (exists ss,
        get_monthly_sessions user_id year month d
          (database_of (cancel_session now' id t1) us)
        = Py.Returned ss
        /\ forall s, In s ss -> s_id s <> id).
Proof.
  intros Ha Hw Hin id t1. destruct win as [lo hi].
  unfold get_monthly_sessions. rewrite Hw. split.
  - eexists. split; [reflexivity|].
    apply filter_In. split.
    + unfold database_of. cbn [sessions].
      set (row := mkrow id user_id apparat_id now (Some now') watt_mode
                    actual_watt (Some kwh) (Some spot_cost) (Some fixed_cost)
                    (Some total_cost) false).
      change (mksession _ _ _ _ _ _ _ _) with (to_session row).
      apply in_map. apply filter_In. split.
      * unfold t1. cbn [start_session end_session snd session_rows].
        rewrite map_app. apply in_or_app. right. cbn [map].
        change (session_seq t + 1) with id. cbn [r_id]. rewrite Z.eqb_refl.
        left. reflexivity.
      * unfold joined, row. cbn. rewrite Ha. reflexivity.
    + cbn. rewrite Z.eqb_refl. exact Hin.
  - eexists. split; [reflexivity|].
    intros s Hs. apply filter_In in Hs. destruct Hs as [Hs Hf].
    unfold database_of in Hs. cbn [sessions] in Hs.
    apply in_map_iff in Hs. destruct Hs as (r & <- & Hr).
    apply filter_In in Hr. destruct Hr as [Hr _].
    unfold t1 in Hr. cbn [start_session cancel_session snd session_rows] in Hr.
    apply in_map_iff in Hr. destruct Hr as (r0 & <- & _).
    change (session_seq t + 1) with id in *.
    destruct (r_id r0 =? id) eqn:E.
    + cbn in Hf. rewrite andb_false_r in Hf. discriminate.
    + cbn. apply Z.eqb_neq. exact E.
Qed.

Lemma ended_session_is_counted_witness :
  (exists ss,
      get_monthly_sessions 123 2025 3 5
        (database_of
           (end_session (at_time 2025 3 4 20 0) 1 2.25 2.72 4.05 6.77
              running_tables) ∅)
      = Py.Returned ss
      /\ In (mksession 1 123 (Some (mkdate 2025 3 4)) false (Some 2.25%Q)
               (Some 2.72%Q) (Some 4.05%Q) (Some 6.77%Q)) ss)
  /\ (exists ss,
        get_monthly_sessions 123 2025 3 5
          (database_of (cancel_session (at_time 2025 3 4 20 0) 1 running_tables)
             ∅)
        = Py.Returned ss
        /\ forall s, In s ss -> s_id s <> 1).
Proof.
  apply (ended_session_is_counted (at_time 2025 3 10 18 0)
           (at_time 2025 3 4 20 0) 123 1 "high" 1500 heater_tables
           (mkapparat 1 123 "Heater" 750 1500) 2.25 2.72 4.05 6.77 ∅
           2025 3 5 (mkdate 2025 2 5, mkdate 2025 3 4));
    reflexivity.
Defined.

Lemma completed_In (user_id : Z) (t : tables) (s : session_row) :
  In s (completed user_id t)
  <-> In s (session_rows t) /\ r_user_id s = user_id
      /\ r_end_time s <> None /\ r_cancelled s = false /\ joined t s <> None.
Proof.
  unfold completed. rewrite filter_In, !andb_true_iff, Z.eqb_eq, negb_true_iff.
  destruct (r_end_time s), (joined t s); intuition congruence.
Qed.

Lemma firstn_In {A} (n : nat) (l : list A) (a : A) :
  In a (firstn n l) -> In a l.
Proof.
  revert l. induction n as [|n IH]; intros [|b l]; simpl; try tauto.
  intros [->|H]; auto.
Qed.

Lemma Sorted_firstn {A} (R : A -> A -> Prop) (n : nat) (l : list A) :
  Sorted R l -> Sorted R (firstn n l).
Proof.
  intros S. revert n. induction S as [|a l S IH H]; intros [|n]; simpl;
    try constructor.
  - apply IH.
  - destruct H as [|b l H]; destruct n; simpl; constructor. exact H.
Qed.

Lemma get_session_history_In (user_id limit : Z) (t : tables) (s : session_row) :
  In s (get_session_history user_id limit t) -> In s (completed user_id t).
Proof.
  unfold get_session_history. intros H.
  apply (Permutation_in _ (order_by_Permutation ends_after _)).
  destruct (limit <? 0); [exact H | exact (firstn_In _ _ _ H)].
Qed.

(** X23: a session row keeps the id of its appliance. Once the appliance is
    deleted the row joins no appliance, and no later appliance takes the id:
    the row is seen neither as the active session nor in the history of any
    user, whatever appliance is added afterwards. *)
Theorem deleted_apparat_hides_sessions (user_id : Z) (name : string)
    (t : tables) (a : apparat) (user_id' : Z) (name' : string)
    (low_watt high_watt : Z) :
  apparater_ok t ->
  get_apparat user_id name t = Some a ->
  let t1 := snd (delete_apparat user_id name t) in
  let t2 := snd (add_apparat user_id' name' low_watt high_watt t1) in
  (forall u s b,
      get_active_session u t1 = Some (s, b)
      \/ get_active_session u t2 = Some (s, b) ->
      r_apparat_id s <> a_id a)
  /\ (forall u limit s,
        In s (get_session_history u limit t1)
        \/ In s (get_session_history u limit t2) ->
        r_apparat_id s <> a_id a).
Proof.
  intros Hok Hg t1 t2.
  pose proof (fun s => deleted_apparat_unjoined user_id name t a Hok Hg
                         user_id' name' low_watt high_watt s) as U.
  cbv zeta in U. fold t1 in U. fold t2 in U.
  split.
  - intros u s b H E. destruct (U s E) as [U1 U2].
    destruct H as [H|H]; apply get_active_session_Some in H;
      destruct H as (_ & _ & J); congruence.
  - intros u limit s H E. destruct (U s E) as [U1 U2].
    destruct H as [H|H]; apply get_session_history_In, completed_In in H;
      destruct H as (_ & _ & _ & _ & J); congruence.
Qed.

Lemma heater_tables_ok : apparater_ok heater_tables.
Proof.
  split; [apply NoDup_singleton|]. split; [apply NoDup_singleton|].
  repeat constructor. vm_compute. discriminate.
Qed.

Lemma deleted_apparat_hides_sessions_witness :
  let t1 := snd (delete_apparat 123 "heater" running_tables) in
  let t2 := snd (add_apparat 123 "Heater" 750 1500 t1) in
  (forall u s b,
      get_active_session u t1 = Some (s, b)
      \/ get_active_session u t2 = Some (s, b) ->
      r_apparat_id s <> 1)
  /\ (forall u limit s,
        In s (get_session_history u limit t1)
        \/ In s (get_session_history u limit t2) ->
        r_apparat_id s <> 1).
Proof.
  apply (deleted_apparat_hides_sessions 123 "heater" running_tables
           (mkapparat 1 123 "Heater" 750 1500) 123 "Heater" 750 1500).
  - exact heater_tables_ok.
  - reflexivity.
Defined.

Lemma date_leb_total (a b : date) : date_leb a b = true \/ date_leb b a = true.
Proof. rewrite !date_leb_iff. lia. Qed.

Lemma datetime_leb_total (a b : datetime) :
  datetime_leb a b = true \/ datetime_leb b a = true.
Proof.
  unfold datetime_leb.
  destruct (date_leb (dt_date a) (dt_date b)) eqn:E1,
           (date_leb (dt_date b) (dt_date a)) eqn:E2; cbn; auto.
  - rewrite !Z.leb_le. lia.
  - destruct (date_leb_total (dt_date a) (dt_date b)); congruence.
Qed.

Lemma ends_after_total (a b : session_row) :
  ends_after a b = true \/ ends_after b a = true.
Proof.
  unfold ends_after. destruct (r_end_time a), (r_end_time b); auto.
  apply datetime_leb_total.
Qed.

Lemma datetime_leb_iff (a b : datetime) :
  datetime_leb a b = true
  <-> year (dt_date a) < year (dt_date b)
      \/ (year (dt_date a) = year (dt_date b)
          /\ (month (dt_date a) < month (dt_date b)
              \/ (month (dt_date a) = month (dt_date b)
                  /\ (day (dt_date a) < day (dt_date b)
                      \/ (day (dt_date a) = day (dt_date b)
                          /\ dt_micro a <= dt_micro b))))).
Proof.
  unfold datetime_leb.
  pose proof (date_leb_iff (dt_date a) (dt_date b)) as Hab.
  pose proof (date_leb_iff (dt_date b) (dt_date a)) as Hba.
  destruct (date_leb (dt_date a) (dt_date b));
    destruct (date_leb (dt_date b) (dt_date a)); cbn [andb];
    rewrite ?Z.leb_le; intuition (try discriminate; try lia).
Qed.

Lemma datetime_leb_trans (a b c : datetime) :
  datetime_leb a b = true -> datetime_leb b c = true ->
  datetime_leb a c = true.
Proof. rewrite !datetime_leb_iff. lia. Qed.

Lemma ends_after_trans (a b c : session_row) :
  ends_after a b = true -> ends_after b c = true -> ends_after a c = true.
Proof.
  unfold ends_after.
  destruct (r_end_time a), (r_end_time b), (r_end_time c);
    try reflexivity; try discriminate.
  intros H1 H2. exact (datetime_leb_trans _ _ _ H2 H1).
Qed.

Lemma StronglySorted_app_forall {A} (R : A -> A -> Prop) (l l' : list A)
    (a b : A) :
  StronglySorted R (l ++ l') -> In a l -> In b l' -> R a b.
Proof.
  induction l as [|x l IH]; cbn; intros S Ha Hb; [tauto|].
  apply StronglySorted_inv in S. destruct S as [S F].
  destruct Ha as [->|Ha]; [|exact (IH S Ha Hb)].
  rewrite List.Forall_forall in F. apply F. apply in_or_app. right. exact Hb.
Qed.

(** X24: the history lists completed sessions of the user only (ended, not
    cancelled, of an appliance that still exists), each at most as often as
    the table holds it, latest end first, and as many of them as the limit
    allows; every completed session left out ended no later than every one
    listed; a negative limit leaves none out. *)
Theorem session_history_recent_first (user_id limit : Z) (t : tables) :
  let h := get_session_history user_id limit t in
  Sorted (fun a b => ends_after a b = true) h
  /\ (forall s, In s h ->
        In s (session_rows t) /\ r_user_id s = user_id
        /\ r_end_time s <> None /\ r_cancelled s = false
        /\ joined t s <> None)
  /\ length h
     = (if limit <? 0 then length (completed user_id t)
        else Nat.min (Z.to_nat limit) (length (completed user_id t)))
  /\ exists left_out,
       Permutation (h ++ left_out) (completed user_id t)
       /\ (limit < 0 -> left_out = [])
       /\ forall s s', In s h -> In s' left_out -> ends_after s s' = true.
Proof.
  cbv zeta.
  pose proof (order_by_Sorted ends_after ends_after_total
                (completed user_id t)) as S.
  pose proof (order_by_Permutation ends_after (completed user_id t)) as P.
  split; [|split; [|split]].
  - unfold get_session_history.
    destruct (limit <? 0); [exact S | apply Sorted_firstn; exact S].
  - intros s H. apply completed_In. eapply get_session_history_In. exact H.
  - unfold get_session_history.
    destruct (limit <? 0); [exact (Permutation_length P)|].
    rewrite length_firstn, (Permutation_length P). reflexivity.
  - unfold get_session_history. destruct (Z.ltb_spec limit 0) as [Hl|Hl].
    + exists []. rewrite app_nil_r. split; [exact P|].
      split; [reflexivity|]. intros s s' _ [].
    + exists (skipn (Z.to_nat limit) (order_by ends_after (completed user_id t))).
      rewrite firstn_skipn. split; [exact P|]. split; [lia|].
      apply Sorted_StronglySorted in S; [|exact ends_after_trans].
      rewrite <- (firstn_skipn (Z.to_nat limit)) in S.
      intros s s' Hs Hs'.
      exact (StronglySorted_app_forall _ _ _ s s' S Hs Hs').
Qed.

Lemma filter_length_split {A} (f : A -> bool) (l : list A) :
  Z.of_nat (length l) - Z.of_nat (length (List.filter (fun a => negb (f a)) l))
  = Z.of_nat (length (List.filter f l)).
Proof.
  induction l as [|a l IH]; simpl; [reflexivity|].
  destruct (f a); simpl; lia.
Qed.

(** X25: without a month, without a year, or with either of them 0, every
    session row of the user is deleted, running and cancelled ones included;
    the rows of other users and the appliances stay, and the count of the rows
    of the user is returned. *)
Theorem clear_sessions_all (user_id : Z) (month year : option Z) (t : tables) :
  month = None \/ month = Some 0 \/ year = None \/ year = Some 0 ->
  exists t',
    clear_sessions user_id month year t
    = (Py.Returned
         (Z.of_nat (length (List.filter (fun s => r_user_id s =? user_id)
                              (session_rows t)))), t')
    /\ (forall s, In s (session_rows t')
                  <-> In s (session_rows t) /\ r_user_id s <> user_id)
    /\ apparater t' = apparater t
    /\ session_seq t' = session_seq t.
Proof.
  intros H.
  assert (E : clear_sessions user_id month year t
              = (Py.Returned
                   (Z.of_nat (length (session_rows t))
                    - Z.of_nat (length (List.filter
                                          (fun s => negb (r_user_id s =? user_id))
                                          (session_rows t)))),
                 mktables (apparater t) (apparat_seq t)
                   (List.filter (fun s => negb (r_user_id s =? user_id))
                      (session_rows t))
                   (session_seq t))).
  { unfold clear_sessions. destruct month as [m|], year as [y|]; try reflexivity.
    destruct (Z.eqb_spec m 0) as [->|Hm]; [reflexivity|].
    destruct (Z.eqb_spec y 0) as [->|Hy]; [reflexivity|].
    exfalso. destruct H as [H|[H|[H|H]]]; congruence. }
  eexists. split; [rewrite E, filter_length_split; reflexivity|].
  cbn [session_rows apparater session_seq]. split; [|auto].
  intros s. rewrite filter_In, negb_true_iff, Z.eqb_neq. tauto.
Qed.

Lemma clear_sessions_all_witness :
  exists t',
    clear_sessions 123 (Some 0) (Some 2025) running_tables
    = (Py.Returned
         (Z.of_nat (length (List.filter (fun s => r_user_id s =? 123)
                              (session_rows running_tables)))), t')
    /\ (forall s, In s (session_rows t')
                  <-> In s (session_rows running_tables) /\ r_user_id s <> 123)
    /\ apparater t' = apparater running_tables
    /\ session_seq t' = session_seq running_tables.
Proof.
  apply (clear_sessions_all 123 (Some 0) (Some 2025) running_tables).
  right. left. reflexivity.
Defined.

(** X26: with a month and a year, both not 0: outside year 1..9999 or month
    1..12 the call raises and deletes nothing; else it deletes the rows of the
    user that ended in that month, cancelled ones included, and keeps the
    running ones. *)
Theorem clear_sessions_month (user_id month year : Z) (t : tables) :
  month <> 0 -> year <> 0 ->
  let hit s :=
    r_user_id s = user_id
    /\ exists e, r_end_time s = Some e
                 /\ year = Models.year (dt_date e)
                 /\ month = Models.month (dt_date e)
                 /\ 1 <= day (dt_date e) <= days_in_month year month in
  match clear_sessions user_id (Some month) (Some year) t with
  | (Py.Raised _, t') =>
      t' = t /\ ~ (1 <= year <= 9999 /\ 1 <= month <= 12)
  | (Py.Returned deleted, t') =>
      1 <= year <= 9999 /\ 1 <= month <= 12
      /\ (forall s, In s (session_rows t')
                    <-> In s (session_rows t) /\ ~ hit s)
      /\ deleted
         = Z.of_nat (length (session_rows t))
           - Z.of_nat (length (session_rows t'))
      /\ apparater t' = apparater t
  end.
Proof.
  intros Hm Hy hit. unfold clear_sessions.
  apply Z.eqb_neq in Hm, Hy. rewrite Hm, Hy. cbn [negb andb].
  apply Z.eqb_neq in Hm, Hy.
  destruct (new_date year month 1) as [start_date|[]] eqn:D1.
  2:{ split; [reflexivity|]. apply new_date_Raised in D1.
      intros [? ?]. apply D1. pose proof (days_in_month_bounds year month). lia. }
  apply new_date_Returned in D1. destruct D1 as (-> & Y & M & _).
  rewrite monthrange_ok by lia.
  rewrite new_date_ok
    by (pose proof (days_in_month_bounds year month); lia).
  split; [exact Y|]. split; [exact M|]. cbn [session_rows apparater].
  split; [|split; reflexivity].
  intros s. rewrite filter_In, negb_true_iff. apply and_iff_compat_l.
  unfold hit. split.
  - intros F [U (e & E & Hy' & Hm' & Hd)]. rewrite E in F.
    apply Z.eqb_eq in U. rewrite U in F. cbn [andb] in F.
    apply andb_false_iff in F.
    destruct F as [F|F]; apply date_leb_false in F; cbn in F; lia.
  - intros N. destruct (r_user_id s =? user_id) eqn:U; [|reflexivity].
    apply Z.eqb_eq in U. cbn [andb].
    destruct (r_end_time s) as [e|] eqn:E; [|reflexivity].
    destruct (date_leb _ (dt_date e) && date_leb (dt_date e) _) eqn:W;
      [|reflexivity].
    exfalso. apply N. split; [exact U|]. exists e. split; [reflexivity|].
    apply andb_true_iff in W. destruct W as [W1 W2].
    apply date_leb_iff in W1, W2. cbn in W1, W2. lia.
Qed.

Lemma clear_sessions_month_witness :
  let t :=
    end_session (at_time 2025 3 10 20 0) 1 2.25 2.72 4.05 6.77 running_tables in
  let hit s :=
    r_user_id s = 123
    /\ exists e, r_end_time s = Some e
                 /\ 2025 = Models.year (dt_date e)
                 /\ 3 = Models.month (dt_date e)
                 /\ 1 <= day (dt_date e) <= days_in_month 2025 3 in
  match clear_sessions 123 (Some 3) (Some 2025) t with
  | (Py.Raised _, t') =>
      t' = t /\ ~ (1 <= 2025 <= 9999 /\ 1 <= 3 <= 12)
  | (Py.Returned deleted, t') =>
      1 <= 2025 <= 9999 /\ 1 <= 3 <= 12
      /\ (forall s, In s (session_rows t')
                    <-> In s (session_rows t) /\ ~ hit s)
      /\ deleted
         = Z.of_nat (length (session_rows t))
           - Z.of_nat (length (session_rows t'))
      /\ apparater t' = apparater t
  end.
Proof.
  apply (clear_sessions_month 123 3 2025
           (end_session (at_time 2025 3 10 20 0) 1 2.25 2.72 4.05 6.77
              running_tables)); lia.
Defined.

(** ** Session alerts and settings *)

Lemma running_hours_le (n : Z) (now start_time : datetime) :
  Qle_bool (inject_Z n) (running_hours now start_time) = true
  <-> n * DT.HOUR <= micros_between now start_time.
Proof.
  rewrite Qle_bool_iff. unfold running_hours, Py.total_seconds, DT.HOUR.
  generalize (micros_between now start_time). intros u.
  unfold Qle, Qdiv, Qmult, Qinv, inject_Z. cbn. lia.
Qed.

Lemma running_two_hours (now start_time : datetime) :
  Qle_bool 2 (running_hours now start_time) = true
  <-> 2 * DT.HOUR <= micros_between now start_time.
Proof. exact (running_hours_le 2 now start_time). Qed.

Lemma micros_between_add (a b c : datetime) :
  micros_between a c = micros_between a b + micros_between b c.
Proof. unfold micros_between. lia. Qed.

(** X27: the long-session alert is raised exactly when the user has an active
    session that has run for two hours or more, the two hours included; it
    names the appliance of the session, and once raised it is raised at every
    later clock reading while the tables are unchanged. *)
Theorem runtime_alert_after_two_hours (now : datetime) (user_id : Z)
    (t : tables) :
  (forall name hours,
      check_runtime_alert now user_id t = Some (LongSession name hours)
      <-> exists s a,
            get_active_session user_id t = Some (s, a)
            /\ name = a_name a
            /\ hours = running_hours now (r_start_time s)
            /\ 2 * DT.HOUR <= micros_between now (r_start_time s))
  /\ (forall name hours max_hours,
        check_runtime_alert now user_id t
        <> Some (MaxDurationReached name hours max_hours))
  /\ (forall now',
        0 <= micros_between now' now ->
        check_runtime_alert now user_id t <> None ->
        check_runtime_alert now' user_id t <> None).
Proof.
  unfold check_runtime_alert.
  destruct (get_active_session user_id t) as [[s a]|].
  2:{ repeat split; try congruence. intros (? & ? & ? & _). discriminate. }
  cbv zeta. split; [|split].
  - intros name hours. split.
    + destruct (Qle_bool 2 _) eqn:E; [|discriminate]. intros [= <- <-].
      exists s, a. repeat split. apply running_two_hours. exact E.
    + intros (s' & a' & [= <- <-] & -> & -> & H).
      apply running_two_hours in H. rewrite H. reflexivity.
  - intros. destruct (Qle_bool 2 _); discriminate.
  - intros now' Hl H.
    destruct (Qle_bool 2 (running_hours now _)) eqn:E; [|congruence].
    apply running_two_hours in E.
    rewrite (proj2 (running_two_hours now' (r_start_time s))); [discriminate|].
    rewrite (micros_between_add now' now). lia.
Qed.

(** X28: the max-duration alert is off for a limit of 0 or less; for a
    positive limit it is raised exactly when the active session has run for
    that many hours or more; with a limit of two hours or more it is never
    raised without the long-session alert. The call stores the default
    settings of a user who has none, and changes nothing else. *)
Theorem max_duration_alert (now : datetime) (user_id : Z) (db : database)
    (t : tables) :
  let max_hours := max_duration_hours (fst (get_user_settings user_id db)) in
  let alert := fst (check_max_duration now user_id db t) in
  (max_hours <= 0 -> alert = None)
  /\ (0 < max_hours ->
      (alert <> None
       <-> exists s a,
             get_active_session user_id t = Some (s, a)
             /\ max_hours * DT.HOUR <= micros_between now (r_start_time s)
             /\ alert = Some (MaxDurationReached (a_name a)
                                (running_hours now (r_start_time s))
                                max_hours)))
  /\ (2 <= max_hours -> alert <> None ->
      check_runtime_alert now user_id t <> None)
  /\ snd (check_max_duration now user_id db t)
     = snd (get_user_settings user_id db).
Proof.
  unfold check_max_duration, check_runtime_alert.
  destruct (get_user_settings user_id db) as [settings db'].
  cbn [fst snd]. cbv zeta.
  set (max_hours := max_duration_hours settings).
  destruct (Z.eqb_spec max_hours 0) as [E0|E0]; cbn [orb].
  { cbn. repeat split; try congruence; try lia. }
  destruct (Z.leb_spec max_hours 0) as [E1|E1].
  { cbn. repeat split; try congruence; try lia. }
  destruct (get_active_session user_id t) as [[s a]|].
  2:{ cbn. repeat split; try congruence; try lia.
      intros (? & ? & ? & _). discriminate. }
  destruct (Qle_bool (inject_Z max_hours) _) eqn:E; cbn [fst snd].
  - apply running_hours_le in E. split; [lia|]. split; [|split; [|reflexivity]].
    + intros _. split; [|discriminate]. intros _. exists s, a. auto.
    + intros H2 _.
      rewrite (proj2 (running_two_hours now (r_start_time s))); [discriminate|].
      unfold DT.HOUR in *. lia.
  - split; [reflexivity|]. split; [|split; [congruence|reflexivity]].
    intros _. split; [congruence|].
    intros (s' & a' & [= <- <-] & H & _). apply running_hours_le in H.
    congruence.
Qed.

Lemma get_user_settings_lookup (user_id : Z) (db : database) :
  user_settings (snd (get_user_settings user_id db)) !! user_id
  = Some (fst (get_user_settings user_id db)).
Proof.
  unfold get_user_settings.
  destruct (user_settings db !! user_id) eqn:E; cbn; [exact E|].
  apply lookup_insert_eq.
Qed.

Lemma update_fold (user_id : Z) (kwargs : list setting_update) (db : database)
    (row : settings) :
  user_settings db !! user_id = Some row ->
  let db' :=
    fold_left
      (fun db u =>
         mkdb (sessions db)
           (alter (fun row => apply_update row u) user_id (user_settings db)))
      kwargs db in
  user_settings db' !! user_id = Some (fold_left apply_update kwargs row)
  /\ (forall v, v <> user_id -> user_settings db' !! v = user_settings db !! v)
  /\ sessions db' = sessions db.
Proof.
  revert db row. induction kwargs as [|u kwargs IH]; intros db row H; cbn.
  - auto.
  - specialize (IH (mkdb (sessions db)
                      (alter (fun row => apply_update row u) user_id
                         (user_settings db)))
                   (apply_update row u)).
    cbn in IH. destruct IH as (I1 & I2 & I3).
    + rewrite lookup_alter_eq, H. reflexivity.
    + split; [exact I1|]. split; [|exact I3].
      intros v Hv. rewrite I2 by exact Hv. apply lookup_alter_ne. congruence.
Qed.

(** X29: settings are created once, with the column defaults, and read back as
    they are; an update changes the named columns of the one user, in the
    order given, leaves unknown keys without effect and leaves every other
    user and the sessions alone. *)
Theorem settings_read_back (user_id : Z) (kwargs : list setting_update)
    (db : database) :
  let row := fst (get_user_settings user_id db) in
  let db1 := snd (get_user_settings user_id db) in
  let db2 := update_user_setting user_id kwargs db in
  (user_settings db !! user_id = None -> row = default_settings)
  /\ get_user_settings user_id db1 = (row, db1)
  /\ get_user_settings user_id db2
     = (fold_left apply_update kwargs row, db2)
  /\ (forall v, v <> user_id ->
        user_settings db2 !! v = user_settings db !! v)
  /\ sessions db2 = sessions db.
Proof.
  cbv zeta. pose proof (get_user_settings_lookup user_id db) as G.
  unfold update_user_setting.
  destruct (get_user_settings user_id db) as [row db1] eqn:E. cbn [fst snd] in *.
  destruct (update_fold user_id kwargs db1 row G) as (U1 & U2 & U3).
  split; [|split; [|split; [|split]]].
  - intros N. unfold get_user_settings in E. rewrite N in E. congruence.
  - unfold get_user_settings. rewrite G. reflexivity.
  - unfold get_user_settings at 1. rewrite U1. reflexivity.
  - intros v Hv. rewrite U2 by exact Hv.
    unfold get_user_settings in E.
    destruct (user_settings db !! user_id); injection E as <- <-;
      [reflexivity|]. cbn. apply lookup_insert_ne. congruence.
  - rewrite U3. unfold get_user_settings in E.
    destruct (user_settings db !! user_id); injection E as <- <-; reflexivity.
Qed.

(** ** The repository's database tests *)

Example test_add_apparat :
  fst (add_apparat 123 "Heater" 750 1500 no_tables) = Exn.Return true.
Proof. reflexivity. Qed.

Example test_add_duplicate_apparat :
  fst (add_apparat 123 "Heater" 500 1000 heater_tables) = Exn.Return false.
Proof. reflexivity. Qed.

Example test_add_apparat_case_insensitive :
  fst (add_apparat 123 "heater" 500 1000 heater_tables) = Exn.Return false.
Proof. reflexivity. Qed.

Example test_get_apparat :
  get_apparat 123 "Heater" heater_tables
  = Some (mkapparat 1 123 "Heater" 750 1500).
Proof. reflexivity. Qed.

Example test_get_apparat_case_insensitive :
  get_apparat 123 "HEATER" heater_tables <> None.
Proof. discriminate. Qed.

Example test_get_nonexistent_apparat :
  get_apparat 123 "DoesNotExist" no_tables = None.
Proof. reflexivity. Qed.

Example test_get_all_apparater :
  let t1 := snd (add_apparat 123 "Fan" 50 100 heater_tables) in
  let t2 := snd (add_apparat 456 "Other" 100 200 t1) in
  map a_name (get_all_apparater 123 t2) = ["Fan"; "Heater"]%string.
Proof. reflexivity. Qed.

Example test_delete_apparat :
  fst (delete_apparat 123 "Heater" heater_tables) = true
  /\ get_apparat 123 "Heater" (snd (delete_apparat 123 "Heater" heater_tables))
     = None.
Proof. split; reflexivity. Qed.

Example test_delete_nonexistent_apparat :
  fst (delete_apparat 123 "DoesNotExist" no_tables) = false.
Proof. reflexivity. Qed.

Example test_start_session :
  fst (start_session (at_time 2025 3 10 18 0) 123 1 "avg" 1125 heater_tables)
  = 1.
Proof. reflexivity. Qed.

Example test_get_active_session :
  option_map
    (fun sa => (r_watt_mode (fst sa), r_actual_watt (fst sa), a_name (snd sa)))
    (get_active_session 123 running_tables)
  = Some ("high", 1500, "Heater")%string.
Proof. reflexivity. Qed.

Example test_no_active_session : get_active_session 123 no_tables = None.
Proof. reflexivity. Qed.

Example test_end_session :
  get_active_session 123
    (end_session (at_time 2025 3 10 20 0) 1 2.25 2.72 4.05 6.77 running_tables)
  = None.
Proof. reflexivity. Qed.

Example test_cancel_session :
  get_active_session 123
    (cancel_session (at_time 2025 3 10 20 0) 1 running_tables)
  = None.
Proof. reflexivity. Qed.

(** The row created for a new user holds the column defaults; the fixed
    cost is the 1.0 of the schema. *)
Example test_get_default_settings :
  fst (get_user_settings 123 (mkdb [] ∅)) = mksettings 1.0 None 1 "NO1" 0.
Proof. reflexivity. Qed.

Example test_update_setting :
  let db := snd (get_user_settings 123 (mkdb [] ∅)) in
  let row :=
    fst (get_user_settings 123
           (update_user_setting 123 [Set_fixed_cost_nok 2.0; Set_region "NO5"]
              db)) in
  fixed_cost_nok row = 2.0%Q /\ region row = "NO5"%string.
Proof. split; vm_compute; reflexivity. Qed.

Example test_update_budget :
  let db := snd (get_user_settings 123 (mkdb [] ∅)) in
  budget_nok
    (fst (get_user_settings 123
            (update_user_setting 123 [Set_budget_nok (Some 200.0%Q)] db)))
  = Some 200.0%Q.
Proof. vm_compute. reflexivity. Qed.

(** [toordinal] at the epoch and across the end of a February. *)
Example toordinal_values :
  toordinal (mkdate 1970 1 1) = 719163
  /\ toordinal (mkdate 2024 3 1) - toordinal (mkdate 2024 2 28) = 2
  /\ toordinal (mkdate 2025 3 1) - toordinal (mkdate 2025 2 28) = 1.
Proof. repeat split; vm_compute; reflexivity. Qed.

(** A session started at 18:00 raises the long-session alert at 20:00 and
    not at 19:59. *)
Example runtime_alert_at_two_hours :
  match check_runtime_alert (at_time 2025 3 10 20 0) 123 running_tables with
  | Some (LongSession name hours) => name = "Heater"%string /\ (hours == 2)%Q
  | _ => False
  end
  /\ check_runtime_alert (at_time 2025 3 10 19 59) 123 running_tables = None.
Proof. split; [split|]; vm_compute; reflexivity. Qed.
